(** * Bell103: AFSK modem (afsk.cpp)

    A shallow embedding of the sample-synchronous transmit and receive
    state machines, the serial bridge (flow control and escape sequence)
    and the byte queues of [afsk.cpp], with theorems about the behaviour
    described in the specification.

    Integers of the program are kept as [Z] with the wrap-around of their
    C type written out ([u8], [u16], [u32], [i8], [i16]). *)

From Stdlib Require Import ZArith List Bool Lia.
From stdpp Require Import base list.
Import ListNotations.
Local Open Scope Z_scope.

(** ** Machine integers *)

Definition u8 (z : Z) : Z := z mod 256.
Definition u16 (z : Z) : Z := z mod 65536.
Definition u32 (z : Z) : Z := z mod 4294967296.
Definition i8 (z : Z) : Z := (z + 128) mod 256 - 128.
Definition i16 (z : Z) : Z := (z + 32768) mod 65536 - 32768.

(** [ON]/[OFF] and the two tone symbols.  The code uses the symbols as
    numbers: [tx.dtbit = tx.data & 0x01], [step[tx.dtbit]],
    [rx.bitsum += bt]. *)
Definition OFF : Z := 0.
Definition ON : Z := 1.
Definition SPACE : Z := 0.
Definition MARK : Z := 1.

(** ** The bounded ring buffer *)

Module Fifo.

(** Modelled from the spec: the class FIFO (fifo.h, fifo.cpp) is not among
    the sources.  Capacity is [2^N]; the write index (head) and the read
    index (tail) move modulo the capacity; [f_len] is the occupancy that
    [len()] reports. *)
Record t : Type := mk {
  f_bits : nat;
  f_buf  : list Z;
  f_head : nat;
  f_tail : nat;
  f_len  : nat
}.

Definition cap (f : t) : nat := (2 ^ f_bits f)%nat.

(** Modelled from the spec: [FIFO(N)] builds an empty queue of capacity [2^N]. *)
Definition create (n : nat) : t :=
  mk n (repeat 0 (2 ^ n)%nat) 0 0 0.

(** Modelled from the spec: [len()]. *)
Definition len (f : t) : Z := Z.of_nat (f_len f).

(** Modelled from the spec: [empty()]. *)
Definition empty (f : t) : bool := Nat.eqb (f_len f) 0.

Definition full (f : t) : bool := Nat.leb (cap f) (f_len f).

(** Modelled from the spec: [in(byte) -> bool] reports failure when the
    queue is full and then stores nothing. *)
Definition put (x : Z) (f : t) : bool * t :=
  if full f then (false, f)
  else (true, mk (f_bits f) (<[f_head f := x]> (f_buf f))
                 (S (f_head f) mod cap f) (f_tail f) (S (f_len f))).

(** Modelled from the spec: [out() -> byte].  On an empty queue the call is
    rejected: no byte is returned and the queue is left as it is. *)
Definition get (f : t) : option Z * t :=
  if empty f then (None, f)
  else (Some (nth (f_tail f) (f_buf f) 0),
        mk (f_bits f) (f_buf f) (f_head f)
           (S (f_tail f) mod cap f) (Nat.pred (f_len f))).

(** Modelled from the spec: [clear()]. *)
Definition clear (f : t) : t :=
  mk (f_bits f) (f_buf f) 0 0 0.

(** The bytes stored, oldest first. *)
Definition contents (f : t) : list Z :=
  map (fun k => nth ((f_tail f + k) mod cap f) (f_buf f) 0) (seq 0 (f_len f)).

(** Representation invariant of the ring. *)
Record wf (f : t) : Prop := mkwf {
  wf_buf  : length (f_buf f) = cap f;
  wf_tail : (f_tail f < cap f)%nat;
  wf_len  : (f_len f <= cap f)%nat;
  wf_head : f_head f = ((f_tail f + f_len f) mod cap f)%nat
}.

(** The invariant as a test, for concrete buffers. *)
Definition wfb (f : t) : bool :=
  Nat.eqb (length (f_buf f)) (cap f) && Nat.ltb (f_tail f) (cap f) &&
  Nat.leb (f_len f) (cap f) && Nat.eqb (f_head f) ((f_tail f + f_len f) mod cap f).

(** A script of queue calls, for statements about every sequence of calls. *)
Inductive op : Type := In (x : Z) | Out.

Definition apply (o : op) (f : t) : t :=
  match o with
  | In x => snd (put x f)
  | Out => snd (get f)
  end.

Definition run (os : list op) (f : t) : t := fold_left (fun g o => apply o g) os f.

(** The same script on the plain list that the queue stands for. *)
Definition apply_spec (c : nat) (o : op) (l : list Z) : list Z :=
  match o with
  | In x => if Nat.ltb (length l) c then l ++ [x] else l
  | Out => tl l
  end.

Definition run_spec (c : nat) (os : list op) (l : list Z) : list Z :=
  fold_left (fun g o => apply_spec c o g) os l.

End Fifo.


(** ** Enumerations and constants *)

(** The framing states shared by the transmitter and the receiver. *)
Inductive state_t : Type :=
  WAIT | CARRIER | PREAMBLE | START_BIT | DATA_BIT | STOP_BIT | TRAIL.

Inductive mode_t : Type := COMMAND_MODE | DATA_MODE.

Inductive dir_t : Type := ORIGINATING | ANSWERING.

(** [fsqTX] and [fsqRX] point into [cfgAFSK]: at [orig] or at [answ]. *)
Inductive fsq_sel : Type := SelOrig | SelAnsw.

Definition state_eqb (a b : state_t) : bool :=
  match a, b with
  | WAIT, WAIT | CARRIER, CARRIER | PREAMBLE, PREAMBLE | START_BIT, START_BIT
  | DATA_BIT, DATA_BIT | STOP_BIT, STOP_BIT | TRAIL, TRAIL => true
  | _, _ => false
  end.

(** Queue sizes and flow-control thresholds ([uint8_t] constants). *)
Definition fifoSize : Z := 6.
Definition fifoLow : Z := u8 (Z.shiftl 1 (fifoSize - 2)).
Definition fifoMed : Z := u8 (Z.shiftl 1 (fifoSize - 1)).
Definition fifoHgh : Z := u8 (Z.shiftl 1 fifoSize - fifoLow).

(** AVR port B bit numbers and [_BV]. *)
Definition PORTB0 : Z := 0.
Definition PORTB1 : Z := 1.
Definition PORTB2 : Z := 2.
Definition _BV (b : Z) : Z := Z.shiftl 1 b.
Definition port_clr (p b : Z) : Z := u8 (Z.land p (Z.lnot (_BV b))).
Definition port_set (p b : Z) : Z := u8 (Z.lor p (_BV b)).

(** ** Services and constants from outside afsk.cpp *)

(** Modelled from the spec: the sampling rate, the carrier length and the
    ADC bias are constants of afsk.h; the oscillator ([wave.sample],
    [wave.getStep]) and the tone dialler ([dtmf]) are services whose code is
    not among the sources.  They are kept abstract. *)
Class Platform : Type := {
  F_SAMPLE : Z;
  carBits : Z;
  bias : Z;
  wave_sample : Z -> Z;
  wave_getStep : Z -> Z;
  dtmf_t : Type;
  dtmf_setDuration : Z -> dtmf_t -> dtmf_t;
  dtmf_send : Z -> dtmf_t -> dtmf_t;
  dtmf_getSample : dtmf_t -> bool * dtmf_t;
  dtmf_sample : dtmf_t -> Z
}.

(** ** State *)

(** Projections reduce directly on a constructor, which keeps the long
    chains of single-field updates cheap to compare. *)
Set Primitive Projections.

(** Modelled from the spec: the transmitter state [tx] (declared in afsk.h, which is
    not among the sources); its counters are taken as 8-bit, the phase
    index as 16-bit. *)
Record TX_t : Type := mkTX_t {
  tx_active : Z;
  tx_carrier : Z;
  tx_state : state_t;
  tx_dtbit : Z;
  tx_data : Z;
  tx_bits : Z;
  tx_clk : Z;
  tx_idx : Z
}.
Definition set_tx_active (v : Z) (r : TX_t) : TX_t :=
  mkTX_t v (tx_carrier r) (tx_state r) (tx_dtbit r) (tx_data r) (tx_bits r) (tx_clk r) (tx_idx r).
Definition set_tx_carrier (v : Z) (r : TX_t) : TX_t :=
  mkTX_t (tx_active r) v (tx_state r) (tx_dtbit r) (tx_data r) (tx_bits r) (tx_clk r) (tx_idx r).
Definition set_tx_state (v : state_t) (r : TX_t) : TX_t :=
  mkTX_t (tx_active r) (tx_carrier r) v (tx_dtbit r) (tx_data r) (tx_bits r) (tx_clk r) (tx_idx r).
Definition set_tx_dtbit (v : Z) (r : TX_t) : TX_t :=
  mkTX_t (tx_active r) (tx_carrier r) (tx_state r) v (tx_data r) (tx_bits r) (tx_clk r) (tx_idx r).
Definition set_tx_data (v : Z) (r : TX_t) : TX_t :=
  mkTX_t (tx_active r) (tx_carrier r) (tx_state r) (tx_dtbit r) v (tx_bits r) (tx_clk r) (tx_idx r).
Definition set_tx_bits (v : Z) (r : TX_t) : TX_t :=
  mkTX_t (tx_active r) (tx_carrier r) (tx_state r) (tx_dtbit r) (tx_data r) v (tx_clk r) (tx_idx r).
Definition set_tx_clk (v : Z) (r : TX_t) : TX_t :=
  mkTX_t (tx_active r) (tx_carrier r) (tx_state r) (tx_dtbit r) (tx_data r) (tx_bits r) v (tx_idx r).
Definition set_tx_idx (v : Z) (r : TX_t) : TX_t :=
  mkTX_t (tx_active r) (tx_carrier r) (tx_state r) (tx_dtbit r) (tx_data r) (tx_bits r) (tx_clk r) v.

(** Modelled from the spec: the receiver state [rx] (declared in afsk.h); counters and
    the shift registers are taken as 8-bit, the filter taps as signed 16-bit. *)
Record RX_t : Type := mkRX_t {
  rx_active : Z;
  rx_carrier : Z;
  rx_state : state_t;
  rx_data : Z;
  rx_bits : Z;
  rx_clk : Z;
  rx_bitsum : Z;
  rx_stream : Z;
  rx_iirX0 : Z;
  rx_iirX1 : Z;
  rx_iirY0 : Z;
  rx_iirY1 : Z
}.
Definition set_rx_active (v : Z) (r : RX_t) : RX_t :=
  mkRX_t v (rx_carrier r) (rx_state r) (rx_data r) (rx_bits r) (rx_clk r) (rx_bitsum r) (rx_stream r) (rx_iirX0 r) (rx_iirX1 r) (rx_iirY0 r) (rx_iirY1 r).
Definition set_rx_carrier (v : Z) (r : RX_t) : RX_t :=
  mkRX_t (rx_active r) v (rx_state r) (rx_data r) (rx_bits r) (rx_clk r) (rx_bitsum r) (rx_stream r) (rx_iirX0 r) (rx_iirX1 r) (rx_iirY0 r) (rx_iirY1 r).
Definition set_rx_state (v : state_t) (r : RX_t) : RX_t :=
  mkRX_t (rx_active r) (rx_carrier r) v (rx_data r) (rx_bits r) (rx_clk r) (rx_bitsum r) (rx_stream r) (rx_iirX0 r) (rx_iirX1 r) (rx_iirY0 r) (rx_iirY1 r).
Definition set_rx_data (v : Z) (r : RX_t) : RX_t :=
  mkRX_t (rx_active r) (rx_carrier r) (rx_state r) v (rx_bits r) (rx_clk r) (rx_bitsum r) (rx_stream r) (rx_iirX0 r) (rx_iirX1 r) (rx_iirY0 r) (rx_iirY1 r).
Definition set_rx_bits (v : Z) (r : RX_t) : RX_t :=
  mkRX_t (rx_active r) (rx_carrier r) (rx_state r) (rx_data r) v (rx_clk r) (rx_bitsum r) (rx_stream r) (rx_iirX0 r) (rx_iirX1 r) (rx_iirY0 r) (rx_iirY1 r).
Definition set_rx_clk (v : Z) (r : RX_t) : RX_t :=
  mkRX_t (rx_active r) (rx_carrier r) (rx_state r) (rx_data r) (rx_bits r) v (rx_bitsum r) (rx_stream r) (rx_iirX0 r) (rx_iirX1 r) (rx_iirY0 r) (rx_iirY1 r).
Definition set_rx_bitsum (v : Z) (r : RX_t) : RX_t :=
  mkRX_t (rx_active r) (rx_carrier r) (rx_state r) (rx_data r) (rx_bits r) (rx_clk r) v (rx_stream r) (rx_iirX0 r) (rx_iirX1 r) (rx_iirY0 r) (rx_iirY1 r).
Definition set_rx_stream (v : Z) (r : RX_t) : RX_t :=
  mkRX_t (rx_active r) (rx_carrier r) (rx_state r) (rx_data r) (rx_bits r) (rx_clk r) (rx_bitsum r) v (rx_iirX0 r) (rx_iirX1 r) (rx_iirY0 r) (rx_iirY1 r).
Definition set_rx_iirX0 (v : Z) (r : RX_t) : RX_t :=
  mkRX_t (rx_active r) (rx_carrier r) (rx_state r) (rx_data r) (rx_bits r) (rx_clk r) (rx_bitsum r) (rx_stream r) v (rx_iirX1 r) (rx_iirY0 r) (rx_iirY1 r).
Definition set_rx_iirX1 (v : Z) (r : RX_t) : RX_t :=
  mkRX_t (rx_active r) (rx_carrier r) (rx_state r) (rx_data r) (rx_bits r) (rx_clk r) (rx_bitsum r) (rx_stream r) (rx_iirX0 r) v (rx_iirY0 r) (rx_iirY1 r).
Definition set_rx_iirY0 (v : Z) (r : RX_t) : RX_t :=
  mkRX_t (rx_active r) (rx_carrier r) (rx_state r) (rx_data r) (rx_bits r) (rx_clk r) (rx_bitsum r) (rx_stream r) (rx_iirX0 r) (rx_iirX1 r) v (rx_iirY1 r).
Definition set_rx_iirY1 (v : Z) (r : RX_t) : RX_t :=
  mkRX_t (rx_active r) (rx_carrier r) (rx_state r) (rx_data r) (rx_bits r) (rx_clk r) (rx_bitsum r) (rx_stream r) (rx_iirX0 r) (rx_iirX1 r) (rx_iirY0 r) v.

(** Modelled from the spec: one direction of a modem profile: the two tone frequencies,
    their phase steps, the delay-line length and the polarity bit. *)
Record FSQ_t : Type := mkFSQ_t {
  freq_space : Z;
  freq_mark : Z;
  step_space : Z;
  step_mark : Z;
  queuelen : Z;
  polarity : Z
}.
Definition set_step_space (v : Z) (r : FSQ_t) : FSQ_t :=
  mkFSQ_t (freq_space r) (freq_mark r) v (step_mark r) (queuelen r) (polarity r).
Definition set_step_mark (v : Z) (r : FSQ_t) : FSQ_t :=
  mkFSQ_t (freq_space r) (freq_mark r) (step_space r) v (queuelen r) (polarity r).

(** Modelled from the spec: a modem profile [AFSK_t]: both directions, the data-bit count
    and the baud rate. *)
Record AFSK_t : Type := mkAFSK_t {
  orig : FSQ_t;
  answ : FSQ_t;
  dtbits : Z;
  baud : Z
}.
Definition set_orig (v : FSQ_t) (r : AFSK_t) : AFSK_t :=
  mkAFSK_t v (answ r) (dtbits r) (baud r).
Definition set_answ (v : FSQ_t) (r : AFSK_t) : AFSK_t :=
  mkAFSK_t (orig r) v (dtbits r) (baud r).

(** Modelled from the spec: the configuration [CFG_t] that [cfg] points to: the S registers,
    local echo, flow-control mode, carrier-enable mask, reverse-answer flag. *)
Record CFG_t : Type := mkCFG_t {
  sregs : list Z;
  dtecho : Z;
  flwctr : Z;
  txcarr : Z;
  revans : Z
}.
Definition set_sregs (v : list Z) (r : CFG_t) : CFG_t :=
  mkCFG_t v (dtecho r) (flwctr r) (txcarr r) (revans r).
Definition set_flwctr (v : Z) (r : CFG_t) : CFG_t :=
  mkCFG_t (sregs r) (dtecho r) v (txcarr r) (revans r).

Definition sreg (c : CFG_t) (n : nat) : Z := nth n (sregs c) 0.

(** [step[b]] of a direction. *)
Definition fsq_step (f : FSQ_t) (b : Z) : Z :=
  if b =? SPACE then step_space f else step_mark f.

Section Modem.
Context {P : Platform}.

(** The modem object: the members of class AFSK, the three queues, the
    statics of [doSIO] and [txHandle], and the hardware the code touches
    (PORTB, the PWM compare register, the serial transport). *)
Record Modem : Type := mkModem {
  tx : TX_t;
  rx : RX_t;
  txFIFO : Fifo.t;
  rxFIFO : Fifo.t;
  dyFIFO : Fifo.t;
  cfg : CFG_t;
  cfgAFSK : AFSK_t;
  fsqTX : fsq_sel;
  fsqRX : fsq_sel;
  fulBit : Z;
  hlfBit : Z;
  qrtBit : Z;
  octBit : Z;
  cdTotal : Z;
  cdCount : Z;
  _mode : mode_t;
  _online : Z;
  _dir : dir_t;
  _guard : Z;
  flowControl : bool;
  _dialing : Z;
  dialChar : Z;
  _commaCnt : Z;
  _commaMax : Z;
  dtmf : dtmf_t;
  escCount : Z;
  escFirst : Z;
  escLast : Z;
  lstChar : Z;
  now : Z;
  PORTB : Z;
  OCR2 : Z;
  serial_in : list Z;
  serial_out : list Z
}.

Definition set_tx (v : TX_t) (r : Modem) : Modem :=
  mkModem v (rx r) (txFIFO r) (rxFIFO r) (dyFIFO r) (cfg r) (cfgAFSK r) (fsqTX r) (fsqRX r) (fulBit r) (hlfBit r) (qrtBit r) (octBit r) (cdTotal r) (cdCount r) (_mode r) (_online r) (_dir r) (_guard r) (flowControl r) (_dialing r) (dialChar r) (_commaCnt r) (_commaMax r) (dtmf r) (escCount r) (escFirst r) (escLast r) (lstChar r) (now r) (PORTB r) (OCR2 r) (serial_in r) (serial_out r).
Definition set_rx (v : RX_t) (r : Modem) : Modem :=
  mkModem (tx r) v (txFIFO r) (rxFIFO r) (dyFIFO r) (cfg r) (cfgAFSK r) (fsqTX r) (fsqRX r) (fulBit r) (hlfBit r) (qrtBit r) (octBit r) (cdTotal r) (cdCount r) (_mode r) (_online r) (_dir r) (_guard r) (flowControl r) (_dialing r) (dialChar r) (_commaCnt r) (_commaMax r) (dtmf r) (escCount r) (escFirst r) (escLast r) (lstChar r) (now r) (PORTB r) (OCR2 r) (serial_in r) (serial_out r).
Definition set_txFIFO (v : Fifo.t) (r : Modem) : Modem :=
  mkModem (tx r) (rx r) v (rxFIFO r) (dyFIFO r) (cfg r) (cfgAFSK r) (fsqTX r) (fsqRX r) (fulBit r) (hlfBit r) (qrtBit r) (octBit r) (cdTotal r) (cdCount r) (_mode r) (_online r) (_dir r) (_guard r) (flowControl r) (_dialing r) (dialChar r) (_commaCnt r) (_commaMax r) (dtmf r) (escCount r) (escFirst r) (escLast r) (lstChar r) (now r) (PORTB r) (OCR2 r) (serial_in r) (serial_out r).
Definition set_rxFIFO (v : Fifo.t) (r : Modem) : Modem :=
  mkModem (tx r) (rx r) (txFIFO r) v (dyFIFO r) (cfg r) (cfgAFSK r) (fsqTX r) (fsqRX r) (fulBit r) (hlfBit r) (qrtBit r) (octBit r) (cdTotal r) (cdCount r) (_mode r) (_online r) (_dir r) (_guard r) (flowControl r) (_dialing r) (dialChar r) (_commaCnt r) (_commaMax r) (dtmf r) (escCount r) (escFirst r) (escLast r) (lstChar r) (now r) (PORTB r) (OCR2 r) (serial_in r) (serial_out r).
Definition set_dyFIFO (v : Fifo.t) (r : Modem) : Modem :=
  mkModem (tx r) (rx r) (txFIFO r) (rxFIFO r) v (cfg r) (cfgAFSK r) (fsqTX r) (fsqRX r) (fulBit r) (hlfBit r) (qrtBit r) (octBit r) (cdTotal r) (cdCount r) (_mode r) (_online r) (_dir r) (_guard r) (flowControl r) (_dialing r) (dialChar r) (_commaCnt r) (_commaMax r) (dtmf r) (escCount r) (escFirst r) (escLast r) (lstChar r) (now r) (PORTB r) (OCR2 r) (serial_in r) (serial_out r).
Definition set_cfg (v : CFG_t) (r : Modem) : Modem :=
  mkModem (tx r) (rx r) (txFIFO r) (rxFIFO r) (dyFIFO r) v (cfgAFSK r) (fsqTX r) (fsqRX r) (fulBit r) (hlfBit r) (qrtBit r) (octBit r) (cdTotal r) (cdCount r) (_mode r) (_online r) (_dir r) (_guard r) (flowControl r) (_dialing r) (dialChar r) (_commaCnt r) (_commaMax r) (dtmf r) (escCount r) (escFirst r) (escLast r) (lstChar r) (now r) (PORTB r) (OCR2 r) (serial_in r) (serial_out r).
Definition set_cfgAFSK (v : AFSK_t) (r : Modem) : Modem :=
  mkModem (tx r) (rx r) (txFIFO r) (rxFIFO r) (dyFIFO r) (cfg r) v (fsqTX r) (fsqRX r) (fulBit r) (hlfBit r) (qrtBit r) (octBit r) (cdTotal r) (cdCount r) (_mode r) (_online r) (_dir r) (_guard r) (flowControl r) (_dialing r) (dialChar r) (_commaCnt r) (_commaMax r) (dtmf r) (escCount r) (escFirst r) (escLast r) (lstChar r) (now r) (PORTB r) (OCR2 r) (serial_in r) (serial_out r).
Definition set_fsqTX (v : fsq_sel) (r : Modem) : Modem :=
  mkModem (tx r) (rx r) (txFIFO r) (rxFIFO r) (dyFIFO r) (cfg r) (cfgAFSK r) v (fsqRX r) (fulBit r) (hlfBit r) (qrtBit r) (octBit r) (cdTotal r) (cdCount r) (_mode r) (_online r) (_dir r) (_guard r) (flowControl r) (_dialing r) (dialChar r) (_commaCnt r) (_commaMax r) (dtmf r) (escCount r) (escFirst r) (escLast r) (lstChar r) (now r) (PORTB r) (OCR2 r) (serial_in r) (serial_out r).
Definition set_fsqRX (v : fsq_sel) (r : Modem) : Modem :=
  mkModem (tx r) (rx r) (txFIFO r) (rxFIFO r) (dyFIFO r) (cfg r) (cfgAFSK r) (fsqTX r) v (fulBit r) (hlfBit r) (qrtBit r) (octBit r) (cdTotal r) (cdCount r) (_mode r) (_online r) (_dir r) (_guard r) (flowControl r) (_dialing r) (dialChar r) (_commaCnt r) (_commaMax r) (dtmf r) (escCount r) (escFirst r) (escLast r) (lstChar r) (now r) (PORTB r) (OCR2 r) (serial_in r) (serial_out r).
Definition set_fulBit (v : Z) (r : Modem) : Modem :=
  mkModem (tx r) (rx r) (txFIFO r) (rxFIFO r) (dyFIFO r) (cfg r) (cfgAFSK r) (fsqTX r) (fsqRX r) v (hlfBit r) (qrtBit r) (octBit r) (cdTotal r) (cdCount r) (_mode r) (_online r) (_dir r) (_guard r) (flowControl r) (_dialing r) (dialChar r) (_commaCnt r) (_commaMax r) (dtmf r) (escCount r) (escFirst r) (escLast r) (lstChar r) (now r) (PORTB r) (OCR2 r) (serial_in r) (serial_out r).
Definition set_hlfBit (v : Z) (r : Modem) : Modem :=
  mkModem (tx r) (rx r) (txFIFO r) (rxFIFO r) (dyFIFO r) (cfg r) (cfgAFSK r) (fsqTX r) (fsqRX r) (fulBit r) v (qrtBit r) (octBit r) (cdTotal r) (cdCount r) (_mode r) (_online r) (_dir r) (_guard r) (flowControl r) (_dialing r) (dialChar r) (_commaCnt r) (_commaMax r) (dtmf r) (escCount r) (escFirst r) (escLast r) (lstChar r) (now r) (PORTB r) (OCR2 r) (serial_in r) (serial_out r).
Definition set_qrtBit (v : Z) (r : Modem) : Modem :=
  mkModem (tx r) (rx r) (txFIFO r) (rxFIFO r) (dyFIFO r) (cfg r) (cfgAFSK r) (fsqTX r) (fsqRX r) (fulBit r) (hlfBit r) v (octBit r) (cdTotal r) (cdCount r) (_mode r) (_online r) (_dir r) (_guard r) (flowControl r) (_dialing r) (dialChar r) (_commaCnt r) (_commaMax r) (dtmf r) (escCount r) (escFirst r) (escLast r) (lstChar r) (now r) (PORTB r) (OCR2 r) (serial_in r) (serial_out r).
Definition set_octBit (v : Z) (r : Modem) : Modem :=
  mkModem (tx r) (rx r) (txFIFO r) (rxFIFO r) (dyFIFO r) (cfg r) (cfgAFSK r) (fsqTX r) (fsqRX r) (fulBit r) (hlfBit r) (qrtBit r) v (cdTotal r) (cdCount r) (_mode r) (_online r) (_dir r) (_guard r) (flowControl r) (_dialing r) (dialChar r) (_commaCnt r) (_commaMax r) (dtmf r) (escCount r) (escFirst r) (escLast r) (lstChar r) (now r) (PORTB r) (OCR2 r) (serial_in r) (serial_out r).
Definition set_cdTotal (v : Z) (r : Modem) : Modem :=
  mkModem (tx r) (rx r) (txFIFO r) (rxFIFO r) (dyFIFO r) (cfg r) (cfgAFSK r) (fsqTX r) (fsqRX r) (fulBit r) (hlfBit r) (qrtBit r) (octBit r) v (cdCount r) (_mode r) (_online r) (_dir r) (_guard r) (flowControl r) (_dialing r) (dialChar r) (_commaCnt r) (_commaMax r) (dtmf r) (escCount r) (escFirst r) (escLast r) (lstChar r) (now r) (PORTB r) (OCR2 r) (serial_in r) (serial_out r).
Definition set_cdCount (v : Z) (r : Modem) : Modem :=
  mkModem (tx r) (rx r) (txFIFO r) (rxFIFO r) (dyFIFO r) (cfg r) (cfgAFSK r) (fsqTX r) (fsqRX r) (fulBit r) (hlfBit r) (qrtBit r) (octBit r) (cdTotal r) v (_mode r) (_online r) (_dir r) (_guard r) (flowControl r) (_dialing r) (dialChar r) (_commaCnt r) (_commaMax r) (dtmf r) (escCount r) (escFirst r) (escLast r) (lstChar r) (now r) (PORTB r) (OCR2 r) (serial_in r) (serial_out r).
Definition set__mode (v : mode_t) (r : Modem) : Modem :=
  mkModem (tx r) (rx r) (txFIFO r) (rxFIFO r) (dyFIFO r) (cfg r) (cfgAFSK r) (fsqTX r) (fsqRX r) (fulBit r) (hlfBit r) (qrtBit r) (octBit r) (cdTotal r) (cdCount r) v (_online r) (_dir r) (_guard r) (flowControl r) (_dialing r) (dialChar r) (_commaCnt r) (_commaMax r) (dtmf r) (escCount r) (escFirst r) (escLast r) (lstChar r) (now r) (PORTB r) (OCR2 r) (serial_in r) (serial_out r).
Definition set__online (v : Z) (r : Modem) : Modem :=
  mkModem (tx r) (rx r) (txFIFO r) (rxFIFO r) (dyFIFO r) (cfg r) (cfgAFSK r) (fsqTX r) (fsqRX r) (fulBit r) (hlfBit r) (qrtBit r) (octBit r) (cdTotal r) (cdCount r) (_mode r) v (_dir r) (_guard r) (flowControl r) (_dialing r) (dialChar r) (_commaCnt r) (_commaMax r) (dtmf r) (escCount r) (escFirst r) (escLast r) (lstChar r) (now r) (PORTB r) (OCR2 r) (serial_in r) (serial_out r).
Definition set__dir (v : dir_t) (r : Modem) : Modem :=
  mkModem (tx r) (rx r) (txFIFO r) (rxFIFO r) (dyFIFO r) (cfg r) (cfgAFSK r) (fsqTX r) (fsqRX r) (fulBit r) (hlfBit r) (qrtBit r) (octBit r) (cdTotal r) (cdCount r) (_mode r) (_online r) v (_guard r) (flowControl r) (_dialing r) (dialChar r) (_commaCnt r) (_commaMax r) (dtmf r) (escCount r) (escFirst r) (escLast r) (lstChar r) (now r) (PORTB r) (OCR2 r) (serial_in r) (serial_out r).
Definition set__guard (v : Z) (r : Modem) : Modem :=
  mkModem (tx r) (rx r) (txFIFO r) (rxFIFO r) (dyFIFO r) (cfg r) (cfgAFSK r) (fsqTX r) (fsqRX r) (fulBit r) (hlfBit r) (qrtBit r) (octBit r) (cdTotal r) (cdCount r) (_mode r) (_online r) (_dir r) v (flowControl r) (_dialing r) (dialChar r) (_commaCnt r) (_commaMax r) (dtmf r) (escCount r) (escFirst r) (escLast r) (lstChar r) (now r) (PORTB r) (OCR2 r) (serial_in r) (serial_out r).
Definition set_flowControl (v : bool) (r : Modem) : Modem :=
  mkModem (tx r) (rx r) (txFIFO r) (rxFIFO r) (dyFIFO r) (cfg r) (cfgAFSK r) (fsqTX r) (fsqRX r) (fulBit r) (hlfBit r) (qrtBit r) (octBit r) (cdTotal r) (cdCount r) (_mode r) (_online r) (_dir r) (_guard r) v (_dialing r) (dialChar r) (_commaCnt r) (_commaMax r) (dtmf r) (escCount r) (escFirst r) (escLast r) (lstChar r) (now r) (PORTB r) (OCR2 r) (serial_in r) (serial_out r).
Definition set__dialing (v : Z) (r : Modem) : Modem :=
  mkModem (tx r) (rx r) (txFIFO r) (rxFIFO r) (dyFIFO r) (cfg r) (cfgAFSK r) (fsqTX r) (fsqRX r) (fulBit r) (hlfBit r) (qrtBit r) (octBit r) (cdTotal r) (cdCount r) (_mode r) (_online r) (_dir r) (_guard r) (flowControl r) v (dialChar r) (_commaCnt r) (_commaMax r) (dtmf r) (escCount r) (escFirst r) (escLast r) (lstChar r) (now r) (PORTB r) (OCR2 r) (serial_in r) (serial_out r).
Definition set_dialChar (v : Z) (r : Modem) : Modem :=
  mkModem (tx r) (rx r) (txFIFO r) (rxFIFO r) (dyFIFO r) (cfg r) (cfgAFSK r) (fsqTX r) (fsqRX r) (fulBit r) (hlfBit r) (qrtBit r) (octBit r) (cdTotal r) (cdCount r) (_mode r) (_online r) (_dir r) (_guard r) (flowControl r) (_dialing r) v (_commaCnt r) (_commaMax r) (dtmf r) (escCount r) (escFirst r) (escLast r) (lstChar r) (now r) (PORTB r) (OCR2 r) (serial_in r) (serial_out r).
Definition set__commaCnt (v : Z) (r : Modem) : Modem :=
  mkModem (tx r) (rx r) (txFIFO r) (rxFIFO r) (dyFIFO r) (cfg r) (cfgAFSK r) (fsqTX r) (fsqRX r) (fulBit r) (hlfBit r) (qrtBit r) (octBit r) (cdTotal r) (cdCount r) (_mode r) (_online r) (_dir r) (_guard r) (flowControl r) (_dialing r) (dialChar r) v (_commaMax r) (dtmf r) (escCount r) (escFirst r) (escLast r) (lstChar r) (now r) (PORTB r) (OCR2 r) (serial_in r) (serial_out r).
Definition set__commaMax (v : Z) (r : Modem) : Modem :=
  mkModem (tx r) (rx r) (txFIFO r) (rxFIFO r) (dyFIFO r) (cfg r) (cfgAFSK r) (fsqTX r) (fsqRX r) (fulBit r) (hlfBit r) (qrtBit r) (octBit r) (cdTotal r) (cdCount r) (_mode r) (_online r) (_dir r) (_guard r) (flowControl r) (_dialing r) (dialChar r) (_commaCnt r) v (dtmf r) (escCount r) (escFirst r) (escLast r) (lstChar r) (now r) (PORTB r) (OCR2 r) (serial_in r) (serial_out r).
Definition set_dtmf (v : dtmf_t) (r : Modem) : Modem :=
  mkModem (tx r) (rx r) (txFIFO r) (rxFIFO r) (dyFIFO r) (cfg r) (cfgAFSK r) (fsqTX r) (fsqRX r) (fulBit r) (hlfBit r) (qrtBit r) (octBit r) (cdTotal r) (cdCount r) (_mode r) (_online r) (_dir r) (_guard r) (flowControl r) (_dialing r) (dialChar r) (_commaCnt r) (_commaMax r) v (escCount r) (escFirst r) (escLast r) (lstChar r) (now r) (PORTB r) (OCR2 r) (serial_in r) (serial_out r).
Definition set_escCount (v : Z) (r : Modem) : Modem :=
  mkModem (tx r) (rx r) (txFIFO r) (rxFIFO r) (dyFIFO r) (cfg r) (cfgAFSK r) (fsqTX r) (fsqRX r) (fulBit r) (hlfBit r) (qrtBit r) (octBit r) (cdTotal r) (cdCount r) (_mode r) (_online r) (_dir r) (_guard r) (flowControl r) (_dialing r) (dialChar r) (_commaCnt r) (_commaMax r) (dtmf r) v (escFirst r) (escLast r) (lstChar r) (now r) (PORTB r) (OCR2 r) (serial_in r) (serial_out r).
Definition set_escFirst (v : Z) (r : Modem) : Modem :=
  mkModem (tx r) (rx r) (txFIFO r) (rxFIFO r) (dyFIFO r) (cfg r) (cfgAFSK r) (fsqTX r) (fsqRX r) (fulBit r) (hlfBit r) (qrtBit r) (octBit r) (cdTotal r) (cdCount r) (_mode r) (_online r) (_dir r) (_guard r) (flowControl r) (_dialing r) (dialChar r) (_commaCnt r) (_commaMax r) (dtmf r) (escCount r) v (escLast r) (lstChar r) (now r) (PORTB r) (OCR2 r) (serial_in r) (serial_out r).
Definition set_escLast (v : Z) (r : Modem) : Modem :=
  mkModem (tx r) (rx r) (txFIFO r) (rxFIFO r) (dyFIFO r) (cfg r) (cfgAFSK r) (fsqTX r) (fsqRX r) (fulBit r) (hlfBit r) (qrtBit r) (octBit r) (cdTotal r) (cdCount r) (_mode r) (_online r) (_dir r) (_guard r) (flowControl r) (_dialing r) (dialChar r) (_commaCnt r) (_commaMax r) (dtmf r) (escCount r) (escFirst r) v (lstChar r) (now r) (PORTB r) (OCR2 r) (serial_in r) (serial_out r).
Definition set_lstChar (v : Z) (r : Modem) : Modem :=
  mkModem (tx r) (rx r) (txFIFO r) (rxFIFO r) (dyFIFO r) (cfg r) (cfgAFSK r) (fsqTX r) (fsqRX r) (fulBit r) (hlfBit r) (qrtBit r) (octBit r) (cdTotal r) (cdCount r) (_mode r) (_online r) (_dir r) (_guard r) (flowControl r) (_dialing r) (dialChar r) (_commaCnt r) (_commaMax r) (dtmf r) (escCount r) (escFirst r) (escLast r) v (now r) (PORTB r) (OCR2 r) (serial_in r) (serial_out r).
Definition set_now (v : Z) (r : Modem) : Modem :=
  mkModem (tx r) (rx r) (txFIFO r) (rxFIFO r) (dyFIFO r) (cfg r) (cfgAFSK r) (fsqTX r) (fsqRX r) (fulBit r) (hlfBit r) (qrtBit r) (octBit r) (cdTotal r) (cdCount r) (_mode r) (_online r) (_dir r) (_guard r) (flowControl r) (_dialing r) (dialChar r) (_commaCnt r) (_commaMax r) (dtmf r) (escCount r) (escFirst r) (escLast r) (lstChar r) v (PORTB r) (OCR2 r) (serial_in r) (serial_out r).
Definition set_PORTB (v : Z) (r : Modem) : Modem :=
  mkModem (tx r) (rx r) (txFIFO r) (rxFIFO r) (dyFIFO r) (cfg r) (cfgAFSK r) (fsqTX r) (fsqRX r) (fulBit r) (hlfBit r) (qrtBit r) (octBit r) (cdTotal r) (cdCount r) (_mode r) (_online r) (_dir r) (_guard r) (flowControl r) (_dialing r) (dialChar r) (_commaCnt r) (_commaMax r) (dtmf r) (escCount r) (escFirst r) (escLast r) (lstChar r) (now r) v (OCR2 r) (serial_in r) (serial_out r).
Definition set_OCR2 (v : Z) (r : Modem) : Modem :=
  mkModem (tx r) (rx r) (txFIFO r) (rxFIFO r) (dyFIFO r) (cfg r) (cfgAFSK r) (fsqTX r) (fsqRX r) (fulBit r) (hlfBit r) (qrtBit r) (octBit r) (cdTotal r) (cdCount r) (_mode r) (_online r) (_dir r) (_guard r) (flowControl r) (_dialing r) (dialChar r) (_commaCnt r) (_commaMax r) (dtmf r) (escCount r) (escFirst r) (escLast r) (lstChar r) (now r) (PORTB r) v (serial_in r) (serial_out r).
Definition set_serial_in (v : list Z) (r : Modem) : Modem :=
  mkModem (tx r) (rx r) (txFIFO r) (rxFIFO r) (dyFIFO r) (cfg r) (cfgAFSK r) (fsqTX r) (fsqRX r) (fulBit r) (hlfBit r) (qrtBit r) (octBit r) (cdTotal r) (cdCount r) (_mode r) (_online r) (_dir r) (_guard r) (flowControl r) (_dialing r) (dialChar r) (_commaCnt r) (_commaMax r) (dtmf r) (escCount r) (escFirst r) (escLast r) (lstChar r) (now r) (PORTB r) (OCR2 r) v (serial_out r).
Definition set_serial_out (v : list Z) (r : Modem) : Modem :=
  mkModem (tx r) (rx r) (txFIFO r) (rxFIFO r) (dyFIFO r) (cfg r) (cfgAFSK r) (fsqTX r) (fsqRX r) (fulBit r) (hlfBit r) (qrtBit r) (octBit r) (cdTotal r) (cdCount r) (_mode r) (_online r) (_dir r) (_guard r) (flowControl r) (_dialing r) (dialChar r) (_commaCnt r) (_commaMax r) (dtmf r) (escCount r) (escFirst r) (escLast r) (lstChar r) (now r) (PORTB r) (OCR2 r) (serial_in r) v.

Definition upd_tx (f : TX_t -> TX_t) (m : Modem) : Modem := set_tx (f (tx m)) m.
Definition upd_rx (f : RX_t -> RX_t) (m : Modem) : Modem := set_rx (f (rx m)) m.
Definition upd_cfg (f : CFG_t -> CFG_t) (m : Modem) : Modem := set_cfg (f (cfg m)) m.

(** What a pointer into [cfgAFSK] points at. *)
Definition fsq (m : Modem) (s : fsq_sel) : FSQ_t :=
  match s with
  | SelOrig => orig (cfgAFSK m)
  | SelAnsw => answ (cfgAFSK m)
  end.

Unset Primitive Projections.

(** ** The serial transport (Arduino [Serial]) *)

Definition Serial_available (m : Modem) : bool :=
  match serial_in m with [] => false | _ :: _ => true end.

Definition Serial_peek (m : Modem) : Z :=
  match serial_in m with [] => -1 | c :: _ => c end.

(** [Serial.read()]: the oldest byte, or -1 when none is waiting. *)
Definition Serial_read (m : Modem) : Z * Modem :=
  (Serial_peek m, set_serial_in (tl (serial_in m)) m).

Definition Serial_write (c : Z) (m : Modem) : Modem :=
  set_serial_out (serial_out m ++ [c]) m.

Definition Serial_print (s : list Z) (m : Modem) : Modem :=
  set_serial_out (serial_out m ++ s) m.

(** The bytes of the string "\r\nOK\r\n". *)
Definition msg_OK : list Z := [13; 10; 79; 75; 13; 10].

(** ** Queue calls on the modem's queues *)

Definition byte_of (o : option Z) : Z :=
  match o with Some x => x | None => 0 end.

Definition txFIFO_out (m : Modem) : Z * Modem :=
  let r := Fifo.get (txFIFO m) in (byte_of (fst r), set_txFIFO (snd r) m).

Definition rxFIFO_out (m : Modem) : Z * Modem :=
  let r := Fifo.get (rxFIFO m) in (byte_of (fst r), set_rxFIFO (snd r) m).

Definition dyFIFO_out (m : Modem) : Z * Modem :=
  let r := Fifo.get (dyFIFO m) in (byte_of (fst r), set_dyFIFO (snd r) m).

Definition txFIFO_in (x : Z) (m : Modem) : bool * Modem :=
  let r := Fifo.put x (txFIFO m) in (fst r, set_txFIFO (snd r) m).

Definition rxFIFO_in (x : Z) (m : Modem) : Modem :=
  set_rxFIFO (snd (Fifo.put x (rxFIFO m))) m.

Definition dyFIFO_in (x : Z) (m : Modem) : Modem :=
  set_dyFIFO (snd (Fifo.put x (dyFIFO m))) m.

(** ** Small members *)

(** [AFSK::DAC] writes the PWM compare register. *)
Definition DAC (sample : Z) (m : Modem) : Modem := set_OCR2 (u8 sample) m.

(** [AFSK::setMode]. *)
Definition setMode (mode : mode_t) (m : Modem) : Modem := set__mode mode m.

(** [AFSK::setLine]. *)
Definition setLine (online : Z) (m : Modem) : Modem :=
  let m := set__online (u8 online) m in
  if u8 online =? OFF then setMode COMMAND_MODE m else m.

(** [AFSK::setCarrier]: [tx.carrier = onoff & cfg->txcarr]. *)
Definition setCarrier (onoff : Z) (m : Modem) : Modem :=
  upd_tx (set_tx_carrier (u8 (Z.land (u8 onoff) (txcarr (cfg m))))) m.

(** [AFSK::initSteps]. *)
Definition initSteps (m : Modem) : Modem :=
  let a := cfgAFSK m in
  let o := orig a in
  let o := set_step_space (wave_getStep (freq_space o)) o in
  let o := set_step_mark (wave_getStep (freq_mark o)) o in
  let n := answ a in
  let n := set_step_space (wave_getStep (freq_space n)) n in
  let n := set_step_mark (wave_getStep (freq_mark n)) n in
  set_cfgAFSK (set_answ n (set_orig o a)) m.

(** [AFSK::setDirection]. *)
Definition setDirection (dir : dir_t) (rev : Z) (m : Modem) : Modem :=
  let m := set__dir dir m in
  let m := setCarrier OFF m in
  let straight :=
    match dir with
    | ORIGINATING => rev =? OFF
    | ANSWERING => revans (cfg m) =? ON
    end in
  let m := if straight
           then set_fsqRX SelAnsw (set_fsqTX SelOrig m)
           else set_fsqRX SelOrig (set_fsqTX SelAnsw m) in
  let m := set_rxFIFO (Fifo.clear (rxFIFO m)) m in
  let m := set_txFIFO (Fifo.clear (txFIFO m)) m in
  let m := set_dyFIFO (Fifo.clear (dyFIFO m)) m in
  Nat.iter (Z.to_nat (queuelen (fsq m (fsqRX m)))) (dyFIFO_in (u8 bias)) m.

(** [AFSK::setModemType]. *)
Definition setModemType (afsk : AFSK_t) (m : Modem) : Modem :=
  let m := set_cfgAFSK afsk m in
  let m := initSteps m in
  let m := setLine OFF m in
  let m := setDirection ORIGINATING OFF m in
  let m := set_fulBit (u8 (F_SAMPLE / baud (cfgAFSK m))) m in
  let m := set_hlfBit (Z.shiftr (fulBit m) 1) m in
  let m := set_qrtBit (Z.shiftr (hlfBit m) 1) m in
  let m := set_octBit (Z.shiftr (qrtBit m) 1) m in
  let m := set_cdTotal (u16 (F_SAMPLE / 10 * sreg (cfg m) 9)) m in
  set_cdTotal (u16 (cdTotal m - Z.shiftr (cdTotal m) 4)) m.

(** [AFSK::init].  Of [initHW] only the write to the PWM compare register
    is kept (the ramp up to the first sample); the timer, ADC and port
    direction registers are not part of this model. *)
Definition init (afsk : AFSK_t) (conf : CFG_t) (m : Modem) : Modem :=
  let m := set_cfg conf m in
  let m := DAC (wave_sample 0) m in
  let m := setModemType afsk m in
  let m := set_dtmf (dtmf_setDuration (sreg (cfg m) 11) (dtmf m)) m in
  set__guard (sreg (cfg m) 12 * 20) m.

(** ** The transmitter *)

(** The body of [switch (tx.state)] in [txHandle]: run once per bit period. *)
Definition txFrame (m : Modem) : Modem :=
  match tx_state (tx m) with
  | WAIT =>
      let m := upd_tx (set_tx_dtbit MARK) m in
      if negb (Fifo.empty (txFIFO m)) then
        let x := fst (txFIFO_out m) in
        let m := snd (txFIFO_out m) in
        let m := upd_tx (set_tx_data (u8 x)) m in
        let m := upd_tx (set_tx_state PREAMBLE) m in
        upd_tx (set_tx_bits 0) m
      else upd_tx (set_tx_state WAIT) m
  | PREAMBLE =>
      let m := upd_tx (set_tx_bits (u8 (tx_bits (tx m) + 1))) m in
      if (carBits <=? tx_bits (tx m)) || (tx_carrier (tx m) =? ON) then
        let m := upd_tx (set_tx_state START_BIT) m in
        upd_tx (set_tx_dtbit SPACE) m
      else m
  | START_BIT =>
      let m := upd_tx (set_tx_state DATA_BIT) m in
      let m := upd_tx (set_tx_dtbit (Z.land (tx_data (tx m)) 1)) m in
      let m := upd_tx (set_tx_data (Z.shiftr (tx_data (tx m)) 1)) m in
      upd_tx (set_tx_bits 0) m
  | DATA_BIT =>
      let m := upd_tx (set_tx_bits (u8 (tx_bits (tx m) + 1))) m in
      if tx_bits (tx m) <? dtbits (cfgAFSK m) then
        let m := upd_tx (set_tx_dtbit (Z.land (tx_data (tx m)) 1)) m in
        upd_tx (set_tx_data (Z.shiftr (tx_data (tx m)) 1)) m
      else
        let m := upd_tx (set_tx_state STOP_BIT) m in
        upd_tx (set_tx_dtbit MARK) m
  | STOP_BIT =>
      if Fifo.empty (txFIFO m) then
        let m := upd_tx (set_tx_state TRAIL) m in
        let m := upd_tx (set_tx_dtbit MARK) m in
        upd_tx (set_tx_bits 0) m
      else
        let m := upd_tx (set_tx_state START_BIT) m in
        let m := upd_tx (set_tx_dtbit SPACE) m in
        let x := fst (txFIFO_out m) in
        let m := snd (txFIFO_out m) in
        upd_tx (set_tx_data (u8 x)) m
  | TRAIL =>
      let m := upd_tx (set_tx_bits (u8 (tx_bits (tx m) + 1))) m in
      if carBits <? tx_bits (tx m) then
        let m := upd_tx (set_tx_active OFF) m in
        let m := upd_tx (set_tx_state WAIT) m in
        set_PORTB (port_clr (PORTB m) PORTB1) m
      else if (tx_bits (tx m) =? carBits) && (tx_carrier (tx m) =? OFF) then
        let m := upd_tx (set_tx_dtbit MARK) m in
        let m := upd_tx (set_tx_idx 0) m in
        upd_tx (set_tx_clk 0) m
      else if negb (Fifo.empty (txFIFO m)) then
        let m := upd_tx (set_tx_state START_BIT) m in
        let m := upd_tx (set_tx_dtbit SPACE) m in
        let x := fst (txFIFO_out m) in
        let m := snd (txFIFO_out m) in
        upd_tx (set_tx_data (u8 x)) m
      else m
  | CARRIER => m
  end.

(** The tone-dialling branch of [txHandle]; [dialChar] is its static. *)
Definition txDial (m : Modem) : Modem :=
  if dialChar m =? 44 then
    let c := _commaCnt m in
    let m := set__commaCnt (u32 (c + 1)) m in
    if _commaMax m <=? c then
      let m := set_dialChar 0 m in
      set__commaCnt 0 m
    else m
  else
    let ready := fst (dtmf_getSample (dtmf m)) in
    let d := snd (dtmf_getSample (dtmf m)) in
    let m := set_dtmf d m in
    if ready then DAC (dtmf_sample (dtmf m)) m
    else if negb (Fifo.empty (txFIFO m)) then
      let x := fst (txFIFO_out m) in
      let m := snd (txFIFO_out m) in
      let m := set_dialChar (u8 x) m in
      if negb (dialChar m =? 44) then set_dtmf (dtmf_send (dialChar m) (dtmf m)) m
      else m
    else set__dialing OFF m.

(** Whether [txHandle] emits a sample on this tick. *)
Definition tx_emitting (m : Modem) : bool :=
  (tx_active (tx m) =? ON) || (tx_carrier (tx m) =? ON).

(** Whether this tick ends a bit period: [tx.clk++ >= fulBit]. *)
Definition tx_boundary (m : Modem) : bool := fulBit m <=? tx_clk (tx m).

(** [AFSK::txHandle], called once per output sample. *)
Definition txHandle (m : Modem) : Modem :=
  if tx_emitting m then
    let sample := wave_sample (tx_idx (tx m)) in
    let m := DAC sample m in
    let m := upd_tx (set_tx_idx
               (u16 (tx_idx (tx m) + fsq_step (fsq m (fsqTX m)) (tx_dtbit (tx m))))) m in
    let c := tx_clk (tx m) in
    let m := upd_tx (set_tx_clk (u8 (c + 1))) m in
    if fulBit m <=? c then
      let m := upd_tx (set_tx_clk 0) m in
      txFrame m
    else m
  else if negb (_dialing m =? 0) then txDial m
  else m.

(** ** The receiver *)

(** [AFSK::rxDecoder]: one decoded sample [bt]. *)
Definition rxDecoder (bt : Z) (m : Modem) : Modem :=
  let m := upd_rx (set_rx_bitsum (u8 (rx_bitsum (rx m) + bt))) m in
  let m := upd_rx (set_rx_stream (u8 (Z.shiftl (rx_stream (rx m)) 1))) m in
  let m := upd_rx (set_rx_stream (Z.lor (rx_stream (rx m)) bt)) m in
  let m := upd_rx (set_rx_clk (u8 (rx_clk (rx m) + 1))) m in
  match rx_state (rx m) with
  | CARRIER =>
      if negb (bt =? 0) then
        let m := set_cdCount (u16 (cdCount m + 1)) m in
        if cdTotal m <=? cdCount m then
          let m := upd_rx (set_rx_carrier ON) m in
          upd_rx (set_rx_state WAIT) m
        else m
      else set_cdCount 0 m
  | WAIT =>
      if Z.land (rx_stream (rx m)) 3 =? 2 then
        let m := upd_rx (set_rx_state PREAMBLE) m in
        let m := upd_rx (set_rx_clk 0) m in
        upd_rx (set_rx_bitsum 0) m
      else m
  | PREAMBLE =>
      if hlfBit m <=? rx_clk (rx m) then
        if octBit m <? rx_bitsum (rx m) then
          let m := upd_rx (set_rx_state WAIT) m in
          set_PORTB (port_clr (PORTB m) PORTB0) m
        else
          let m := upd_rx (set_rx_state START_BIT) m in
          set_PORTB (port_set (PORTB m) PORTB0) m
      else m
  | _ =>
      if fulBit m <=? rx_clk (rx m) then
        match rx_state (rx m) with
        | START_BIT =>
            if qrtBit m <? rx_bitsum (rx m) then
              let m := upd_rx (set_rx_state WAIT) m in
              set_PORTB (port_clr (PORTB m) PORTB0) m
            else
              let m := upd_rx (set_rx_state DATA_BIT) m in
              let m := upd_rx (set_rx_data 0) m in
              let m := upd_rx (set_rx_clk 0) m in
              let m := upd_rx (set_rx_bitsum 0) m in
              upd_rx (set_rx_bits 0) m
        | DATA_BIT =>
            let m := upd_rx (set_rx_data (Z.shiftr (rx_data (rx m)) 1)) m in
            let m := upd_rx (set_rx_data
                       (Z.lor (rx_data (rx m))
                              (if hlfBit m <? rx_bitsum (rx m) then 128 else 0))) m in
            let m := upd_rx (set_rx_bits (u8 (rx_bits (rx m) + 1))) m in
            if rx_bits (rx m) <? dtbits (cfgAFSK m) then
              let m := upd_rx (set_rx_clk 0) m in
              upd_rx (set_rx_bitsum 0) m
            else
              let m := upd_rx (set_rx_state STOP_BIT) m in
              let m := upd_rx (set_rx_clk (hlfBit m)) m in
              upd_rx (set_rx_bitsum 0) m
        | STOP_BIT =>
            let m := if qrtBit m <? rx_bitsum (rx m)
                     then rxFIFO_in (rx_data (rx m)) m else m in
            let m := upd_rx (set_rx_state WAIT) m in
            set_PORTB (port_clr (PORTB m) PORTB0) m
        | _ => m
        end
      else m
  end.

(** [AFSK::rxHandle]: one input sample. *)
Definition rxHandle (sample : Z) (m : Modem) : Modem :=
  let sample := u8 sample in
  let ss := i8 (sample - bias) in
  let m := upd_rx (set_rx_iirX0 (rx_iirX1 (rx m))) m in
  let d := fst (dyFIFO_out m) in
  let m := snd (dyFIFO_out m) in
  let m := upd_rx (set_rx_iirX1 (i16 (Z.shiftr (i16 ((d - 128) * ss)) 2))) m in
  let m := upd_rx (set_rx_iirY0 (rx_iirY1 (rx m))) m in
  let m := upd_rx (set_rx_iirY1
             (i16 (rx_iirX0 (rx m) + rx_iirX1 (rx m) + Z.shiftr (rx_iirY0 (rx m)) 1))) m in
  let m := dyFIFO_in sample m in
  let m := upd_rx (set_rx_active 1) m in
  if negb (rx_active (rx m) =? 0) then
    rxDecoder (u8 (Z.lxor (if 0 <? rx_iirY1 (rx m) then MARK else SPACE)
                          (polarity (fsq m (fsqRX m))))) m
  else upd_rx (set_rx_state WAIT) m.

(** [AFSK::doTXRX]; [adch] is the sample read from the ADC. *)
Definition doTXRX (adch : Z) (m : Modem) : Modem :=
  if negb (_online m =? 0) then rxHandle adch (txHandle m) else m.

(** Loopback: the sample the transmitter emits on a tick is the sample the
    receiver gets on that tick. *)
Definition loopback_tick (m : Modem) : Modem :=
  if tx_emitting m
  then rxHandle (wave_sample (tx_idx (tx m))) (txHandle m)
  else txHandle m.

Definition loopback (n : nat) (m : Modem) : Modem := Nat.iter n loopback_tick m.

(** Observers used in the statements. *)

(** [n] ticks of the transmitter. *)
Definition txRun (n : nat) (m : Modem) : Modem := Nat.iter n txHandle m.

(** The symbols chosen at the bit-period boundaries during [n] ticks:
    [tx.dtbit] as the framing switch leaves it, one entry per boundary. *)
Fixpoint txSymbols (n : nat) (m : Modem) : list Z :=
  match n with
  | O => []
  | S k =>
      let m' := txHandle m in
      if tx_emitting m && tx_boundary m
      then tx_dtbit (tx m') :: txSymbols k m'
      else txSymbols k m'
  end.

(** Feeding a list of decoded samples to the decoder. *)
Definition rxFeed (bs : list Z) (m : Modem) : Modem :=
  fold_left (fun a b => rxDecoder b a) bs m.

(** The number of HIGH decisions in a list of decoded samples. *)
Definition highs (bs : list Z) : Z := fold_right Z.add 0 bs.

(** ** The serial bridge *)

(** The first escape block of [doSIO]: three escape characters have been
    seen ([escCount == 3]); [available] was sampled at entry. *)
Definition sioGuard (available : bool) (m : Modem) : Modem :=
  if escCount m =? 3 then
    if sreg (cfg m) 12 * 20 <? u32 (now m - escLast m) then
      let m := setMode COMMAND_MODE m in
      let m := set_escCount 0 m in
      Serial_print msg_OK m
    else if available then
      let c := u8 (Serial_peek m) in
      if (c =? 13) || (c =? 10) then snd (Serial_read m)
      else set_escCount 0 m
    else m
  else m.

(** The second escape block of [doSIO]: counting the escape characters. *)
Definition sioCount (available : bool) (m : Modem) : Modem :=
  if available then
    if Serial_peek m =? sreg (cfg m) 2 then
      if _guard m <? u32 (now m - escFirst m) then
        if _guard m <=? u32 (now m - lstChar m) then
          let m := set_escCount 1 m in
          set_escFirst (now m) m
        else m
      else
        let m := set_escCount (u8 (escCount m + 1)) m in
        if escCount m =? 3 then set_escLast (now m) m else m
    else m
  else m.

(** The escape-sequence part of [doSIO]: the two blocks in turn. *)
Definition sioEscape (available : bool) (m : Modem) : Modem :=
  sioCount available (sioGuard available m).

(** The flow-control signal of [doSIO]: [stop] is XOFF (0x13) or XON (0x11),
    [line] drives the control line.  The conditions are assignments in the
    source ([cfg->flwctr = 4], [cfg->flwctr = 3]): each stores the constant
    and tests the stored value. *)
Definition sioSignal (stop : Z) (line : Z -> Z -> Z) (m : Modem) : Modem :=
  let m := upd_cfg (set_flwctr 4) m in
  if negb (flwctr (cfg m) =? 0) then Serial_write stop m
  else
    let m := upd_cfg (set_flwctr 3) m in
    if negb (flwctr (cfg m) =? 0) then set_PORTB (line (PORTB m) PORTB2) m
    else m.

(** Data mode, first block: take a byte from the transport while the TX
    queue is below the high threshold, else engage flow control. *)
Definition sioAccept (available : bool) (m : Modem) : Modem :=
  if Fifo.len (txFIFO m) <? fifoHgh then
    if available && ((Fifo.len (txFIFO m) <? fifoMed) || negb (flowControl m)) then
      let r := fst (Serial_read m) in
      let m := snd (Serial_read m) in
      let c := u8 r in
      let ok := fst (txFIFO_in c m) in
      let m := snd (txFIFO_in c m) in
      let m := if ok then
                 if negb (dtecho (cfg m) =? 0) then Serial_write c m else m
               else m in
      let m := set_lstChar (now m) m in
      let m := upd_tx (set_tx_active ON) m in
      set_PORTB (port_set (PORTB m) PORTB1) m
    else m
  else if negb (flowControl m) && negb (flwctr (cfg m) =? 0) then
    let m := sioSignal 19 port_clr m in
    set_flowControl true m
  else m.

(** Data mode, second block: release flow control below the low threshold. *)
Definition sioRelease (m : Modem) : Modem :=
  if flowControl m && (Fifo.len (txFIFO m) <? fifoLow) then
    let m := sioSignal 17 port_set m in
    set_flowControl false m
  else m.

(** Data mode, third block: hand one received byte to the transport. *)
Definition sioDrain (m : Modem) : Modem :=
  if negb (Fifo.empty (rxFIFO m)) then
    let c := fst (rxFIFO_out m) in
    let m := snd (rxFIFO_out m) in
    Serial_write c m
  else m.

(** The data-mode part of [doSIO]: the three blocks in turn. *)
Definition sioData (available : bool) (m : Modem) : Modem :=
  sioDrain (sioRelease (sioAccept available m)).

(** [AFSK::doSIO]; [ms] is what [millis()] returns. *)
Definition doSIO (ms : Z) (m : Modem) : bool * Modem :=
  let available := Serial_available m in
  let m := set_now (u32 ms) m in
  let m := sioEscape available m in
  match _mode m with
  | COMMAND_MODE => (false, m)
  | DATA_MODE => (true, sioData available m)
  end.

(** A byte arriving on the serial line. *)
Definition Serial_arrive (c : Z) (m : Modem) : Modem :=
  set_serial_in (serial_in m ++ [c]) m.

(** Bridge runs at the given clock readings. *)
Definition sioRun (ts : list Z) (m : Modem) : Modem :=
  fold_left (fun a t => snd (doSIO t a)) ts m.

End Modem.

(** ** A concrete platform and concrete modems

    Used to run the definitions on explicit inputs. *)

#[local] Instance demo : Platform := {
  F_SAMPLE := 9600;
  carBits := 4;
  bias := 128;
  wave_sample := fun i => u8 (Z.shiftr i 8);
  wave_getStep := fun f => u16 (f * 65536 / 9600);
  dtmf_t := unit;
  dtmf_setDuration := fun _ d => d;
  dtmf_send := fun _ d => d;
  dtmf_getSample := fun d => (false, d);
  dtmf_sample := fun _ => 0
}.

Definition tx0 : TX_t := mkTX_t OFF OFF WAIT MARK 0 0 0 0.
Definition rx0 : RX_t := mkRX_t 0 OFF WAIT 0 0 0 0 0 0 0 0 0.

(** The Bell 103 tone pairs at 300 baud with [d] data bits. *)
Definition bell103 (d : Z) : AFSK_t :=
  mkAFSK_t (mkFSQ_t 1070 1270 0 0 8 0) (mkFSQ_t 2025 2225 0 0 8 0) d 300.

(** S registers: S2 = '+' (43), S12 = 50 (one second of guard time). *)
Definition sregs0 : list Z := [0; 0; 43; 13; 10; 8; 2; 50; 2; 6; 14; 95; 50].

Definition cfg0 (flw : Z) : CFG_t := mkCFG_t sregs0 0 flw 1 0.

(** The object before [init]. *)
Definition blank : Modem :=
  mkModem tx0 rx0 (Fifo.create 6) (Fifo.create 6) (Fifo.create 4)
          (cfg0 0) (bell103 8) SelOrig SelAnsw
          0 0 0 0 0 0 COMMAND_MODE OFF ORIGINATING 0 false
          OFF 0 0 0 tt 0 0 0 0 0 0 0 [] [].

(** A modem initialised for [d] data bits and flow-control mode [flw]. *)
Definition modem0 (d flw : Z) : Modem := init (bell103 d) (cfg0 flw) blank.

(** The same, on line and in data mode. *)
Definition online0 (d flw : Z) : Modem :=
  setMode DATA_MODE (setLine ON (modem0 d flw)).

(** Bytes put into the TX queue, oldest first. *)
Definition enqueue (bs : list Z) (m : Modem) : Modem :=
  fold_left (fun a b => snd (txFIFO_in b a)) bs m.

(** Transmission switched on, as [doSIO] does when it takes a byte. *)
Definition sending (bs : list Z) (d : Z) : Modem :=
  upd_tx (set_tx_active ON) (enqueue bs (online0 d 0)).

(** Seven data bits and the byte 0x41 in the TX queue. *)
Definition c1_modem : Modem := sending [65] 7.

(** Eight data bits and the byte 0x41 in the TX queue. *)
Definition c5_modem : Modem := sending [65] 8.

(** Forty-eight bytes in the TX queue, for each flow-control mode. *)
Definition filled (flw : Z) : Modem := enqueue (repeat 85 48) (online0 8 flw).

(** Fifteen bytes in the TX queue and flow control engaged. *)
Definition drained (flw : Z) : Modem :=
  set_flowControl true (enqueue (repeat 85 15) (online0 8 flw)).

(** The same with one more byte waiting on the transport. *)
Definition c2_refill : Modem := Serial_arrive 85 (drained 3).

(** The decoder just after a HIGH to LOW edge: in PREAMBLE, counters at 0. *)
Definition c6_modem : Modem := rxFeed [1; 0] (online0 8 0).

(** Half a bit period (16 samples at 300 baud) with three HIGH samples. *)
Definition c6_samples : list Z := [1; 1; 1; 0; 0; 0; 0; 0; 0; 0; 0; 0; 0; 0; 0; 0].

(** The decoder entering STOP_BIT with the byte 0x41 assembled. *)
Definition c7_modem : Modem :=
  upd_rx (fun r => set_rx_bitsum 0 (set_rx_clk 16 (set_rx_data 65
                     (set_rx_state STOP_BIT r)))) (online0 8 0).

(** The second half of a clean stop bit. *)
Definition c7_samples : list Z := repeat 1 16.

(** The modulator in PREAMBLE after the first of its bit periods, with the
    carrier forced on. *)
Definition c9_modem : Modem :=
  upd_tx (fun t => set_tx_carrier ON (set_tx_bits 0 (set_tx_dtbit MARK
                     (set_tx_state PREAMBLE t)))) c5_modem.

(** Three escape characters 800 ms apart (guard time 1000 ms), each followed
    by a bridge run, from a line idle since time 0. *)
Definition c8_slow : Modem :=
  snd (doSIO 3600 (Serial_arrive 43
    (snd (doSIO 2800 (Serial_arrive 43
      (snd (doSIO 2000 (Serial_arrive 43 (online0 8 0))))))))).

(** ** Predicates used in the statements *)

Section Preds.
Context {P : Platform}.

Definition is_bit (b : Z) : Prop := b = 0 \/ b = 1.

(** The derived timing constants, as [setModemType] computes them. *)
Definition timing_ok (m : Modem) : Prop :=
  0 <= fulBit m < 256 /\
  hlfBit m = Z.shiftr (fulBit m) 1 /\
  qrtBit m = Z.shiftr (hlfBit m) 1 /\
  octBit m = Z.shiftr (qrtBit m) 1.

Definition rx_frame (m m' : Modem) : Prop :=
  fulBit m' = fulBit m /\ hlfBit m' = hlfBit m /\ qrtBit m' = qrtBit m /\
  octBit m' = octBit m /\ cfgAFSK m' = cfgAFSK m /\ tx m' = tx m /\
  txFIFO m' = txFIFO m.

(** The decoder states that wait for a full bit period. *)
Definition rx_timed (s : state_t) : Prop :=
  s = START_BIT \/ s = DATA_BIT \/ s = STOP_BIT.

(** The transmitter state with the phase index and the PWM register
    blanked: what the framing depends on. *)
Definition tx_norm (m : Modem) : Modem :=
  upd_tx (set_tx_idx 0) (set_OCR2 0 m).

(** One bit period of framing, seen through [tx_norm]. *)
Definition txFrameN (m : Modem) : Modem := tx_norm (txFrame m).

(** The symbols chosen by [k] consecutive bit periods. *)
Fixpoint frameSymbols (k : nat) (m : Modem) : list Z :=
  match k with
  | O => []
  | S j => tx_dtbit (tx (txFrameN m)) :: frameSymbols j (txFrameN m)
  end.

(** The transmitter keeps emitting during the next [k] bit periods. *)
Fixpoint framesEmit (k : nat) (m : Modem) : Prop :=
  match k with
  | O => True
  | S j => tx_emitting m = true /\ framesEmit j (txFrameN m)
  end.

(** The framing-relevant part of the transmitter at a bit-period boundary:
    state, symbol, shift register, bit counter and the queued bytes, while
    transmission is active with the sample counter at zero. *)
Definition tx_at (m : Modem) (s : state_t) (dt d b : Z) (q : list Z) : Prop :=
  tx_state (tx m) = s /\ tx_dtbit (tx m) = dt /\ tx_data (tx m) = d /\
  tx_bits (tx m) = b /\ Fifo.contents (txFIFO m) = q /\ Fifo.wf (txFIFO m) /\
  tx_active (tx m) = ON /\ tx_clk (tx m) = 0.

(** What the framing never changes before the trail ends. *)
Definition tx_same (m m' : Modem) : Prop :=
  tx_carrier (tx m') = tx_carrier (tx m) /\ cfgAFSK m' = cfgAFSK m /\
  fulBit m' = fulBit m.

(** [k] bit periods of framing. *)
Definition txFrames (k : nat) (m : Modem) : Modem := Nat.iter k txFrameN m.

(** The statics of the escape detector, the mode, the guard time and the
    S registers are not touched in data mode. *)
Definition sio_keeps (m m' : Modem) : Prop :=
  escCount m' = escCount m /\ escFirst m' = escFirst m /\
  escLast m' = escLast m /\ _mode m' = _mode m /\ _guard m' = _guard m /\
  sregs (cfg m') = sregs (cfg m) /\ now m' = now m.

(** The serial bridge between two runs, in data mode with nothing waiting on
    the transport: the S registers, the guard time, the statics of the
    escape detector and the time of the last character. *)
Definition esc_at (m : Modem) (sr : list Z) (g c f l lc : Z) : Prop :=
  sregs (cfg m) = sr /\ _guard m = g /\ escCount m = c /\ escFirst m = f /\
  escLast m = l /\ lstChar m = lc /\ serial_in m = [] /\ _mode m = DATA_MODE.

(** The low [k] bits of [b] are clear. *)
Definition low_clear (k : Z) (b : Z) : Prop :=
  forall i, 0 <= i < k -> Z.testbit b i = false.

(** With [d] data bits the decoder shifts each received bit in at bit 7 and
    the register right: after [n] bits the low [8 - n] bits are clear. *)
Definition rx_aligned (d : Z) (m : Modem) : Prop :=
  dtbits (cfgAFSK m) = d /\ Fifo.wf (rxFIFO m) /\
  Forall (low_clear (8 - d)) (Fifo.contents (rxFIFO m)) /\
  (rx_state (rx m) = DATA_BIT ->
     0 <= rx_bits (rx m) < d /\ low_clear (8 - rx_bits (rx m)) (rx_data (rx m))) /\
  (rx_state (rx m) = STOP_BIT -> low_clear (8 - d) (rx_data (rx m))).

End Preds.

(** ** Further members of the class

    The blocking members are embedded up to and from their wait loops:
    what the interrupt handler does during a wait is given by the samples
    it decodes. *)

(** [n] times [in(x)] on a queue. *)
Definition puts (x : Z) (n : nat) (f : Fifo.t) : Fifo.t :=
  Nat.iter n (fun g => snd (Fifo.put x g)) f.

Section MoreMembers.
Context {P : Platform}.

(** The ramp that ends [initHW]:
    [for (uint8_t i = 0; i <= wave.sample(0); i++) { DAC(i); delay(1); }].
    [None] when the loop has not ended within [fuel] iterations. *)
Fixpoint rampDAC (fuel : nat) (i : Z) (m : Modem) : option Modem :=
  match fuel with
  | O => None
  | S k =>
      if i <=? wave_sample 0 then rampDAC k (u8 (i + 1)) (DAC i m)
      else Some m
  end.

(** [AFSK::checkCarrier] before its wait loop. *)
Definition checkCarrier_enter (m : Modem) : Modem :=
  let m := set_PORTB (port_clr (PORTB m) PORTB2) m in
  if sreg (cfg m) 7 =? 0 then upd_rx (set_rx_carrier ON) m
  else
    let m := upd_rx (set_rx_state CARRIER) m in
    let m := upd_rx (set_rx_carrier OFF) m in
    set_cdCount 0 m.

(** [AFSK::checkCarrier] after its wait loop: the CD led and the result. *)
Definition checkCarrier_leave (m : Modem) : bool * Modem :=
  let m := if rx_carrier (rx m) =? ON
           then set_PORTB (port_set (PORTB m) PORTB2) m else m in
  (negb (rx_carrier (rx m) =? 0), m).

(** [AFSK::checkCarrier], the interrupt handler having decoded the samples
    [bs] during the wait. *)
Definition checkCarrier (bs : list Z) (m : Modem) : bool * Modem :=
  checkCarrier_leave (rxFeed bs (checkCarrier_enter m)).

(** [AFSK::dial] up to its wait loop: the pause length and the number to
    dial, between two commas, in the TX queue. *)
Definition dialStart (phone : list Z) (m : Modem) : Modem :=
  let m := setCarrier OFF m in
  let m := if 6 <? sreg (cfg m) 8
           then upd_cfg (set_sregs (<[8%nat := 2]> (sregs (cfg m)))) m
           else m in
  let m := set__commaMax (u32 (F_SAMPLE * sreg (cfg m) 8)) m in
  let m := set__commaCnt 0 m in
  let m := set_txFIFO (Fifo.clear (txFIFO m)) m in
  let m := snd (txFIFO_in 44 m) in
  let m := fold_left (fun a c => snd (txFIFO_in (u8 c) a)) phone m in
  let m := snd (txFIFO_in 44 m) in
  set__dialing ON m.

(** ** Observers for the statements about whole frames *)

(** The first [d] bits of [x], least significant first. *)
Definition lsb_bits (d : nat) (x : Z) : list Z :=
  map (fun i => Z.land (Z.shiftr x (Z.of_nat i)) 1) (seq 0 d).

(** The symbols of one character frame: start bit, data bits, stop bit. *)
Definition frame_of (d : nat) (x : Z) : list Z :=
  SPACE :: lsb_bits d (u8 x) ++ [MARK].

(** [k] bit periods take the transmitter from [m] to [m'], choosing the
    symbols [syms], and the transmitter emits throughout. *)
Definition emits (k : nat) (m : Modem) (syms : list Z) (m' : Modem) : Prop :=
  frameSymbols k m = syms /\ framesEmit k m /\ txFrames k m = m'.

(** The receive shift register after the bit decisions [vs], oldest first:
    [rx.data = rx.data >> 1; rx.data |= v ? 0x80 : 0x00]. *)
Definition rx_shift (acc : Z) (vs : list bool) : Z :=
  fold_left (fun a (v : bool) => Z.lor (Z.shiftr a 1) (if v then 128 else 0)) vs acc.

(** The decoded samples of the symbols [ss] on a clean line, [n] samples
    to the symbol. *)
Definition bit_samples (n : nat) (ss : list Z) : list Z :=
  flat_map (fun s => repeat s n) ss.

(** An ideal line: on every tick on which the modulator emits, the decoder
    is handed the symbol being sent on that tick (the one the sample
    written by [txHandle] belongs to); on a silent line it is not run. *)
Definition ideal_tick (m : Modem) : Modem :=
  if tx_emitting m then rxDecoder (tx_dtbit (tx m)) (txHandle m) else txHandle m.

Definition ideal_line (n : nat) (m : Modem) : Modem := Nat.iter n ideal_tick m.

End MoreMembers.

(** ** Further concrete inputs *)

(** A platform whose oscillator starts at full scale. *)
Definition full_scale : Platform := {|
  F_SAMPLE := 9600;
  carBits := 4;
  bias := 128;
  wave_sample := fun _ => 255;
  wave_getStep := fun f => u16 (f * 65536 / 9600);
  dtmf_t := unit;
  dtmf_setDuration := fun _ d => d;
  dtmf_send := fun _ d => d;
  dtmf_getSample := fun d => (false, d);
  dtmf_sample := fun _ => 0
|}.

(** The object before [init], on that platform. *)
Definition blank_full : @Modem full_scale :=
  @mkModem full_scale tx0 rx0 (Fifo.create 6) (Fifo.create 6) (Fifo.create 4)
          (cfg0 0) (bell103 8) SelOrig SelAnsw
          0 0 0 0 0 0 COMMAND_MODE OFF ORIGINATING 0 false
          OFF 0 0 0 tt 0 0 0 0 0 0 0 [] [].

(** S7 = 0: do not wait for the carrier. *)
Definition c_nowait : Modem :=
  upd_cfg (set_sregs (<[7%nat := 0]> sregs0)) (online0 8 0).

(** The dialler in its comma pause. *)
Definition c_dialing : Modem := set_dialChar 44 (dialStart [53] (online0 8 0)).


(** The modulator in the trail with a byte just queued. *)
Definition c_trail : Modem := upd_tx (set_tx_state TRAIL) (sending [66] 8).

(** The decoder at the first sample of the first data bit. *)
Definition c_data : Modem := upd_rx (set_rx_state DATA_BIT) (online0 8 0).


(** The byte [b] sent over an ideal line at 9600 samples per second, 300
    baud, eight data bits: what is in the RX queue 700 ticks later, against
    what bit 7 of [b] lets through; and that the modulator is then silent. *)
Definition ideal_byte_ok (b : Z) : bool :=
  let m := ideal_line 700 (sending [b] 8) in
  match Fifo.contents (rxFIFO m) with
  | [] => b <? 128
  | [x] => (x =? b) && (128 <=? b)
  | _ => false
  end && negb (tx_emitting m) && (_dialing m =? 0).

(** Unfolding of record projections and setters (call by need, so that the
    chains of updates are shared and not copied). *)
Ltac msimpl :=
  lazy beta iota zeta delta
      [tx_active tx_carrier tx_state tx_dtbit tx_data tx_bits tx_clk tx_idx
       rx_active rx_carrier rx_state rx_data rx_bits rx_clk rx_bitsum rx_stream
       rx_iirX0 rx_iirX1 rx_iirY0 rx_iirY1 freq_space freq_mark step_space step_mark
       queuelen polarity orig answ dtbits baud sregs dtecho
       flwctr txcarr revans tx rx txFIFO rxFIFO dyFIFO
       cfg cfgAFSK fsqTX fsqRX fulBit hlfBit qrtBit octBit
       cdTotal cdCount _mode _online _dir _guard flowControl _dialing
       dialChar _commaCnt _commaMax dtmf escCount escFirst escLast lstChar
       now PORTB OCR2 serial_in serial_out set_tx_active set_tx_carrier set_tx_state
       set_tx_dtbit set_tx_data set_tx_bits set_tx_clk set_tx_idx set_rx_active set_rx_carrier set_rx_state
       set_rx_data set_rx_bits set_rx_clk set_rx_bitsum set_rx_stream set_rx_iirX0 set_rx_iirX1 set_rx_iirY0
       set_rx_iirY1 set_step_space set_step_mark set_orig set_answ set_sregs set_flwctr set_tx
       set_rx set_txFIFO set_rxFIFO set_dyFIFO set_cfg set_cfgAFSK set_fsqTX set_fsqRX
       set_fulBit set_hlfBit set_qrtBit set_octBit set_cdTotal set_cdCount set__mode set__online
       set__dir set__guard set_flowControl set__dialing set_dialChar set__commaCnt set__commaMax set_dtmf
       set_escCount set_escFirst set_escLast set_lstChar set_now set_PORTB set_OCR2 set_serial_in
       set_serial_out upd_tx upd_rx upd_cfg fst snd].

Ltac msimpl_in H :=
  lazy beta iota zeta delta
      [tx_active tx_carrier tx_state tx_dtbit tx_data tx_bits tx_clk tx_idx
       rx_active rx_carrier rx_state rx_data rx_bits rx_clk rx_bitsum rx_stream
       rx_iirX0 rx_iirX1 rx_iirY0 rx_iirY1 freq_space freq_mark step_space step_mark
       queuelen polarity orig answ dtbits baud sregs dtecho
       flwctr txcarr revans tx rx txFIFO rxFIFO dyFIFO
       cfg cfgAFSK fsqTX fsqRX fulBit hlfBit qrtBit octBit
       cdTotal cdCount _mode _online _dir _guard flowControl _dialing
       dialChar _commaCnt _commaMax dtmf escCount escFirst escLast lstChar
       now PORTB OCR2 serial_in serial_out set_tx_active set_tx_carrier set_tx_state
       set_tx_dtbit set_tx_data set_tx_bits set_tx_clk set_tx_idx set_rx_active set_rx_carrier set_rx_state
       set_rx_data set_rx_bits set_rx_clk set_rx_bitsum set_rx_stream set_rx_iirX0 set_rx_iirX1 set_rx_iirY0
       set_rx_iirY1 set_step_space set_step_mark set_orig set_answ set_sregs set_flwctr set_tx
       set_rx set_txFIFO set_rxFIFO set_dyFIFO set_cfg set_cfgAFSK set_fsqTX set_fsqRX
       set_fulBit set_hlfBit set_qrtBit set_octBit set_cdTotal set_cdCount set__mode set__online
       set__dir set__guard set_flowControl set__dialing set_dialChar set__commaCnt set__commaMax set_dtmf
       set_escCount set_escFirst set_escLast set_lstChar set_now set_PORTB set_OCR2 set_serial_in
       set_serial_out upd_tx upd_rx upd_cfg fst snd] in H.

(** The same in every hypothesis and in the goal. *)
Ltac mnorm :=
  lazy beta iota zeta delta
      [tx_active tx_carrier tx_state tx_dtbit tx_data tx_bits tx_clk tx_idx
       rx_active rx_carrier rx_state rx_data rx_bits rx_clk rx_bitsum rx_stream
       rx_iirX0 rx_iirX1 rx_iirY0 rx_iirY1 freq_space freq_mark step_space step_mark
       queuelen polarity orig answ dtbits baud sregs dtecho
       flwctr txcarr revans tx rx txFIFO rxFIFO dyFIFO
       cfg cfgAFSK fsqTX fsqRX fulBit hlfBit qrtBit octBit
       cdTotal cdCount _mode _online _dir _guard flowControl _dialing
       dialChar _commaCnt _commaMax dtmf escCount escFirst escLast lstChar
       now PORTB OCR2 serial_in serial_out set_tx_active set_tx_carrier set_tx_state
       set_tx_dtbit set_tx_data set_tx_bits set_tx_clk set_tx_idx set_rx_active set_rx_carrier set_rx_state
       set_rx_data set_rx_bits set_rx_clk set_rx_bitsum set_rx_stream set_rx_iirX0 set_rx_iirX1 set_rx_iirY0
       set_rx_iirY1 set_step_space set_step_mark set_orig set_answ set_sregs set_flwctr set_tx
       set_rx set_txFIFO set_rxFIFO set_dyFIFO set_cfg set_cfgAFSK set_fsqTX set_fsqRX
       set_fulBit set_hlfBit set_qrtBit set_octBit set_cdTotal set_cdCount set__mode set__online
       set__dir set__guard set_flowControl set__dialing set_dialChar set__commaCnt set__commaMax set_dtmf
       set_escCount set_escFirst set_escLast set_lstChar set_now set_PORTB set_OCR2 set_serial_in
       set_serial_out upd_tx upd_rx upd_cfg fst snd] in *.

Ltac case_state :=
  match goal with
  | |- context [match ?s with WAIT => _ | _ => _ end] => destruct s eqn:?
  end.

Ltac case_if :=
  match goal with
  | |- context [if ?c then _ else _] => destruct c eqn:?
  end.

(** Boolean tests of the code turned into propositions. *)
Ltac bool_hyps :=
  repeat match goal with
         | H : (_ <=? _) = true |- _ => apply Z.leb_le in H
         | H : (_ <=? _) = false |- _ => apply Z.leb_gt in H
         | H : (_ <? _) = true |- _ => apply Z.ltb_lt in H
         | H : (_ <? _) = false |- _ => apply Z.ltb_ge in H
         | H : (_ =? _) = true |- _ => apply Z.eqb_eq in H
         | H : (_ =? _) = false |- _ => apply Z.eqb_neq in H
         | H : negb _ = true |- _ => apply negb_true_iff in H
         | H : negb _ = false |- _ => apply negb_false_iff in H
         | H : (_ || _) = true |- _ => apply orb_true_iff in H
         | H : (_ || _) = false |- _ => apply orb_false_iff in H; destruct H
         | H : (_ && _) = true |- _ => apply andb_true_iff in H; destruct H
         | H : (_ && _) = false |- _ => apply andb_false_iff in H
         end.

(** Case analysis on every test of the code, simplifying after each. *)
Ltac mcases := repeat (first [case_state | case_if]; msimpl).

(** Case analysis on a comparison of the goal, with its meaning. *)
Ltac case_cmp :=
  match goal with
  | |- context [?a <=? ?b] => destruct (Z.leb_spec a b)
  | |- context [?a <? ?b] => destruct (Z.ltb_spec a b)
  | |- context [?a =? ?b] => destruct (Z.eqb_spec a b)
  end.

(** Case analysis on a boolean that a conditional or a connective tests. *)
Ltac case_bool :=
  match goal with
  | |- context [negb ?c] => destruct c eqn:?
  | |- context [?c || _] => destruct c eqn:?
  | |- context [?c && _] => destruct c eqn:?
  | |- context [if ?c then _ else _] => destruct c eqn:?
  end; cbn [negb andb orb] in *; try discriminate.

(** Closed goals about a concrete modem, by evaluation. *)
Ltac concrete := vm_compute; repeat split; try reflexivity; try discriminate.

(** ** Lemmas on the ring buffer *)

Module FifoFacts.
Import Fifo.

Lemma cap_pos f : (0 < cap f)%nat.
Proof. unfold cap. apply Nat.neq_0_lt_0, Nat.pow_nonzero. lia. Qed.

Lemma wf_create n : wf (create n).
Proof.
  split; cbn.
  - now rewrite repeat_length.
  - apply (cap_pos (create n)).
  - lia.
  - symmetry. apply Nat.Div0.mod_0_l.
Qed.

Lemma wfb_wf f : wfb f = true -> wf f.
Proof.
  unfold wfb. rewrite !andb_true_iff, !Nat.eqb_eq, Nat.ltb_lt, Nat.leb_le.
  intros (((H1 & H2) & H3) & H4). split; assumption.
Qed.

Lemma contents_create n : contents (create n) = [].
Proof. reflexivity. Qed.

Lemma length_contents f : length (contents f) = f_len f.
Proof. unfold contents. now rewrite length_map, length_seq. Qed.

Lemma len_contents f : len f = Z.of_nat (length (contents f)).
Proof. unfold len. now rewrite length_contents. Qed.

Lemma full_iff f : wf f -> full f = true <-> f_len f = cap f.
Proof.
  intros [_ _ Hl _]. unfold full. rewrite Nat.leb_le. lia.
Qed.

Lemma mod_add_inj c a i j :
  (i < c)%nat -> (j < c)%nat ->
  ((a + i) mod c = (a + j) mod c)%nat -> i = j.
Proof.
  intros Hi Hj E.
  assert (Hc : c <> 0%nat) by lia.
  pose proof (Nat.div_mod_eq (a + i) c) as Di.
  pose proof (Nat.div_mod_eq (a + j) c) as Dj.
  pose proof (Nat.mod_upper_bound (a + i) c Hc) as Bi.
  rewrite E in Di.
  assert (Hq : ((a + i) / c = (a + j) / c)%nat) by nia.
  rewrite Hq in Di. lia.
Qed.

Lemma S_mod_idemp a c : (S (a mod c) mod c = S a mod c)%nat.
Proof.
  replace (S (a mod c)) with (a mod c + 1)%nat by lia.
  replace (S a) with (a + 1)%nat by lia.
  apply Nat.Div0.add_mod_idemp_l.
Qed.

Lemma wf_put x f : wf f -> wf (snd (put x f)).
Proof.
  intros W. pose proof W as [Hb Ht Hl Hh]. unfold put.
  destruct (full f) eqn:F; cbn [snd]; [exact W|].
  unfold full in F. apply Nat.leb_gt in F.
  split; unfold cap in *; cbn [f_bits f_buf f_head f_tail f_len].
  - now rewrite length_insert.
  - exact Ht.
  - lia.
  - rewrite Hh. replace (f_tail f + S (f_len f))%nat with (S (f_tail f + f_len f)) by lia.
    apply S_mod_idemp.
Qed.

Lemma wf_get f : wf f -> wf (snd (get f)).
Proof.
  intros W. pose proof W as [Hb Ht Hl Hh]. unfold get.
  destruct (empty f) eqn:E; cbn [snd]; [exact W|].
  unfold empty in E. apply Nat.eqb_neq in E.
  pose proof (cap_pos f) as Hc.
  split; unfold cap in *; cbn [f_bits f_buf f_head f_tail f_len].
  - exact Hb.
  - apply Nat.mod_upper_bound. lia.
  - lia.
  - rewrite Hh, Nat.Div0.add_mod_idemp_l. f_equal. lia.
Qed.

Lemma wf_clear f : wf f -> wf (clear f).
Proof.
  intros [Hb Ht Hl Hh]. pose proof (cap_pos f) as Hc.
  split; unfold cap in *; cbn [clear f_bits f_buf f_head f_tail f_len]; try lia.
  symmetry. apply Nat.Div0.mod_0_l.
Qed.

Lemma contents_clear f : contents (clear f) = [].
Proof. reflexivity. Qed.

(** A failed [put] changes nothing. *)
Lemma put_full x f : full f = true -> put x f = (false, f).
Proof. unfold put. now intros ->. Qed.

(** A successful [put] appends at the young end and touches no older byte. *)
Lemma put_contents x f :
  wf f -> full f = false ->
  fst (put x f) = true /\ contents (snd (put x f)) = contents f ++ [x].
Proof.
  intros [Hb Ht Hl Hh] F. unfold put. rewrite F. cbn [fst snd]. split; [reflexivity|].
  unfold full in F. apply Nat.leb_gt in F.
  unfold contents, cap in *. cbn [f_bits f_buf f_head f_tail f_len].
  rewrite seq_S, map_app. cbn [map Nat.add]. f_equal.
  - apply map_ext_in. intros k Hk. apply in_seq in Hk.
    rewrite !nth_lookup. rewrite list_lookup_insert_ne; [reflexivity|].
    rewrite Hh. intros E. apply mod_add_inj in E; lia.
  - f_equal. rewrite nth_lookup, <- Hh.
    rewrite list_lookup_insert_eq; [reflexivity|].
    rewrite Hb, Hh. apply Nat.mod_upper_bound. lia.
Qed.

(** [get] on a queue that holds bytes returns the oldest and keeps the rest. *)
Lemma get_contents f :
  wf f -> empty f = false ->
  exists x, fst (get f) = Some x /\ contents f = x :: contents (snd (get f)).
Proof.
  intros [Hb Ht Hl Hh] E. unfold get. rewrite E. cbn [fst snd].
  unfold empty in E. apply Nat.eqb_neq in E.
  eexists. split; [reflexivity|].
  unfold contents, cap in *. cbn [f_bits f_buf f_head f_tail f_len].
  destruct (f_len f) as [|n] eqn:L; [congruence|].
  cbn [Nat.pred]. rewrite <- cons_seq. cbn [map]. f_equal.
  - rewrite Nat.add_0_r, Nat.mod_small by lia. reflexivity.
  - rewrite <- seq_shift, map_map. apply map_ext. intros k.
    f_equal. rewrite Nat.Div0.add_mod_idemp_l. f_equal. lia.
Qed.

Lemma get_empty f : empty f = true -> get f = (None, f).
Proof. unfold get. now intros ->. Qed.

Lemma empty_contents f : empty f = true <-> contents f = [].
Proof.
  unfold empty. rewrite Nat.eqb_eq. split; intros H.
  - unfold contents. now rewrite H.
  - rewrite <- length_contents, H. reflexivity.
Qed.

Lemma empty_false_contents f : empty f = false <-> contents f <> [].
Proof.
  rewrite <- empty_contents. destruct (empty f); split; congruence.
Qed.

Lemma get_cons f x l :
  wf f -> contents f = x :: l ->
  fst (get f) = Some x /\ contents (snd (get f)) = l.
Proof.
  intros W C.
  assert (E : empty f = false) by (apply empty_false_contents; congruence).
  destruct (get_contents f W E) as (y & Hy & Hc).
  rewrite C in Hc. inversion Hc; subst. split; [exact Hy|reflexivity].
Qed.

Lemma get_nil f : contents f = [] -> get f = (None, f).
Proof. intros C. apply get_empty, empty_contents, C. Qed.

Lemma wf_apply o f : wf f -> wf (apply o f).
Proof. destruct o; cbn; [apply wf_put | apply wf_get]. Qed.

Lemma run_cons o os f : run (o :: os) f = run os (apply o f).
Proof. reflexivity. Qed.

Lemma run_spec_cons c o os l :
  run_spec c (o :: os) l = run_spec c os (apply_spec c o l).
Proof. reflexivity. Qed.

Lemma wf_run os : forall f, wf f -> wf (run os f).
Proof.
  induction os as [|o os IH]; intros f W; [exact W|].
  rewrite run_cons. apply IH, wf_apply, W.
Qed.

Lemma cap_apply o f : cap (apply o f) = cap f.
Proof.
  destruct o as [x|]; cbn [apply]; unfold put, get, cap.
  - destruct (full f); reflexivity.
  - destruct (empty f); reflexivity.
Qed.

Lemma apply_refines o f :
  wf f -> contents (apply o f) = apply_spec (cap f) o (contents f).
Proof.
  intros W. destruct o as [x|]; cbn [apply apply_spec].
  - rewrite length_contents.
    destruct (full f) eqn:F.
    + rewrite put_full by exact F. cbn [snd].
      apply full_iff in F; [|exact W].
      replace (Nat.ltb (f_len f) (cap f)) with false; [reflexivity|].
      symmetry. apply Nat.ltb_ge. lia.
    + destruct (put_contents x f W F) as [_ ->].
      unfold full in F. apply Nat.leb_gt in F.
      replace (Nat.ltb (f_len f) (cap f)) with true; [reflexivity|].
      symmetry. apply Nat.ltb_lt. lia.
  - destruct (empty f) eqn:E.
    + rewrite get_empty by exact E. cbn [snd].
      apply empty_contents in E. now rewrite E.
    + destruct (get_contents f W E) as (x & _ & ->). reflexivity.
Qed.

Lemma run_refines os : forall f,
  wf f -> contents (run os f) = run_spec (cap f) os (contents f)
          /\ cap (run os f) = cap f.
Proof.
  induction os as [|o os IH]; intros f W; [split; reflexivity|].
  rewrite run_cons, run_spec_cons.
  destruct (IH (apply o f) (wf_apply o f W)) as [IH1 IH2].
  rewrite IH1, IH2, cap_apply, apply_refines by exact W.
  split; reflexivity.
Qed.

Lemma cap_run os f : cap (run os f) = cap f.
Proof.
  revert f. induction os as [|o os IH]; intros f; [reflexivity|].
  rewrite run_cons, IH. apply cap_apply.
Qed.

(** C4.  After any sequence of [in] and [out] calls on a fresh ring buffer
    of capacity [2^n], [len()] is at most the capacity and the bytes held
    are those of a plain bounded queue run through the same calls; [in] on
    the full buffer returns false and leaves the buffer as it is, and
    otherwise returns true and appends the byte behind the ones held. *)
Theorem C4_ring_buffer_bounded (n : nat) (os : list op) (x : Z) :
  len (run os (create n)) <= Z.of_nat (2 ^ n) /\
  contents (run os (create n)) = run_spec (2 ^ n) os [] /\
  (if full (run os (create n))
   then put x (run os (create n)) = (false, run os (create n))
   else fst (put x (run os (create n))) = true /\
        contents (snd (put x (run os (create n)))) =
          contents (run os (create n)) ++ [x]).
Proof.
  pose proof (wf_run os (create n) (wf_create n)) as W.
  destruct (run_refines os (create n) (wf_create n)) as (R & C).
  change (cap (create n)) with (2 ^ n)%nat in *.
  split; [|split].
  - destruct W as [_ _ Hl _]. unfold len. rewrite C in Hl. lia.
  - rewrite R, contents_create. reflexivity.
  - destruct (full (run os (create n))) eqn:F.
    + apply put_full, F.
    + apply put_contents; assumption.
Qed.

End FifoFacts.

(** ** The receive decoder *)

Section RxFacts.
Context {P : Platform}.

Lemma u8_range z : 0 <= u8 z < 256.
Proof. unfold u8. apply Z.mod_pos_bound. lia. Qed.

Lemma u8_small z : 0 <= z < 256 -> u8 z = z.
Proof. unfold u8. apply Z.mod_small. Qed.

Lemma setModemType_timing afsk m : timing_ok (setModemType afsk m).
Proof.
  unfold setModemType, timing_ok. msimpl.
  split; [apply u8_range|]. repeat split; reflexivity.
Qed.

Lemma timing_values m :
  timing_ok m ->
  hlfBit m = fulBit m / 2 /\ qrtBit m = fulBit m / 4 /\ octBit m = fulBit m / 8.
Proof.
  intros (_ & H2 & H4 & H8).
  rewrite H8, H4, H2, !Z.shiftr_div_pow2 by lia.
  change (2 ^ 1) with 2. rewrite !Z.div_div by lia.
  repeat split; reflexivity.
Qed.

Lemma highs_cons b bs : highs (b :: bs) = b + highs bs.
Proof. reflexivity. Qed.

Lemma highs_app bs cs : highs (bs ++ cs) = highs bs + highs cs.
Proof.
  induction bs as [|b bs IH]; [reflexivity|].
  cbn [app]. rewrite !highs_cons, IH. lia.
Qed.

Lemma highs_bounds bs :
  Forall is_bit bs -> 0 <= highs bs <= Z.of_nat (length bs).
Proof.
  induction 1 as [|b bs Hb _ IH]; [cbn; lia|].
  rewrite highs_cons. cbn [length]. destruct Hb; subst; lia.
Qed.

Lemma rxFeed_cons b bs m : rxFeed (b :: bs) m = rxFeed bs (rxDecoder b m).
Proof. unfold rxFeed. cbn [fold_left]. reflexivity. Qed.

Lemma rxFeed_nil m : rxFeed [] m = m.
Proof. unfold rxFeed. cbn [fold_left]. reflexivity. Qed.

Lemma rxFeed_app bs cs m : rxFeed (bs ++ cs) m = rxFeed cs (rxFeed bs m).
Proof. unfold rxFeed. apply fold_left_app. Qed.

(** The decoder writes [rx], the RX queue, the carrier counter and PORTB,
    and nothing else. *)
Lemma rxDecoder_changes bt m :
  exists r q c p,
    rxDecoder bt m = set_PORTB p (set_rxFIFO q (set_cdCount c (set_rx r m))).
Proof.
  unfold rxDecoder, rxFIFO_in. msimpl. mcases;
    do 4 eexists; msimpl; reflexivity.
Qed.

Lemma rxDecoder_frame bt m : rx_frame m (rxDecoder bt m).
Proof.
  destruct (rxDecoder_changes bt m) as (r & q & c & p & ->).
  unfold rx_frame. msimpl. repeat split; reflexivity.
Qed.

Lemma rx_frame_refl m : rx_frame m m.
Proof. unfold rx_frame. repeat split; reflexivity. Qed.

Lemma rx_frame_trans a b c : rx_frame a b -> rx_frame b c -> rx_frame a c.
Proof. unfold rx_frame. intros; intuition congruence. Qed.

Lemma rxFeed_frame bs : forall m, rx_frame m (rxFeed bs m).
Proof.
  induction bs as [|b bs IH]; intros m; [rewrite rxFeed_nil; apply rx_frame_refl|].
  rewrite rxFeed_cons. eapply rx_frame_trans; [apply rxDecoder_frame|apply IH].
Qed.

Lemma timing_frame m m' : rx_frame m m' -> timing_ok m -> timing_ok m'.
Proof.
  unfold rx_frame, timing_ok. intros (-> & -> & -> & -> & _). tauto.
Qed.

(** *** PREAMBLE *)

(** A sample that does not complete the half bit period is only counted. *)
Lemma rxDecoder_PREAMBLE_count bt m :
  rx_state (rx m) = PREAMBLE ->
  u8 (rx_clk (rx m) + 1) < hlfBit m ->
  rx_state (rx (rxDecoder bt m)) = PREAMBLE /\
  rx_clk (rx (rxDecoder bt m)) = u8 (rx_clk (rx m) + 1) /\
  rx_bitsum (rx (rxDecoder bt m)) = u8 (rx_bitsum (rx m) + bt) /\
  rxFIFO (rxDecoder bt m) = rxFIFO m.
Proof.
  intros Hs Hc. unfold rxDecoder. mnorm. rewrite Hs.
  case_if; bool_hyps; [lia|]. msimpl. repeat split; assumption || reflexivity.
Qed.

(** The sample that completes the half bit period decides. *)
Lemma rxDecoder_PREAMBLE_decide bt m :
  rx_state (rx m) = PREAMBLE ->
  hlfBit m <= u8 (rx_clk (rx m) + 1) ->
  rx_state (rx (rxDecoder bt m)) =
    (if octBit m <? u8 (rx_bitsum (rx m) + bt) then WAIT else START_BIT) /\
  rxFIFO (rxDecoder bt m) = rxFIFO m.
Proof.
  intros Hs Hc. unfold rxDecoder. mnorm. rewrite Hs.
  case_if; bool_hyps; [|lia]. case_if; msimpl; split; reflexivity.
Qed.

Lemma rxFeed_PREAMBLE_count bs : forall m,
  rx_state (rx m) = PREAMBLE ->
  Forall is_bit bs ->
  0 <= rx_bitsum (rx m) <= rx_clk (rx m) ->
  0 <= rx_clk (rx m) ->
  rx_clk (rx m) + Z.of_nat (length bs) < hlfBit m ->
  hlfBit m <= 256 ->
  rx_state (rx (rxFeed bs m)) = PREAMBLE /\
  rx_clk (rx (rxFeed bs m)) = rx_clk (rx m) + Z.of_nat (length bs) /\
  rx_bitsum (rx (rxFeed bs m)) = rx_bitsum (rx m) + highs bs /\
  rxFIFO (rxFeed bs m) = rxFIFO m.
Proof.
  induction bs as [|b bs IH]; intros m Hs Hb Hr H0 Hc Hh.
  - rewrite rxFeed_nil. cbn [length highs fold_right]. repeat split; [exact Hs|lia|lia].
  - inversion Hb as [|? ? Hb1 Hb2]; subst.
    cbn [length] in Hc. rewrite rxFeed_cons.
    assert (E1 : u8 (rx_clk (rx m) + 1) = rx_clk (rx m) + 1) by (apply u8_small; lia).
    assert (E2 : u8 (rx_bitsum (rx m) + b) = rx_bitsum (rx m) + b)
      by (apply u8_small; destruct Hb1; subst; lia).
    destruct (rxDecoder_PREAMBLE_count b m Hs) as (S1 & C1 & B1 & Q1); [lia|].
    destruct (rxDecoder_frame b m) as (_ & Fh & _).
    rewrite E1 in C1. rewrite E2 in B1.
    specialize (IH (rxDecoder b m) S1 Hb2).
    rewrite C1, B1, Fh, Q1 in IH.
    destruct IH as (S2 & C2 & B2 & Q2); [destruct Hb1; subst; lia|lia|lia|lia|].
    rewrite S2, C2, B2, highs_cons. cbn [length].
    repeat split; [lia|lia|exact Q2].
Qed.

(** *** States timed by the full bit period *)

Lemma rxDecoder_timed_count bt m :
  rx_timed (rx_state (rx m)) ->
  u8 (rx_clk (rx m) + 1) < fulBit m ->
  rx_state (rx (rxDecoder bt m)) = rx_state (rx m) /\
  rx_clk (rx (rxDecoder bt m)) = u8 (rx_clk (rx m) + 1) /\
  rx_bitsum (rx (rxDecoder bt m)) = u8 (rx_bitsum (rx m) + bt) /\
  rx_data (rx (rxDecoder bt m)) = rx_data (rx m) /\
  rx_bits (rx (rxDecoder bt m)) = rx_bits (rx m) /\
  rxFIFO (rxDecoder bt m) = rxFIFO m.
Proof.
  intros Hs Hc. unfold rxDecoder, rx_timed in *. mnorm.
  destruct Hs as [Hs|[Hs|Hs]]; rewrite Hs;
    (case_if; bool_hyps; [lia|]); msimpl; repeat split; assumption || reflexivity.
Qed.

Lemma rxFeed_timed_count bs : forall m,
  rx_timed (rx_state (rx m)) ->
  Forall is_bit bs ->
  0 <= rx_bitsum (rx m) <= rx_clk (rx m) ->
  rx_clk (rx m) + Z.of_nat (length bs) < fulBit m ->
  fulBit m <= 256 ->
  rx_state (rx (rxFeed bs m)) = rx_state (rx m) /\
  rx_clk (rx (rxFeed bs m)) = rx_clk (rx m) + Z.of_nat (length bs) /\
  rx_bitsum (rx (rxFeed bs m)) = rx_bitsum (rx m) + highs bs /\
  rx_data (rx (rxFeed bs m)) = rx_data (rx m) /\
  rx_bits (rx (rxFeed bs m)) = rx_bits (rx m) /\
  rxFIFO (rxFeed bs m) = rxFIFO m.
Proof.
  induction bs as [|b bs IH]; intros m Hs Hb Hr Hc Hh.
  - rewrite rxFeed_nil. cbn [length highs fold_right].
    repeat split; reflexivity || lia.
  - inversion Hb as [|? ? Hb1 Hb2]; subst.
    cbn [length] in Hc. rewrite rxFeed_cons.
    assert (E1 : u8 (rx_clk (rx m) + 1) = rx_clk (rx m) + 1) by (apply u8_small; lia).
    assert (E2 : u8 (rx_bitsum (rx m) + b) = rx_bitsum (rx m) + b)
      by (apply u8_small; destruct Hb1; subst; lia).
    destruct (rxDecoder_timed_count b m Hs) as (S1 & C1 & B1 & D1 & N1 & Q1); [lia|].
    destruct (rxDecoder_frame b m) as (Ff & _).
    rewrite E1 in C1. rewrite E2 in B1.
    specialize (IH (rxDecoder b m)).
    rewrite S1, C1, B1, Ff, D1, N1, Q1 in IH.
    destruct (IH Hs Hb2) as (S2 & C2 & B2 & D2 & N2 & Q2);
      [destruct Hb1; subst; lia|lia|lia|].
    rewrite S2, C2, B2, D2, N2, Q2, highs_cons. cbn [length].
    repeat split; lia.
Qed.

(** The sample that completes the stop-bit window decides. *)
Lemma rxDecoder_STOP_decide bt m :
  rx_state (rx m) = STOP_BIT ->
  fulBit m <= u8 (rx_clk (rx m) + 1) ->
  rx_state (rx (rxDecoder bt m)) = WAIT /\
  rxFIFO (rxDecoder bt m) =
    (if qrtBit m <? u8 (rx_bitsum (rx m) + bt)
     then snd (Fifo.put (rx_data (rx m)) (rxFIFO m)) else rxFIFO m).
Proof.
  intros Hs Hc. unfold rxDecoder, rxFIFO_in. mnorm. rewrite Hs.
  case_if; bool_hyps; [|lia]. case_if; msimpl; split; reflexivity.
Qed.

Lemma div_lt_iff a k h : 0 < k -> (a / k < h <-> a < k * h).
Proof.
  intros Hk. split; intros H.
  - pose proof (Z.mul_div_le a k Hk). pose proof (Z.mod_pos_bound a k Hk).
    pose proof (Z.div_mod a k). nia.
  - apply Z.div_lt_upper_bound; lia.
Qed.

Lemma list_snoc_inv {A} (l : list A) :
  l <> [] -> exists l' x, l = l' ++ [x].
Proof.
  intros H. destruct (exists_last H) as (l' & x & ->). eauto.
Qed.

(** C6 (as amended).  In PREAMBLE, entered with the sample counter and the
    HIGH counter at zero, nothing is decided before half a bit period of
    samples is in; the sample that completes it sends the decoder back to
    WAIT exactly when the number of HIGH samples exceeds one eighth of a
    FULL bit period ([octBit], a quarter of the samples collected), and to
    START_BIT otherwise. *)
Theorem C6_preamble_threshold (m : Modem) (bs : list Z) :
  timing_ok m ->
  2 <= fulBit m ->
  rx_state (rx m) = PREAMBLE ->
  rx_clk (rx m) = 0 ->
  rx_bitsum (rx m) = 0 ->
  Forall is_bit bs ->
  Z.of_nat (length bs) = hlfBit m ->
  (forall k, (k < length bs)%nat ->
             rx_state (rx (rxFeed (firstn k bs) m)) = PREAMBLE) /\
  (fulBit m < 8 * highs bs -> rx_state (rx (rxFeed bs m)) = WAIT) /\
  (8 * highs bs <= fulBit m -> rx_state (rx (rxFeed bs m)) = START_BIT).
Proof.
  intros T H2 Hs Hc Hb Hbits Hlen.
  destruct (timing_values m T) as (Eh & Eq & Eo).
  destruct T as (Tf & _).
  assert (Hh : 1 <= hlfBit m < 128).
  { rewrite Eh. split; [apply Z.div_le_lower_bound; lia|apply Z.div_lt_upper_bound; lia]. }
  split.
  - intros k Hk.
    apply (rxFeed_PREAMBLE_count (firstn k bs) m Hs); try lia.
    + apply Forall_take, Hbits.
    + rewrite length_firstn. lia.
  - assert (Hne : bs <> []) by (intros ->; cbn in Hlen; lia).
    destruct (list_snoc_inv bs Hne) as (bs' & b & ->).
    rewrite length_app in Hlen. cbn [length] in Hlen.
    apply Forall_app in Hbits. destruct Hbits as (Hb1 & Hb2).
    inversion Hb2 as [|? ? Hbit _]; subst.
    destruct (rxFeed_PREAMBLE_count bs' m Hs Hb1) as (S1 & C1 & B1 & _); try lia.
    pose proof (highs_bounds bs' Hb1) as Hhs.
    destruct (rxFeed_frame bs' m) as (_ & Fh & _ & Fo & _).
    rewrite rxFeed_app, rxFeed_cons, rxFeed_nil.
    destruct (rxDecoder_PREAMBLE_decide b (rxFeed bs' m) S1) as (D & _).
    { rewrite Fh, C1, Hc, u8_small; lia. }
    rewrite D, Fo, B1, Hb, highs_app, highs_cons. cbn [highs fold_right].
    rewrite u8_small by (destruct Hbit; subst; lia).
    rewrite Eo.
    destruct (Z.ltb_spec (fulBit m / 8) (0 + highs bs' + b)) as [L|L];
      [apply div_lt_iff in L; [|lia] | rewrite <- Z.nlt_ge, (div_lt_iff _ 8) in L by lia];
      split; intros ?; reflexivity || lia.
Qed.

(** C7.  In STOP_BIT, entered with the sample counter at half a bit period
    and the HIGH counter at zero, the samples of the remaining half period
    are only counted; the sample that completes it puts the assembled byte
    into the RX queue exactly when the number of HIGH samples exceeds a
    quarter of a full bit period, leaves the queue as it was otherwise, and
    in both cases returns the decoder to WAIT. *)
Theorem C7_stop_bit (m : Modem) (bs : list Z) :
  timing_ok m ->
  1 <= fulBit m ->
  rx_state (rx m) = STOP_BIT ->
  rx_clk (rx m) = hlfBit m ->
  rx_bitsum (rx m) = 0 ->
  Forall is_bit bs ->
  Z.of_nat (length bs) = fulBit m - hlfBit m ->
  (forall k, (k < length bs)%nat ->
             rx_state (rx (rxFeed (firstn k bs) m)) = STOP_BIT /\
             rxFIFO (rxFeed (firstn k bs) m) = rxFIFO m) /\
  rx_state (rx (rxFeed bs m)) = WAIT /\
  (fulBit m < 4 * highs bs ->
     rxFIFO (rxFeed bs m) = snd (Fifo.put (rx_data (rx m)) (rxFIFO m))) /\
  (4 * highs bs <= fulBit m -> rxFIFO (rxFeed bs m) = rxFIFO m).
Proof.
  intros T H1 Hs Hc Hb Hbits Hlen.
  destruct (timing_values m T) as (Eh & Eq & Eo).
  destruct T as (Tf & _).
  assert (Hh : 0 <= hlfBit m < fulBit m).
  { rewrite Eh. split; [apply Z.div_pos; lia|apply Z.div_lt_upper_bound; lia]. }
  assert (Ht : rx_timed (rx_state (rx m))) by (rewrite Hs; right; right; reflexivity).
  split.
  - intros k Hk.
    destruct (rxFeed_timed_count (firstn k bs) m Ht) as (S1 & _ & _ & _ & _ & Q1); try lia.
    + apply Forall_take, Hbits.
    + rewrite length_firstn. lia.
    + rewrite S1. split; [exact Hs|exact Q1].
  - assert (Hne : bs <> []) by (intros ->; cbn in Hlen; lia).
    destruct (list_snoc_inv bs Hne) as (bs' & b & ->).
    rewrite length_app in Hlen. cbn [length] in Hlen.
    apply Forall_app in Hbits. destruct Hbits as (Hb1 & Hb2).
    inversion Hb2 as [|? ? Hbit _]; subst.
    destruct (rxFeed_timed_count bs' m Ht Hb1) as (S1 & C1 & B1 & D1 & _ & Q1); try lia.
    pose proof (highs_bounds bs' Hb1) as Hhs.
    destruct (rxFeed_frame bs' m) as (Ff & _ & Fq & _).
    rewrite Hs in S1.
    rewrite rxFeed_app, rxFeed_cons, rxFeed_nil.
    destruct (rxDecoder_STOP_decide b (rxFeed bs' m) S1) as (D & Q).
    { rewrite Ff, C1, Hc, u8_small; lia. }
    rewrite D, Q, Fq, B1, Hb, D1, Q1, highs_app, highs_cons. cbn [highs fold_right].
    rewrite u8_small by (destruct Hbit; subst; lia).
    rewrite Eq.
    destruct (Z.ltb_spec (fulBit m / 4) (0 + highs bs' + b)) as [L|L];
      [apply div_lt_iff in L; [|lia] | rewrite <- Z.nlt_ge, (div_lt_iff _ 4) in L by lia];
      (split; [reflexivity|]); split; intros ?; reflexivity || lia.
Qed.

End RxFacts.

(** ** The transmitter *)

Section TxFacts.
Context {P : Platform}.

Lemma txRun_S n m : txRun (S n) m = txRun n (txHandle m).
Proof. unfold txRun. rewrite Nat.iter_succ_r. reflexivity. Qed.

Lemma txRun_add a b m : txRun (a + b) m = txRun b (txRun a m).
Proof.
  revert m. induction a as [|a IH]; intros m; [reflexivity|].
  cbn [Nat.add]. rewrite !txRun_S. apply IH.
Qed.

Lemma txSymbols_S n m :
  txSymbols (S n) m =
    (if tx_emitting m && tx_boundary m then [tx_dtbit (tx (txHandle m))] else [])
    ++ txSymbols n (txHandle m).
Proof. cbn [txSymbols]. destruct (tx_emitting m && tx_boundary m); reflexivity. Qed.

Lemma txSymbols_add a : forall b m,
  txSymbols (a + b) m = txSymbols a m ++ txSymbols b (txRun a m).
Proof.
  induction a as [|a IH]; intros b m; [reflexivity|].
  cbn [Nat.add]. rewrite !txSymbols_S, txRun_S, IH, app_assoc. reflexivity.
Qed.

(** The framing step does not look at the phase index or the PWM register. *)
Lemma txFrame_norm m : tx_norm (txFrame (tx_norm m)) = tx_norm (txFrame m).
Proof.
  unfold txFrame, tx_norm, txFIFO_out. msimpl. mcases; try reflexivity.
  match goal with H : _ = CARRIER |- _ => rewrite H end. reflexivity.
Qed.

(** Neither does a whole tick, up to those two. *)
Lemma txHandle_norm m : tx_norm (txHandle (tx_norm m)) = tx_norm (txHandle m).
Proof.
  unfold txHandle, tx_emitting, txFrame, txDial, tx_norm, txFIFO_out, DAC.
  msimpl. mcases; try reflexivity.
  all: match goal with H : @eq state_t _ _ |- _ => rewrite H end; reflexivity.
Qed.

Lemma tx_norm_idem m : tx_norm (tx_norm m) = tx_norm m.
Proof. reflexivity. Qed.

Lemma tx_norm_eq_handle a b :
  tx_norm a = tx_norm b -> tx_norm (txHandle a) = tx_norm (txHandle b).
Proof.
  intros E. rewrite <- (txHandle_norm a), <- (txHandle_norm b), E. reflexivity.
Qed.

Lemma tx_norm_eq_obs a b :
  tx_norm a = tx_norm b ->
  tx_emitting a = tx_emitting b /\ tx_boundary a = tx_boundary b /\
  tx_dtbit (tx a) = tx_dtbit (tx b) /\ tx_clk (tx a) = tx_clk (tx b) /\
  fulBit a = fulBit b.
Proof.
  intros E.
  change (tx_emitting a) with (tx_emitting (tx_norm a)).
  change (tx_boundary a) with (tx_boundary (tx_norm a)).
  change (tx_dtbit (tx a)) with (tx_dtbit (tx (tx_norm a))).
  change (tx_clk (tx a)) with (tx_clk (tx (tx_norm a))).
  change (fulBit a) with (fulBit (tx_norm a)).
  rewrite E. repeat split; reflexivity.
Qed.

Lemma tx_norm_eq_run n : forall a b,
  tx_norm a = tx_norm b -> tx_norm (txRun n a) = tx_norm (txRun n b).
Proof.
  induction n as [|n IH]; intros a b E; [exact E|].
  rewrite !txRun_S. apply IH, tx_norm_eq_handle, E.
Qed.

Lemma tx_norm_eq_symbols n : forall a b,
  tx_norm a = tx_norm b -> txSymbols n a = txSymbols n b.
Proof.
  induction n as [|n IH]; intros a b E; [reflexivity|].
  rewrite !txSymbols_S.
  destruct (tx_norm_eq_obs a b E) as (-> & -> & _).
  pose proof (tx_norm_eq_handle a b E) as E'.
  destruct (tx_norm_eq_obs _ _ E') as (_ & _ & -> & _).
  rewrite (IH _ _ E'). reflexivity.
Qed.

(** A tick inside a bit period only advances the phase and the counter. *)
Lemma txHandle_inside m :
  tx_emitting m = true ->
  0 <= tx_clk (tx m) < fulBit m ->
  fulBit m < 256 ->
  tx_norm (txHandle m) = tx_norm (upd_tx (set_tx_clk (tx_clk (tx m) + 1)) m) /\
  tx_boundary m = false.
Proof.
  intros He Hc Hf. unfold txHandle, tx_boundary, tx_norm, DAC in *.
  rewrite He. mnorm.
  case_if; bool_hyps; [lia|]. msimpl.
  rewrite u8_small by lia. split; reflexivity.
Qed.

(** The tick that ends a bit period runs the framing switch. *)
Lemma txHandle_boundary m :
  tx_emitting m = true ->
  fulBit m <= tx_clk (tx m) ->
  tx_norm (txHandle m) = txFrameN (upd_tx (set_tx_clk 0) m) /\
  tx_boundary m = true.
Proof.
  intros He Hc. unfold txFrameN. rewrite <- txFrame_norm.
  unfold txHandle, tx_boundary, DAC in *. rewrite He.
  apply Z.leb_le in Hc. mnorm. rewrite Hc. msimpl.
  split; [|reflexivity].
  rewrite <- (txFrame_norm (mkModem _ _ _ _ _ _ _ _ _ _ _ _ _ _ _ _ _ _ _ _ _ _ _ _ _ _ _ _ _ _ _ _ _ _)).
  unfold tx_norm. msimpl. reflexivity.
Qed.

Lemma tx_emitting_clk c m :
  tx_emitting (upd_tx (set_tx_clk c) m) = tx_emitting m.
Proof. reflexivity. Qed.

(** The ticks before the boundary. *)
Lemma txRun_inside n : forall m,
  tx_emitting m = true ->
  0 <= tx_clk (tx m) ->
  tx_clk (tx m) + Z.of_nat n <= fulBit m ->
  fulBit m < 256 ->
  tx_norm (txRun n m) =
    tx_norm (upd_tx (set_tx_clk (tx_clk (tx m) + Z.of_nat n)) m) /\
  txSymbols n m = [].
Proof.
  induction n as [|n IH]; intros m He H0 Hc Hf.
  - cbn [txRun Nat.iter txSymbols]. rewrite Z.add_0_r. split; reflexivity.
  - rewrite txRun_S, txSymbols_S.
    destruct (txHandle_inside m He) as (E & B); [lia|lia|].
    rewrite B, andb_false_r. cbn [app].
    set (m1 := upd_tx (set_tx_clk (tx_clk (tx m) + 1)) m) in *.
    assert (A1 : 0 <= tx_clk (tx m1)) by (unfold m1; mnorm; lia).
    assert (A2 : tx_clk (tx m1) + Z.of_nat n <= fulBit m1) by (unfold m1; mnorm; lia).
    destruct (IH m1 He A1 A2 Hf) as (R & S1).
    rewrite (tx_norm_eq_run n _ _ E), (tx_norm_eq_symbols n _ _ E), R, S1.
    split; [|reflexivity].
    replace (tx_clk (tx m) + Z.of_nat (S n)) with (tx_clk (tx m1) + Z.of_nat n)
      by (unfold m1; mnorm; lia).
    reflexivity.
Qed.

(** One whole bit period, started with the sample counter at zero. *)
Lemma tx_period m :
  tx_emitting m = true ->
  tx_clk (tx m) = 0 ->
  0 <= fulBit m < 256 ->
  tx_norm (txRun (S (Z.to_nat (fulBit m))) m) = txFrameN m /\
  txSymbols (S (Z.to_nat (fulBit m))) m = [tx_dtbit (tx (txFrameN m))].
Proof.
  intros He Hc Hf.
  replace (S (Z.to_nat (fulBit m))) with (Z.to_nat (fulBit m) + 1)%nat by lia.
  rewrite txRun_add, txSymbols_add.
  destruct (txRun_inside (Z.to_nat (fulBit m)) m He) as (R & S0); [lia|lia|lia|].
  rewrite S0. cbn [app].
  set (m1 := upd_tx (set_tx_clk (tx_clk (tx m) + Z.of_nat (Z.to_nat (fulBit m)))) m) in *.
  rewrite (tx_norm_eq_run 1 _ _ R), (tx_norm_eq_symbols 1 _ _ R).
  assert (He1 : tx_emitting m1 = true) by exact He.
  assert (Hc1 : fulBit m1 <= tx_clk (tx m1)) by (unfold m1; mnorm; lia).
  destruct (txHandle_boundary m1 He1 Hc1) as (E & B).
  change (txRun 1 m1) with (txHandle m1).
  rewrite txSymbols_S, He1, B. cbn [andb txSymbols app].
  assert (Em : upd_tx (set_tx_clk 0) m1 = m).
  { unfold m1. msimpl. rewrite <- Hc. reflexivity. }
  rewrite Em in E. rewrite E. split; [reflexivity|].
  change (tx_dtbit (tx (txHandle m1))) with (tx_dtbit (tx (tx_norm (txHandle m1)))).
  rewrite E. reflexivity.
Qed.

Lemma txFrame_keeps m :
  fulBit (txFrame m) = fulBit m /\
  cfgAFSK (txFrame m) = cfgAFSK m /\
  (tx_clk (tx m) = 0 -> tx_clk (tx (txFrame m)) = 0) /\
  tx_carrier (tx (txFrame m)) = tx_carrier (tx m) /\
  rx (txFrame m) = rx m /\ rxFIFO (txFrame m) = rxFIFO m.
Proof.
  unfold txFrame, txFIFO_out. msimpl. mcases; repeat split; auto.
Qed.

(** [k] whole bit periods. *)
Lemma tx_periods k : forall m,
  tx_clk (tx m) = 0 ->
  0 <= fulBit m < 256 ->
  framesEmit k m ->
  txSymbols (k * S (Z.to_nat (fulBit m))) m = frameSymbols k m.
Proof.
  induction k as [|k IH]; intros m Hc Hf He; [reflexivity|].
  destruct He as (He & Hn).
  cbn [Nat.mul frameSymbols]. rewrite txSymbols_add.
  destruct (tx_period m He Hc Hf) as (R & S1).
  rewrite S1. cbn [app]. f_equal.
  assert (E : tx_norm (txRun (S (Z.to_nat (fulBit m))) m) = tx_norm (txFrameN m))
    by (rewrite R; reflexivity).
  rewrite (tx_norm_eq_symbols _ _ _ E).
  destruct (txFrame_keeps m) as (Ff & _ & Fc & _).
  replace (fulBit m) with (fulBit (txFrameN m)) by exact Ff.
  apply IH; [exact (Fc Hc)|change (fulBit (txFrameN m)) with (fulBit (txFrame m)); lia|exact Hn].
Qed.

(** *** The framing switch, state by state *)

Lemma txFrames_S k m : txFrames (S k) m = txFrames k (txFrameN m).
Proof. unfold txFrames. rewrite Nat.iter_succ_r. reflexivity. Qed.

Lemma frameSymbols_add a : forall b m,
  frameSymbols (a + b) m = frameSymbols a m ++ frameSymbols b (txFrames a m).
Proof.
  induction a as [|a IH]; intros b m; [reflexivity|].
  cbn [Nat.add frameSymbols]. rewrite txFrames_S, IH. reflexivity.
Qed.

Lemma framesEmit_add a : forall b m,
  framesEmit a m -> framesEmit b (txFrames a m) -> framesEmit (a + b) m.
Proof.
  induction a as [|a IH]; intros b m Ha Hb; [exact Hb|].
  destruct Ha as (He & Ha). cbn [Nat.add framesEmit]. split; [exact He|].
  apply IH; [exact Ha|]. rewrite <- txFrames_S. exact Hb.
Qed.

Lemma tx_same_refl m : tx_same m m.
Proof. unfold tx_same. repeat split; reflexivity. Qed.

Lemma tx_same_trans a b c : tx_same a b -> tx_same b c -> tx_same a c.
Proof. unfold tx_same. intros; intuition congruence. Qed.

Lemma txFrameN_same m : tx_same m (txFrameN m).
Proof.
  destruct (txFrame_keeps m) as (Ff & Fa & _ & Fc & _).
  unfold tx_same, txFrameN, tx_norm. mnorm. repeat split; assumption.
Qed.

Lemma tx_at_emitting m s dt d b q : tx_at m s dt d b q -> tx_emitting m = true.
Proof.
  intros (_ & _ & _ & _ & _ & _ & Ha & _). unfold tx_emitting. rewrite Ha. reflexivity.
Qed.

Ltac tx_stage :=
  unfold tx_at, txFrameN, tx_norm, txFrame, txFIFO_out in *; mnorm.

Ltac tx_done :=
  cbn [negb andb orb byte_of]; msimpl;
  repeat apply conj; first [assumption | reflexivity].

(** WAIT with a byte queued: take it and start the preamble on MARK. *)
Lemma txFrame_WAIT_byte m dt d b x q :
  tx_at m WAIT dt d b (x :: q) ->
  tx_at (txFrameN m) PREAMBLE MARK (u8 x) 0 q.
Proof.
  intros (Hs & Hdt & Hd & Hb & Hq & Hw & Ha & Hc).
  destruct (FifoFacts.get_cons _ _ _ Hw Hq) as (G1 & G2).
  assert (E : Fifo.empty (txFIFO m) = false)
    by (apply FifoFacts.empty_false_contents; congruence).
  pose proof (FifoFacts.wf_get _ Hw) as Hw'.
  tx_stage. rewrite Hs, E, G1. tx_done.
Qed.

(** WAIT with nothing queued: stay, on MARK. *)
Lemma txFrame_WAIT_idle m dt d b :
  tx_at m WAIT dt d b [] ->
  tx_at (txFrameN m) WAIT MARK d b [].
Proof.
  intros (Hs & Hdt & Hd & Hb & Hq & Hw & Ha & Hc).
  assert (E : Fifo.empty (txFIFO m) = true) by (apply FifoFacts.empty_contents, Hq).
  tx_stage. rewrite Hs, E. tx_done.
Qed.

(** PREAMBLE: one more period of MARK while the count is short of
    [carBits] and the carrier is not forced. *)
Lemma txFrame_PREAMBLE_stay m dt d b q :
  tx_at m PREAMBLE dt d b q ->
  u8 (b + 1) < carBits -> tx_carrier (tx m) <> ON ->
  tx_at (txFrameN m) PREAMBLE dt d (u8 (b + 1)) q.
Proof.
  intros (Hs & Hdt & Hd & Hb & Hq & Hw & Ha & Hc) Hlt Hcar.
  apply Z.leb_gt in Hlt. apply Z.eqb_neq in Hcar.
  tx_stage. rewrite Hs, Hb, Hlt, Hcar. tx_done.
Qed.

(** PREAMBLE: leave for the start bit (SPACE) when the count reaches
    [carBits] or the carrier is forced. *)
Lemma txFrame_PREAMBLE_exit m dt d b q :
  tx_at m PREAMBLE dt d b q ->
  carBits <= u8 (b + 1) \/ tx_carrier (tx m) = ON ->
  tx_at (txFrameN m) START_BIT SPACE d (u8 (b + 1)) q.
Proof.
  intros (Hs & Hdt & Hd & Hb & Hq & Hw & Ha & Hc) Hex.
  assert (E : (carBits <=? u8 (b + 1)) || (tx_carrier (tx m) =? ON) = true).
  { apply orb_true_iff. destruct Hex as [H|H]; [left; apply Z.leb_le, H|right; apply Z.eqb_eq, H]. }
  tx_stage. rewrite Hs, Hb, E. tx_done.
Qed.

(** START_BIT: load the first data bit. *)
Lemma txFrame_START m dt d b q :
  tx_at m START_BIT dt d b q ->
  tx_at (txFrameN m) DATA_BIT (Z.land d 1) (Z.shiftr d 1) 0 q.
Proof.
  intros (Hs & Hdt & Hd & Hb & Hq & Hw & Ha & Hc).
  tx_stage. rewrite Hs, Hd. tx_done.
Qed.

(** DATA_BIT: the next bit, least significant first. *)
Lemma txFrame_DATA_next m dt d b q :
  tx_at m DATA_BIT dt d b q ->
  u8 (b + 1) < dtbits (cfgAFSK m) ->
  tx_at (txFrameN m) DATA_BIT (Z.land d 1) (Z.shiftr d 1) (u8 (b + 1)) q.
Proof.
  intros (Hs & Hdt & Hd & Hb & Hq & Hw & Ha & Hc) Hlt.
  apply Z.ltb_lt in Hlt.
  tx_stage. rewrite Hs, Hb, Hlt, Hd. tx_done.
Qed.

(** DATA_BIT: after the last bit, the stop bit (MARK). *)
Lemma txFrame_DATA_last m dt d b q :
  tx_at m DATA_BIT dt d b q ->
  dtbits (cfgAFSK m) <= u8 (b + 1) ->
  tx_at (txFrameN m) STOP_BIT MARK d (u8 (b + 1)) q.
Proof.
  intros (Hs & Hdt & Hd & Hb & Hq & Hw & Ha & Hc) Hge.
  apply Z.ltb_ge in Hge.
  tx_stage. rewrite Hs, Hb, Hge. tx_done.
Qed.


(** STOP_BIT with a byte queued: straight to the next start bit (SPACE). *)
Lemma txFrame_STOP_next m dt d b x q :
  tx_at m STOP_BIT dt d b (x :: q) ->
  tx_at (txFrameN m) START_BIT SPACE (u8 x) b q.
Proof.
  intros (Hs & Hdt & Hd & Hb & Hq & Hw & Ha & Hc).
  destruct (FifoFacts.get_cons _ _ _ Hw Hq) as (G1 & G2).
  assert (E : Fifo.empty (txFIFO m) = false)
    by (apply FifoFacts.empty_false_contents; congruence).
  pose proof (FifoFacts.wf_get _ Hw) as Hw'.
  tx_stage. rewrite Hs, E, G1. tx_done.
Qed.

(** *** Whole frames *)

(** One bit period: the symbol it chooses, and that the transmitter was
    emitting. *)
Lemma frame_step k m s dt d b q s' dt' d' b' q' syms :
  tx_at m s dt d b q ->
  tx_at (txFrameN m) s' dt' d' b' q' ->
  frameSymbols k (txFrameN m) = syms /\ framesEmit k (txFrameN m) ->
  frameSymbols (S k) m = dt' :: syms /\ framesEmit (S k) m.
Proof.
  intros H H' (Hs & He). cbn [frameSymbols framesEmit].
  destruct H' as (_ & Hdt & _). rewrite Hdt, Hs.
  split; [reflexivity|]. split; [exact (tx_at_emitting _ _ _ _ _ _ H)|exact He].
Qed.

Lemma txFrames_same k : forall m, tx_same m (txFrames k m).
Proof.
  induction k as [|k IH]; intros m; [apply tx_same_refl|].
  rewrite txFrames_S. eapply tx_same_trans; [apply txFrameN_same|apply IH].
Qed.

(** The preamble: [j] more periods of MARK while the count stays short of
    [carBits] and the carrier is not forced. *)
Lemma preamble_run j : forall m dt d b q,
  tx_at m PREAMBLE dt d b q ->
  tx_carrier (tx m) <> ON ->
  0 <= b -> b + Z.of_nat j < carBits -> carBits <= 256 ->
  frameSymbols j m = repeat dt j /\ framesEmit j m /\
  tx_at (txFrames j m) PREAMBLE dt d (b + Z.of_nat j) q.
Proof.
  induction j as [|j IH]; intros m dt d b q H Hcar H0 Hlt Hmax.
  - cbn [frameSymbols framesEmit repeat txFrames Nat.iter Z.of_nat].
    rewrite Z.add_0_r. split; [reflexivity|]. split; [exact I|exact H].
  - assert (E : u8 (b + 1) = b + 1) by (apply u8_small; lia).
    pose proof (txFrame_PREAMBLE_stay m dt d b q H) as H1.
    rewrite E in H1. specialize (H1 ltac:(lia) Hcar).
    destruct (txFrameN_same m) as (Sc & _).
    destruct (IH (txFrameN m) dt d (b + 1) q H1) as (I1 & I2 & I3);
      [rewrite Sc; exact Hcar|lia|lia|exact Hmax|].
    destruct (frame_step j m _ _ _ _ _ _ _ _ _ _ _ H H1 (conj I1 I2)) as (F1 & F2).
    rewrite txFrames_S. cbn [repeat].
    replace (b + Z.of_nat (S j)) with (b + 1 + Z.of_nat j) by lia.
    split; [exact F1|]. split; [exact F2|exact I3].
Qed.

(** The frame of the byte 0x41, counted in bit periods. *)
Lemma frames_0x41 (m : Modem) (p : Z) :
  tx_at m WAIT (tx_dtbit (tx m)) (tx_data (tx m)) (tx_bits (tx m)) [65] ->
  dtbits (cfgAFSK m) = 8 ->
  carBits < 256 ->
  p = (if tx_carrier (tx m) =? ON then 1 else Z.max 1 carBits) ->
  frameSymbols (S (Z.to_nat (p - 1) + 10)) m =
    repeat MARK (S (Z.to_nat (p - 1))) ++ [SPACE; 1; 0; 0; 0; 0; 0; 1; 0; MARK] /\
  framesEmit (S (Z.to_nat (p - 1) + 10)) m.
Proof.
  intros H0 Hd Hcb Ep.
  set (j := Z.to_nat (p - 1)).
  assert (Hp : 1 <= p) by (rewrite Ep; destruct (tx_carrier (tx m) =? ON); lia).
  assert (Hcase : (tx_carrier (tx m) = ON /\ p = 1) \/
                  (tx_carrier (tx m) <> ON /\ p = Z.max 1 carBits)).
  { rewrite Ep. destruct (Z.eqb_spec (tx_carrier (tx m)) ON); [left|right]; split; trivial. }
  clear Ep.
  pose proof (txFrame_WAIT_byte m _ _ _ _ _ H0) as H1.
  change (u8 65) with 65 in H1.
  set (m1 := txFrameN m) in *.
  destruct (txFrameN_same m) as (Sc1 & Sa1 & _). fold m1 in Sc1, Sa1.
  assert (R : frameSymbols j m1 = repeat MARK j /\ framesEmit j m1 /\
              tx_at (txFrames j m1) PREAMBLE MARK 65 (Z.of_nat j) []).
  { destruct Hcase as [(Eon & Ep)|(Eon & Ep)].
    - replace j with 0%nat by (unfold j; lia).
      cbn [frameSymbols framesEmit repeat txFrames Nat.iter Z.of_nat].
      split; [reflexivity|]. split; [exact I|exact H1].
    - destruct (Z.eq_dec p 1) as [E1|E1].
      + replace j with 0%nat by (unfold j; lia).
        cbn [frameSymbols framesEmit repeat txFrames Nat.iter Z.of_nat].
        split; [reflexivity|]. split; [exact I|exact H1].
      + apply (preamble_run j m1 MARK 65 0 [] H1);
          [rewrite Sc1; exact Eon|lia|unfold j; lia|lia]. }
  destruct R as (R1 & R2 & R3).
  set (m2 := txFrames j m1) in *.
  destruct (txFrames_same j m1) as (Sc2 & Sa2 & _). fold m2 in Sc2, Sa2.
  assert (Ex : carBits <= u8 (Z.of_nat j + 1) \/ tx_carrier (tx m2) = ON).
  { rewrite Sc2, Sc1.
    destruct Hcase as [(Eon & Ep)|(Eon & Ep)];
      [right; exact Eon|left; rewrite u8_small; unfold j; lia]. }
  pose proof (txFrame_PREAMBLE_exit m2 _ _ _ _ R3 Ex) as H3.
  set (m3 := txFrameN m2) in *.
  destruct (txFrameN_same m2) as (_ & Sa3 & _). fold m3 in Sa3.
  pose proof (txFrame_START m3 _ _ _ _ H3) as H4.
  change (Z.land 65 1) with 1 in H4. change (Z.shiftr 65 1) with 32 in H4.
  set (m4 := txFrameN m3) in *.
  destruct (txFrameN_same m3) as (_ & Sa4 & _). fold m4 in Sa4.
  assert (D4 : dtbits (cfgAFSK m4) = 8) by (rewrite Sa4, Sa3, Sa2, Sa1; exact Hd).
  pose proof (txFrame_DATA_next m4 _ _ _ _ H4 ltac:(rewrite D4; reflexivity)) as H5.
  cbn in H5. set (m5 := txFrameN m4) in *.
  assert (D5 : dtbits (cfgAFSK m5) = 8)
    by (destruct (txFrameN_same m4) as (_ & E & _); fold m5 in E; rewrite E; exact D4).
  pose proof (txFrame_DATA_next m5 _ _ _ _ H5 ltac:(rewrite D5; reflexivity)) as H6.
  cbn in H6. set (m6 := txFrameN m5) in *.
  assert (D6 : dtbits (cfgAFSK m6) = 8)
    by (destruct (txFrameN_same m5) as (_ & E & _); fold m6 in E; rewrite E; exact D5).
  pose proof (txFrame_DATA_next m6 _ _ _ _ H6 ltac:(rewrite D6; reflexivity)) as H7.
  cbn in H7. set (m7 := txFrameN m6) in *.
  assert (D7 : dtbits (cfgAFSK m7) = 8)
    by (destruct (txFrameN_same m6) as (_ & E & _); fold m7 in E; rewrite E; exact D6).
  pose proof (txFrame_DATA_next m7 _ _ _ _ H7 ltac:(rewrite D7; reflexivity)) as H8.
  cbn in H8. set (m8 := txFrameN m7) in *.
  assert (D8 : dtbits (cfgAFSK m8) = 8)
    by (destruct (txFrameN_same m7) as (_ & E & _); fold m8 in E; rewrite E; exact D7).
  pose proof (txFrame_DATA_next m8 _ _ _ _ H8 ltac:(rewrite D8; reflexivity)) as H9.
  cbn in H9. set (m9 := txFrameN m8) in *.
  assert (D9 : dtbits (cfgAFSK m9) = 8)
    by (destruct (txFrameN_same m8) as (_ & E & _); fold m9 in E; rewrite E; exact D8).
  pose proof (txFrame_DATA_next m9 _ _ _ _ H9 ltac:(rewrite D9; reflexivity)) as H10.
  cbn in H10. set (m10 := txFrameN m9) in *.
  assert (D10 : dtbits (cfgAFSK m10) = 8)
    by (destruct (txFrameN_same m9) as (_ & E & _); fold m10 in E; rewrite E; exact D9).
  pose proof (txFrame_DATA_next m10 _ _ _ _ H10 ltac:(rewrite D10; reflexivity)) as H11.
  cbn in H11. set (m11 := txFrameN m10) in *.
  assert (D11 : dtbits (cfgAFSK m11) = 8)
    by (destruct (txFrameN_same m10) as (_ & E & _); fold m11 in E; rewrite E; exact D10).
  pose proof (txFrame_DATA_last m11 _ _ _ _ H11 ltac:(rewrite D11; apply Z.leb_le; reflexivity)) as H12.
  assert (T : frameSymbols 10 m2 = [SPACE; 1; 0; 0; 0; 0; 0; 1; 0; MARK]
              /\ framesEmit 10 m2).
  { eapply frame_step; [exact R3|exact H3|].
    eapply frame_step; [exact H3|exact H4|].
    eapply frame_step; [exact H4|exact H5|].
    eapply frame_step; [exact H5|exact H6|].
    eapply frame_step; [exact H6|exact H7|].
    eapply frame_step; [exact H7|exact H8|].
    eapply frame_step; [exact H8|exact H9|].
    eapply frame_step; [exact H9|exact H10|].
    eapply frame_step; [exact H10|exact H11|].
    eapply frame_step; [exact H11|exact H12|].
    cbn [frameSymbols framesEmit]. split; [reflexivity|exact I]. }
  destruct T as (T1 & T2). split.
  - cbn [frameSymbols repeat app]. fold m1.
    destruct H1 as (_ & -> & _). f_equal.
    rewrite frameSymbols_add, R1. fold m2. rewrite T1. reflexivity.
  - cbn [frameSymbols framesEmit]. split; [exact (tx_at_emitting _ _ _ _ _ _ H0)|].
    fold m1. apply framesEmit_add; [exact R2|exact T2].
Qed.

(** C5.  With transmission active, the modulator idle in WAIT at the start
    of a bit period, the single byte 0x41 queued and eight data bits
    configured, the symbols chosen at the following bit-period boundaries
    are: MARK for the preamble periods ([carBits] of them, at least one, and
    just one when the carrier is forced), one SPACE start bit, the data bits
    1,0,0,0,0,0,1,0 (least significant first) and MARK for the stop bit. *)
Theorem C5_tx_frame_0x41 (m : Modem) :
  tx_active (tx m) = ON ->
  tx_state (tx m) = WAIT ->
  tx_clk (tx m) = 0 ->
  Fifo.wf (txFIFO m) ->
  Fifo.contents (txFIFO m) = [65] ->
  dtbits (cfgAFSK m) = 8 ->
  carBits < 256 ->
  0 <= fulBit m < 256 ->
  let p := if tx_carrier (tx m) =? ON then 1 else Z.max 1 carBits in
  txSymbols (Z.to_nat (p + 10) * S (Z.to_nat (fulBit m))) m =
    repeat MARK (Z.to_nat p) ++ [SPACE; 1; 0; 0; 0; 0; 0; 1; 0; MARK].
Proof.
  intros Ha Hs Hc Hw Hq Hd Hcb Hf p.
  assert (H0 : tx_at m WAIT (tx_dtbit (tx m)) (tx_data (tx m)) (tx_bits (tx m)) [65])
    by (unfold tx_at; repeat apply conj; trivial).
  assert (Hp : 1 <= p) by (unfold p; destruct (tx_carrier (tx m) =? ON); lia).
  destruct (frames_0x41 m p H0 Hd Hcb eq_refl) as (F1 & F2).
  replace (Z.to_nat (p + 10)) with (S (Z.to_nat (p - 1) + 10)) by lia.
  replace (Z.to_nat p) with (S (Z.to_nat (p - 1))) by lia.
  rewrite tx_periods; [exact F1|exact Hc|exact Hf|exact F2].
Qed.

(** C9 (as amended).  At a bit-period boundary in PREAMBLE the bit counter
    is stepped; the modulator leaves for START_BIT on SPACE exactly when the
    counter has reached [carBits] or the forced-carrier flag is ON (set, not
    cleared); otherwise it stays in PREAMBLE and keeps its symbol. *)
Theorem C9_preamble_exit (m : Modem) :
  tx_state (tx m) = PREAMBLE ->
  tx_bits (tx (txFrame m)) = u8 (tx_bits (tx m) + 1) /\
  (carBits <= u8 (tx_bits (tx m) + 1) \/ tx_carrier (tx m) = ON ->
     tx_state (tx (txFrame m)) = START_BIT /\ tx_dtbit (tx (txFrame m)) = SPACE) /\
  (u8 (tx_bits (tx m) + 1) < carBits /\ tx_carrier (tx m) <> ON ->
     tx_state (tx (txFrame m)) = PREAMBLE /\
     tx_dtbit (tx (txFrame m)) = tx_dtbit (tx m)).
Proof.
  intros Hs. unfold txFrame. mnorm. rewrite Hs.
  repeat (case_cmp; try lia); cbn [negb andb orb]; msimpl;
    (split; [reflexivity|]); split; intros Hx;
    try (split; reflexivity); exfalso;
    repeat match goal with
           | H : _ /\ _ |- _ => destruct H
           | H : _ \/ _ |- _ => destruct H
           end; try lia; try congruence.
Qed.

Lemma land_le v t : 0 <= v -> Z.land v t <= v.
Proof.
  intros Hv. pose proof (Z.lor_ldiff_and v t) as E.
  rewrite <- Z.add_nocarry_lor in E.
  - assert (0 <= Z.ldiff v t) by (apply Z.ldiff_nonneg; left; lia). lia.
  - apply Z.bits_inj'. intros k Hk.
    rewrite Z.land_spec, Z.ldiff_spec, Z.land_spec, Z.bits_0.
    destruct (Z.testbit v k), (Z.testbit t k); reflexivity.
Qed.

(** C10.  [setCarrier(v)] leaves in the forced-carrier flag [v] ANDed with
    the configured carrier-enable mask; with the mask at 0 the flag is OFF
    whatever is asked. *)
Theorem C10_setCarrier_mask (v : Z) (m : Modem) :
  0 <= v < 256 ->
  tx_carrier (tx (setCarrier v m)) = Z.land v (txcarr (cfg m)) /\
  (txcarr (cfg m) = 0 -> tx_carrier (tx (setCarrier ON m)) = OFF).
Proof.
  intros Hv. unfold setCarrier. msimpl. rewrite (u8_small v) by exact Hv.
  split.
  - apply u8_small. split.
    + apply Z.land_nonneg. left. lia.
    + pose proof (land_le v (txcarr (cfg m)) ltac:(lia)) as Hle. mnorm. lia.
  - intros E. mnorm. rewrite E, Z.land_0_r. reflexivity.
Qed.

End TxFacts.

(** ** The serial bridge *)

Section SioFacts.
Context {P : Platform}.

Lemma put_inv x f ok f' :
  Fifo.put x f = (ok, f') ->
  (ok = false /\ f' = f /\ Fifo.full f = true) \/
  (ok = true /\ Fifo.len f' = Fifo.len f + 1 /\ Fifo.full f = false).
Proof.
  unfold Fifo.put. destruct (Fifo.full f); intros E; inversion E; subst.
  - left. repeat split.
  - right. repeat split. unfold Fifo.len. cbn. lia.
Qed.

Lemma len_nonneg f : 0 <= Fifo.len f.
Proof. unfold Fifo.len. lia. Qed.

Lemma fifo_thresholds : fifoLow = 16 /\ fifoMed = 32 /\ fifoHgh = 48.
Proof. repeat split; reflexivity. Qed.

(** *** What each block writes *)

Lemma sioGuard_changes a m :
  exists md c si so,
    sioGuard a m = set__mode md (set_escCount c (set_serial_in si (set_serial_out so m))).
Proof.
  unfold sioGuard, setMode, Serial_print, Serial_read, Serial_peek.
  msimpl. mcases; do 4 eexists; msimpl; reflexivity.
Qed.

Lemma sioCount_changes a m :
  exists c f l,
    sioCount a m = set_escCount c (set_escFirst f (set_escLast l m)).
Proof.
  unfold sioCount, Serial_peek.
  msimpl. mcases; do 3 eexists; msimpl; reflexivity.
Qed.

Lemma sioDrain_changes m :
  exists q so, sioDrain m = set_rxFIFO q (set_serial_out so m).
Proof.
  unfold sioDrain, rxFIFO_out, Serial_write.
  msimpl. mcases; do 2 eexists; msimpl; reflexivity.
Qed.

(** The escape detector leaves the queues, the configuration and the
    flow-control flag alone. *)
Lemma sioEscape_frame a m :
  txFIFO (sioEscape a m) = txFIFO m /\ rxFIFO (sioEscape a m) = rxFIFO m /\
  cfg (sioEscape a m) = cfg m /\ flowControl (sioEscape a m) = flowControl m /\
  PORTB (sioEscape a m) = PORTB m /\ now (sioEscape a m) = now m /\
  lstChar (sioEscape a m) = lstChar m /\ _guard (sioEscape a m) = _guard m /\
  tx (sioEscape a m) = tx m.
Proof.
  unfold sioEscape.
  destruct (sioGuard_changes a m) as (md & c & si & so & ->).
  destruct (sioCount_changes a
              (set__mode md (set_escCount c (set_serial_in si (set_serial_out so m)))))
    as (c' & f & l & ->).
  msimpl. repeat split; reflexivity.
Qed.

(** *** Flow control *)

(** First block: the flag goes up exactly at or above the high threshold;
    at most one byte is taken, and none at or above the high threshold. *)
Lemma sioAccept_flow a m :
  flwctr (cfg m) <> 0 ->
  flowControl (sioAccept a m) = flowControl m || (48 <=? Fifo.len (txFIFO m)) /\
  Fifo.len (txFIFO m) <= Fifo.len (txFIFO (sioAccept a m)) <= Fifo.len (txFIFO m) + 1 /\
  (48 <= Fifo.len (txFIFO m) -> txFIFO (sioAccept a m) = txFIFO m).
Proof.
  intros Hf. apply Z.eqb_neq in Hf.
  destruct fifo_thresholds as (E16 & E32 & E48).
  unfold sioAccept, sioSignal, txFIFO_in, Serial_read, Serial_write, Serial_peek.
  mnorm. rewrite E32, E48, Hf.
  match goal with
  | |- context [Fifo.put ?x ?f] => destruct (Fifo.put x f) as [ok q] eqn:Eput
  end.
  apply put_inv in Eput.
  repeat (case_cmp; try lia); cbn [negb andb orb];
    repeat (case_bool; msimpl);
    destruct Eput as [(? & ? & _)|(? & El & _)]; subst;
    repeat apply conj; intros; try (reflexivity || lia || congruence).
Qed.

(** Second block: the flag goes down exactly below the low threshold. *)
Lemma sioRelease_flow m :
  flowControl (sioRelease m) = flowControl m && negb (Fifo.len (txFIFO m) <? 16) /\
  txFIFO (sioRelease m) = txFIFO m.
Proof.
  destruct fifo_thresholds as (E16 & E32 & E48).
  unfold sioRelease, sioSignal, Serial_write. mnorm. rewrite E16.
  repeat (case_cmp; try lia); cbn [negb andb orb];
    repeat (case_bool; msimpl);
    split; (reflexivity || congruence).
Qed.

(** The data-mode part of a bridge run and the flow-control flag. *)
Lemma sioData_flow a m :
  flwctr (cfg m) <> 0 ->
  (flowControl m = false ->
     (flowControl (sioData a m) = true <-> 48 <= Fifo.len (txFIFO m))) /\
  (flowControl m = true ->
     (flowControl (sioData a m) = false <-> Fifo.len (txFIFO (sioData a m)) < 16)) /\
  Fifo.len (txFIFO m) <= Fifo.len (txFIFO (sioData a m)) <= Fifo.len (txFIFO m) + 1 /\
  (48 <= Fifo.len (txFIFO m) -> txFIFO (sioData a m) = txFIFO m).
Proof.
  intros Hf. unfold sioData.
  destruct (sioAccept_flow a m Hf) as (A1 & A2 & A3).
  destruct (sioRelease_flow (sioAccept a m)) as (R1 & R2).
  destruct (sioDrain_changes (sioRelease (sioAccept a m))) as (q & so & ->).
  mnorm. rewrite R1, R2, A1.
  split; [|split; [|split]].
  - intros ->. cbn [orb andb negb].
    repeat (case_cmp; try lia); cbn [orb andb negb]; split; intros; (congruence || lia).
  - intros ->. cbn [orb andb negb].
    repeat (case_cmp; try lia); cbn [orb andb negb]; split; intros; (congruence || lia).
  - exact A2.
  - exact A3.
Qed.

(** The flow-control signal never reaches its control-line branch: the
    assignment [cfg->flwctr = 4] stores 4 and tests it. *)
Lemma sioSignal_first stop line m :
  sioSignal stop line m = Serial_write stop (upd_cfg (set_flwctr 4) m).
Proof. reflexivity. Qed.

(** *** What the data-mode blocks leave alone *)

Lemma sioAccept_changes a m :
  exists si so q l t p x fc,
    sioAccept a m =
      set_flowControl fc (set_PORTB p (set_tx t (set_lstChar l (set_serial_out so
        (set_txFIFO q (set_serial_in si (upd_cfg (set_flwctr x) m))))))).
Proof.
  unfold sioAccept, sioSignal, txFIFO_in, Serial_read, Serial_write, Serial_peek.
  msimpl.
  repeat (case_cmp; try lia); cbn [negb andb orb];
    repeat (case_bool; msimpl);
    do 8 eexists; msimpl; reflexivity.
Qed.

Lemma sioRelease_changes m :
  exists so x fc,
    sioRelease m = set_flowControl fc (set_serial_out so (upd_cfg (set_flwctr x) m)).
Proof.
  unfold sioRelease, sioSignal, Serial_write. msimpl.
  repeat (case_cmp; try lia); cbn [negb andb orb];
    repeat (case_bool; msimpl);
    do 3 eexists; msimpl; reflexivity.
Qed.

Lemma sioData_keeps a m : sio_keeps m (sioData a m).
Proof.
  unfold sioData.
  destruct (sioAccept_changes a m) as (si & so & q & l & t & p & x & fc & ->).
  match goal with |- context [sioRelease ?y] =>
    destruct (sioRelease_changes y) as (so' & x' & fc' & ->) end.
  match goal with |- context [sioDrain ?y] =>
    destruct (sioDrain_changes y) as (q' & so'' & ->) end.
  unfold sio_keeps. msimpl. repeat split; reflexivity.
Qed.

(** With nothing waiting on the transport, data mode takes no byte. *)
Lemma sioData_idle m :
  serial_in (sioData false m) = serial_in m /\
  lstChar (sioData false m) = lstChar m /\
  txFIFO (sioData false m) = txFIFO m.
Proof.
  unfold sioData.
  assert (A : serial_in (sioAccept false m) = serial_in m /\
              lstChar (sioAccept false m) = lstChar m /\
              txFIFO (sioAccept false m) = txFIFO m).
  { unfold sioAccept, sioSignal, Serial_write. msimpl. cbn [andb].
    repeat (case_cmp; try lia); cbn [negb andb orb];
      repeat (case_bool; msimpl); repeat split; reflexivity. }
  destruct A as (A1 & A2 & A3).
  match goal with |- context [sioRelease ?y] =>
    destruct (sioRelease_changes y) as (so' & x' & fc' & ->) end.
  match goal with |- context [sioDrain ?y] =>
    destruct (sioDrain_changes y) as (q' & so'' & ->) end.
  mnorm. repeat split; assumption.
Qed.

(** With a byte waiting and the TX queue below the medium threshold, data
    mode takes that byte and stamps the time. *)
Lemma sioData_take m :
  Fifo.len (txFIFO m) < 32 ->
  serial_in (sioData true m) = tl (serial_in m) /\
  lstChar (sioData true m) = now m /\
  Fifo.len (txFIFO m) <= Fifo.len (txFIFO (sioData true m)) <= Fifo.len (txFIFO m) + 1.
Proof.
  intros Hl. unfold sioData.
  assert (A : serial_in (sioAccept true m) = tl (serial_in m) /\
              lstChar (sioAccept true m) = now m /\
              Fifo.len (txFIFO m) <= Fifo.len (txFIFO (sioAccept true m))
                <= Fifo.len (txFIFO m) + 1).
  { destruct fifo_thresholds as (E16 & E32 & E48).
    unfold sioAccept, sioSignal, txFIFO_in, Serial_read, Serial_write, Serial_peek.
    mnorm. rewrite E32, E48. cbn [andb].
    match goal with
    | |- context [Fifo.put ?x ?f] => destruct (Fifo.put x f) as [ok q] eqn:Eput
    end.
    apply put_inv in Eput.
    repeat (case_cmp; try lia); cbn [negb andb orb];
      repeat (case_bool; msimpl);
      destruct Eput as [(? & ? & _)|(? & El & _)]; subst;
      repeat apply conj; try (reflexivity || lia || congruence). }
  destruct A as (A1 & A2 & A3).
  match goal with |- context [sioRelease ?y] =>
    destruct (sioRelease_changes y) as (so' & x' & fc' & ->) end.
  match goal with |- context [sioDrain ?y] =>
    destruct (sioDrain_changes y) as (q' & so'' & ->) end.
  mnorm. repeat apply conj; assumption || lia.
Qed.

(** *** The escape detector, case by case *)

Ltac esc_solve :=
  mnorm; repeat (case_cmp; try lia); cbn [negb andb orb];
  repeat (case_bool; msimpl); try reflexivity; try lia; try congruence.

Lemma sioGuard_off a m : escCount m <> 3 -> sioGuard a m = m.
Proof. intros H. unfold sioGuard. esc_solve. Qed.

Lemma sioGuard_fire a m :
  escCount m = 3 ->
  sreg (cfg m) 12 * 20 < u32 (now m - escLast m) ->
  sioGuard a m = Serial_print msg_OK (set_escCount 0 (setMode COMMAND_MODE m)).
Proof. intros H1 H2. unfold sioGuard, Serial_print, setMode, sreg in *. esc_solve. Qed.

Lemma sioGuard_wait m :
  escCount m = 3 ->
  u32 (now m - escLast m) <= sreg (cfg m) 12 * 20 ->
  sioGuard false m = m.
Proof. intros H1 H2. unfold sioGuard, sreg in *. esc_solve. Qed.

Lemma sioGuard_cancel m c l :
  escCount m = 3 ->
  u32 (now m - escLast m) <= sreg (cfg m) 12 * 20 ->
  serial_in m = c :: l -> u8 c <> 13 -> u8 c <> 10 ->
  sioGuard true m = set_escCount 0 m.
Proof.
  intros H1 H2 H3 H4 H5. unfold sioGuard, Serial_peek, Serial_read, sreg in *.
  mnorm. rewrite H3 in *. esc_solve.
Qed.

Lemma sioCount_none m : sioCount false m = m.
Proof. reflexivity. Qed.

Lemma sioCount_other m :
  Serial_peek m <> sreg (cfg m) 2 -> sioCount true m = m.
Proof. intros H. unfold sioCount, Serial_peek, sreg in *. esc_solve. Qed.

Lemma sioCount_first m :
  Serial_peek m = sreg (cfg m) 2 ->
  _guard m < u32 (now m - escFirst m) ->
  _guard m <= u32 (now m - lstChar m) ->
  sioCount true m = set_escFirst (now m) (set_escCount 1 m).
Proof. intros H1 H2 H3. unfold sioCount, Serial_peek, sreg in *. esc_solve. Qed.

Lemma sioCount_next m :
  Serial_peek m = sreg (cfg m) 2 ->
  u32 (now m - escFirst m) <= _guard m ->
  sioCount true m =
    (if u8 (escCount m + 1) =? 3
     then set_escLast (now m) (set_escCount (u8 (escCount m + 1)) m)
     else set_escCount (u8 (escCount m + 1)) m).
Proof. intros H1 H2. unfold sioCount, Serial_peek, sreg in *. esc_solve. Qed.

(** *** Whole bridge runs *)

Lemma doSIO_unfold t m :
  doSIO t m =
    match _mode (sioEscape (Serial_available m) (set_now (u32 t) m)) with
    | COMMAND_MODE => (false, sioEscape (Serial_available m) (set_now (u32 t) m))
    | DATA_MODE =>
        (true, sioData (Serial_available m)
                 (sioEscape (Serial_available m) (set_now (u32 t) m)))
    end.
Proof. reflexivity. Qed.

Lemma sioRun_cons t ts m : sioRun (t :: ts) m = sioRun ts (snd (doSIO t m)).
Proof. unfold sioRun. cbn [fold_left]. reflexivity. Qed.

Lemma sioRun_nil m : sioRun [] m = m.
Proof. reflexivity. Qed.

(** A run in data mode with nothing waiting, and no elapsed guard silence
    after a third escape character, changes nothing the detector uses. *)
Lemma doSIO_idle t m sr g c f l lc :
  esc_at m sr g c f l lc ->
  (c = 3 -> u32 (u32 t - l) <= nth 12 sr 0 * 20) ->
  fst (doSIO t m) = true /\
  esc_at (snd (doSIO t m)) sr g c f l lc /\
  txFIFO (snd (doSIO t m)) = txFIFO m.
Proof.
  intros (Hsr & Hg & Hc & Hf & Hl & Hlc & Hsi & Hmd) Hw.
  rewrite doSIO_unfold.
  assert (Ea : Serial_available m = false) by (unfold Serial_available; rewrite Hsi; reflexivity).
  rewrite Ea. unfold sioEscape. rewrite sioCount_none.
  set (m0 := set_now (u32 t) m).
  assert (Eg : sioGuard false m0 = m0).
  { destruct (Z.eq_dec c 3) as [E3|E3].
    - apply sioGuard_wait; [unfold m0; mnorm; congruence|].
      unfold m0, sreg; mnorm. rewrite Hl, Hsr. apply Hw, E3.
    - apply sioGuard_off. unfold m0; mnorm; congruence. }
  rewrite Eg.
  assert (Em : _mode m0 = DATA_MODE) by exact Hmd.
  rewrite Em. cbn [fst snd].
  destruct (sioData_keeps false m0) as (K1 & K2 & K3 & K4 & K5 & K6 & K7).
  destruct (sioData_idle m0) as (I1 & I2 & I3).
  split; [reflexivity|]. split; [|exact I3].
  unfold esc_at. rewrite K1, K2, K3, K4, K5, K6, I1, I2.
  repeat apply conj; assumption.
Qed.

Lemma sioRun_idle ts : forall m sr g c f l lc,
  esc_at m sr g c f l lc ->
  (c = 3 -> Forall (fun t => u32 (u32 t - l) <= nth 12 sr 0 * 20) ts) ->
  esc_at (sioRun ts m) sr g c f l lc /\ txFIFO (sioRun ts m) = txFIFO m.
Proof.
  induction ts as [|t ts IH]; intros m sr g c f l lc H Hw.
  - rewrite sioRun_nil. split; [exact H|reflexivity].
  - rewrite sioRun_cons.
    destruct (doSIO_idle t m sr g c f l lc H) as (_ & H1 & Q1).
    { intros E3. specialize (Hw E3). inversion Hw; assumption. }
    destruct (IH _ sr g c f l lc H1) as (H2 & Q2).
    { intros E3. specialize (Hw E3). inversion Hw; assumption. }
    split; [exact H2|congruence].
Qed.

(** A run that finds one byte [x] waiting, with room in the TX queue and no
    third escape pending: the byte is taken and time-stamped; the detector
    counts it when it is the escape character. *)
Lemma doSIO_char t m x sr g c f l lc :
  esc_at m sr g c f l lc ->
  c <> 3 ->
  Fifo.len (txFIFO m) < 32 ->
  let m' := snd (doSIO t (Serial_arrive x m)) in
  Fifo.len (txFIFO m) <= Fifo.len (txFIFO m') <= Fifo.len (txFIFO m) + 1 /\
  (x <> nth 2 sr 0 -> esc_at m' sr g c f l (u32 t)) /\
  (x = nth 2 sr 0 -> g < u32 (u32 t - f) -> g <= u32 (u32 t - lc) ->
     esc_at m' sr g 1 (u32 t) l (u32 t)) /\
  (x = nth 2 sr 0 -> g < u32 (u32 t - f) -> u32 (u32 t - lc) < g ->
     esc_at m' sr g c f l (u32 t)) /\
  (x = nth 2 sr 0 -> u32 (u32 t - f) <= g ->
     esc_at m' sr g (u8 (c + 1)) f (if u8 (c + 1) =? 3 then u32 t else l) (u32 t)).
Proof.
  intros (Hsr & Hg & Hc & Hf & Hl & Hlc & Hsi & Hmd) H3 Hlen m'.
  unfold m'. rewrite doSIO_unfold.
  assert (Ea : Serial_available (Serial_arrive x m) = true)
    by (unfold Serial_available, Serial_arrive; mnorm; rewrite Hsi; reflexivity).
  rewrite Ea. unfold sioEscape.
  set (m0 := set_now (u32 t) (Serial_arrive x m)).
  assert (Eg : sioGuard true m0 = m0)
    by (apply sioGuard_off; unfold m0, Serial_arrive; mnorm; congruence).
  rewrite Eg.
  assert (Ep : Serial_peek m0 = x)
    by (unfold Serial_peek, m0, Serial_arrive; mnorm; rewrite Hsi; reflexivity).
  assert (Es : sreg (cfg m0) 2 = nth 2 sr 0)
    by (unfold sreg, m0, Serial_arrive; mnorm; rewrite Hsr; reflexivity).
  assert (Facts : forall m1,
            (exists a b d, m1 = set_escCount a (set_escFirst b (set_escLast d m0))) ->
            Fifo.len (txFIFO m) <= Fifo.len (txFIFO (sioData true m1))
              <= Fifo.len (txFIFO m) + 1 /\
            esc_at (sioData true m1) sr g (escCount m1) (escFirst m1) (escLast m1) (u32 t)
            /\ _mode m1 = DATA_MODE).
  { intros m1 (a & b & d & ->).
    destruct (sioData_keeps true (set_escCount a (set_escFirst b (set_escLast d m0))))
      as (K1 & K2 & K3 & K4 & K5 & K6 & K7).
    destruct (sioData_take (set_escCount a (set_escFirst b (set_escLast d m0))))
      as (T1 & T2 & T3); [exact Hlen|].
    split; [exact T3|]. split; [|exact Hmd].
    unfold esc_at. rewrite K1, K2, K3, K4, K5, K6, T1, T2.
    unfold m0, Serial_arrive. mnorm. rewrite Hsi.
    repeat apply conj; trivial. }
  assert (Same : m0 = set_escCount (escCount m0) (set_escFirst (escFirst m0)
                        (set_escLast (escLast m0) m0))) by reflexivity.
  assert (Len : Fifo.len (txFIFO m) <=
                Fifo.len (txFIFO (snd
                  match _mode (sioCount true m0) with
                  | COMMAND_MODE => (false, sioCount true m0)
                  | DATA_MODE => (true, sioData true (sioCount true m0))
                  end)) <= Fifo.len (txFIFO m) + 1).
  { destruct (sioCount_changes true m0) as (a & b & d & E). rewrite E.
    destruct (Facts _ (ex_intro _ a (ex_intro _ b (ex_intro _ d eq_refl)))) as (F1 & _ & F3).
    rewrite F3. cbn [snd]. exact F1. }
  split; [exact Len|]. clear Len.
  split; [|split; [|split]].
  - intros Hx. rewrite sioCount_other by (rewrite Ep, Es; exact Hx).
    destruct (Facts m0) as (_ & F2 & F3); [do 3 eexists; exact Same|].
    rewrite F3. cbn [snd]. 
    change (escCount m0) with (escCount m) in F2.
    change (escFirst m0) with (escFirst m) in F2.
    change (escLast m0) with (escLast m) in F2.
    rewrite Hc, Hf, Hl in F2. exact F2.
  - intros Hx H1 H2.
    rewrite sioCount_first;
      [|rewrite Ep, Es; exact Hx
       |unfold m0, Serial_arrive; mnorm; rewrite Hg, Hf; exact H1
       |unfold m0, Serial_arrive; mnorm; rewrite Hg, Hlc; exact H2].
    destruct (Facts (set_escFirst (now m0) (set_escCount 1 m0))) as (_ & F2 & F3);
      [exists 1, (now m0), (escLast m0); reflexivity|].
    rewrite F3. cbn [snd].
    change (escCount (set_escFirst (now m0) (set_escCount 1 m0))) with 1 in F2.
    change (escFirst (set_escFirst (now m0) (set_escCount 1 m0))) with (u32 t) in F2.
    change (escLast (set_escFirst (now m0) (set_escCount 1 m0))) with (escLast m) in F2.
    rewrite Hl in F2. exact F2.
  - intros Hx H1 H2.
    assert (Ec : sioCount true m0 = m0).
    { unfold sioCount. rewrite Ep, Es, Hx, Z.eqb_refl.
      unfold m0, Serial_arrive. mnorm. rewrite Hg, Hf, Hlc.
      apply Z.ltb_lt in H1. rewrite H1.
      apply Z.leb_gt in H2. rewrite H2. reflexivity. }
    rewrite Ec.
    destruct (Facts m0) as (_ & F2 & F3); [do 3 eexists; exact Same|].
    rewrite F3. cbn [snd].
    change (escCount m0) with (escCount m) in F2.
    change (escFirst m0) with (escFirst m) in F2.
    change (escLast m0) with (escLast m) in F2.
    rewrite Hc, Hf, Hl in F2. exact F2.
  - intros Hx H1.
    rewrite sioCount_next;
      [|rewrite Ep, Es; exact Hx
       |unfold m0, Serial_arrive; mnorm; rewrite Hg, Hf; exact H1].
    change (escCount m0) with (escCount m). rewrite Hc.
    destruct (u8 (c + 1) =? 3) eqn:E3.
    + destruct (Facts (set_escLast (now m0) (set_escCount (u8 (c + 1)) m0)))
        as (_ & F2 & F3);
        [exists (u8 (c + 1)), (escFirst m0), (now m0); reflexivity|].
      rewrite F3. cbn [snd].
      change (escCount (set_escLast (now m0) (set_escCount (u8 (c + 1)) m0)))
        with (u8 (c + 1)) in F2.
      change (escFirst (set_escLast (now m0) (set_escCount (u8 (c + 1)) m0)))
        with (escFirst m) in F2.
      change (escLast (set_escLast (now m0) (set_escCount (u8 (c + 1)) m0)))
        with (u32 t) in F2.
      rewrite Hf in F2. exact F2.
    + destruct (Facts (set_escCount (u8 (c + 1)) m0)) as (_ & F2 & F3);
        [exists (u8 (c + 1)), (escFirst m0), (escLast m0); reflexivity|].
      rewrite F3. cbn [snd].
      change (escCount (set_escCount (u8 (c + 1)) m0)) with (u8 (c + 1)) in F2.
      change (escFirst (set_escCount (u8 (c + 1)) m0)) with (escFirst m) in F2.
      change (escLast (set_escCount (u8 (c + 1)) m0)) with (escLast m) in F2.
      rewrite Hf, Hl in F2. exact F2.
Qed.

(** First block, whatever the configured mode: the flag goes up only with
    a flow-control mode configured, and at or above the high threshold the
    block takes nothing from the transport. *)
Lemma sioAccept_flag a m :
  flowControl (sioAccept a m) =
    flowControl m || ((48 <=? Fifo.len (txFIFO m)) && negb (flwctr (cfg m) =? 0)) /\
  Fifo.len (txFIFO m) <= Fifo.len (txFIFO (sioAccept a m)) <= Fifo.len (txFIFO m) + 1 /\
  (48 <= Fifo.len (txFIFO m) ->
     txFIFO (sioAccept a m) = txFIFO m /\ serial_in (sioAccept a m) = serial_in m).
Proof.
  destruct fifo_thresholds as (E16 & E32 & E48).
  unfold sioAccept, sioSignal, txFIFO_in, Serial_read, Serial_write, Serial_peek.
  mnorm. rewrite E32, E48.
  match goal with
  | |- context [Fifo.put ?x ?f] => destruct (Fifo.put x f) as [ok q] eqn:Eput
  end.
  apply put_inv in Eput.
  repeat (case_cmp; try lia); cbn [negb andb orb];
    repeat (case_bool; msimpl);
    destruct Eput as [(? & ? & _)|(? & El & _)]; subst;
    repeat apply conj; intros; try (reflexivity || lia || congruence);
    split; reflexivity.
Qed.

Lemma sioData_serial a m :
  48 <= Fifo.len (txFIFO m) -> serial_in (sioData a m) = serial_in m.
Proof.
  intros H. unfold sioData.
  destruct (sioAccept_flag a m) as (_ & _ & A). destruct (A H) as (_ & A2).
  destruct (sioRelease_changes (sioAccept a m)) as (so & x & fc & R).
  destruct (sioDrain_changes (sioRelease (sioAccept a m))) as (q & so' & ->).
  rewrite R. mnorm. exact A2.
Qed.

Lemma sioData_flag a m :
  (flowControl m = false ->
     (flowControl (sioData a m) = true <->
      flwctr (cfg m) <> 0 /\ 48 <= Fifo.len (txFIFO m))) /\
  (flowControl m = true ->
     (flowControl (sioData a m) = false <-> Fifo.len (txFIFO (sioData a m)) < 16)) /\
  Fifo.len (txFIFO m) <= Fifo.len (txFIFO (sioData a m)) <= Fifo.len (txFIFO m) + 1 /\
  (48 <= Fifo.len (txFIFO m) -> txFIFO (sioData a m) = txFIFO m).
Proof.
  unfold sioData.
  destruct (sioAccept_flag a m) as (A1 & A2 & A3).
  destruct (sioRelease_flow (sioAccept a m)) as (R1 & R2).
  destruct (sioDrain_changes (sioRelease (sioAccept a m))) as (q & so & ->).
  mnorm. rewrite R1, R2, A1.
  split; [|split; [|split]].
  - intros ->. cbn [orb andb negb].
    repeat (case_cmp; try lia); cbn [orb andb negb]; split; intros;
      try (congruence || lia); try (split; (congruence || lia));
      try (exfalso; intuition (congruence || lia)).
  - intros ->. cbn [orb andb negb].
    repeat (case_cmp; try lia); cbn [orb andb negb]; split; intros; (congruence || lia).
  - exact A2.
  - intros H. apply A3. exact H.
Qed.

(** C2 (as amended).  For a bridge run that returns true (the modem is
    still in data mode after the escape-sequence check of the run): the
    flag goes up exactly when a flow-control mode is configured ([flwctr]
    not 0) and the run finds the TX queue at or above the high threshold 48;
    once up it goes down exactly when the queue, after this run's byte if
    one was taken, is below the low threshold 16; so between the thresholds
    it does not change.  A run adds at most one byte to the TX queue, and
    none at or above 48, where it also leaves the transport's input alone
    unless it is waiting for the guard silence ([escCount] = 3). *)
Theorem C2_flow_hysteresis (t : Z) (m : Modem) :
  fst (doSIO t m) = true ->
  (flowControl m = false ->
     (flowControl (snd (doSIO t m)) = true <->
      flwctr (cfg m) <> 0 /\ 48 <= Fifo.len (txFIFO m))) /\
  (flowControl m = true ->
     (flowControl (snd (doSIO t m)) = false <->
      Fifo.len (txFIFO (snd (doSIO t m))) < 16)) /\
  Fifo.len (txFIFO m) <= Fifo.len (txFIFO (snd (doSIO t m)))
    <= Fifo.len (txFIFO m) + 1 /\
  (48 <= Fifo.len (txFIFO m) -> txFIFO (snd (doSIO t m)) = txFIFO m) /\
  (48 <= Fifo.len (txFIFO m) -> escCount m <> 3 ->
     serial_in (snd (doSIO t m)) = serial_in m).
Proof.
  intros Hd. rewrite doSIO_unfold in *.
  set (a := Serial_available m) in *.
  set (m0 := set_now (u32 t) m) in *.
  destruct (sioEscape_frame a m0) as (Fq & _ & Fc & Ff & _).
  assert (Hs : escCount m <> 3 -> serial_in (sioEscape a m0) = serial_in m).
  { intros H3. unfold sioEscape. rewrite (sioGuard_off a m0) by exact H3.
    destruct (sioCount_changes a m0) as (c & f & l & ->). reflexivity. }
  set (m1 := sioEscape a m0) in *.
  destruct (_mode m1); cbn [fst snd] in *; [discriminate|].
  destruct (sioData_flag a m1) as (H1 & H2 & H3 & H4).
  pose proof (sioData_serial a m1) as H5.
  rewrite Ff, Fq, Fc in *.
  change (flowControl m0) with (flowControl m) in *.
  change (txFIFO m0) with (txFIFO m) in *.
  change (cfg m0) with (cfg m) in *.
  split; [exact H1|]. split; [exact H2|]. split; [exact H3|]. split; [exact H4|].
  intros Hl H3'. rewrite (H5 Hl). apply Hs. exact H3'.
Qed.

(** The run that finds the guard silence elapsed after the third escape
    character: command mode, the count reset, "OK" written. *)
Lemma doSIO_fire t m sr g f l lc :
  esc_at m sr g 3 f l lc ->
  nth 12 sr 0 * 20 < u32 (u32 t - l) ->
  doSIO t m =
    (false, Serial_print msg_OK (set_escCount 0 (setMode COMMAND_MODE (set_now (u32 t) m)))).
Proof.
  intros (Hsr & Hg & Hc & Hf & Hl & Hlc & Hsi & Hmd) Hw.
  rewrite doSIO_unfold.
  assert (Ea : Serial_available m = false) by (unfold Serial_available; rewrite Hsi; reflexivity).
  rewrite Ea. unfold sioEscape. rewrite sioCount_none.
  rewrite sioGuard_fire;
    [reflexivity|exact Hc|unfold sreg; mnorm; rewrite Hl, Hsr; exact Hw].
Qed.

(** A run that finds another byte, neither CR nor LF nor the escape
    character, before the guard silence has elapsed: the count is reset,
    the mode stays. *)
Lemma doSIO_cancel t m x sr g f l lc :
  esc_at m sr g 3 f l lc ->
  u32 (u32 t - l) <= nth 12 sr 0 * 20 ->
  u8 x <> 13 -> u8 x <> 10 -> x <> nth 2 sr 0 ->
  Fifo.len (txFIFO m) < 32 ->
  esc_at (snd (doSIO t (Serial_arrive x m))) sr g 0 f l (u32 t).
Proof.
  intros (Hsr & Hg & Hc & Hf & Hl & Hlc & Hsi & Hmd) Hw H13 H10 Hx Hlen.
  rewrite doSIO_unfold.
  assert (Ea : Serial_available (Serial_arrive x m) = true)
    by (unfold Serial_available, Serial_arrive; mnorm; rewrite Hsi; reflexivity).
  rewrite Ea. unfold sioEscape.
  set (m0 := set_now (u32 t) (Serial_arrive x m)).
  assert (Eg : sioGuard true m0 = set_escCount 0 m0).
  { apply (sioGuard_cancel m0 x []); trivial.
    - unfold m0, sreg, Serial_arrive; mnorm. rewrite Hl, Hsr. exact Hw.
    - unfold m0, Serial_arrive; mnorm. rewrite Hsi. reflexivity. }
  rewrite Eg.
  rewrite sioCount_other.
  2:{ unfold Serial_peek, sreg, m0, Serial_arrive; mnorm. rewrite Hsi, Hsr. exact Hx. }
  assert (Em : _mode (set_escCount 0 m0) = DATA_MODE) by exact Hmd.
  rewrite Em. cbn [snd].
  destruct (sioData_keeps true (set_escCount 0 m0)) as (K1 & K2 & K3 & K4 & K5 & K6 & K7).
  destruct (sioData_take (set_escCount 0 m0)) as (T1 & T2 & T3); [exact Hlen|].
  unfold esc_at. rewrite K1, K2, K3, K4, K5, K6, T1, T2.
  unfold m0, Serial_arrive. mnorm. rewrite Hsi.
  repeat apply conj; trivial.
Qed.

Lemma u32_small z : 0 <= z < 4294967296 -> u32 z = z.
Proof. unfold u32. apply Z.mod_small. Qed.

(** C8 (as amended).  In data mode, with nothing waiting on the transport,
    no escape sequence already complete, the guard time as [init] sets it
    (S12 fiftieths of a second) and fewer than 29 bytes in the TX queue, so
    that each character is taken from the transport by the run that sees
    it: an escape character seen more than the guard time after the
    detector's previous first escape and at least the guard time after the
    last character, then a second and a third one, both no later than the
    guard time after the FIRST of the three (the window is measured from
    the time of the first, not of the previous one), put the detector on
    hold; the first bridge run that finds more than the guard time elapsed
    since the third switches to command mode, returns false and writes
    "OK" between line ends.  Runs with nothing on the transport in between
    change nothing.  A byte that is neither CR, LF nor the escape
    character, seen before the guard time has elapsed, resets the count,
    and no run with nothing on the transport switches the mode afterwards.
    The clock readings are taken before the 32-bit millisecond counter
    wraps. *)
Theorem C8_escape_sequence (m : Modem) (t1 t2 t3 t4 : Z) (ts1 ts2 ts3 : list Z) :
  let e := sreg (cfg m) 2 in
  let g := sreg (cfg m) 12 * 20 in
  _mode m = DATA_MODE ->
  serial_in m = [] ->
  escCount m <> 3 ->
  _guard m = g ->
  Fifo.len (txFIFO m) < 29 ->
  0 <= t1 <= t2 -> t2 <= t3 -> t3 < t4 < 4294967296 ->
  t3 - t1 <= g -> g < t4 - t3 ->
  g < u32 (t1 - escFirst m) -> g <= u32 (t1 - lstChar m) ->
  Forall (fun t => t3 <= t < 4294967296 /\ t - t3 <= g) ts3 ->
  let m1 := sioRun ts1 (snd (doSIO t1 (Serial_arrive e m))) in
  let m2 := sioRun ts2 (snd (doSIO t2 (Serial_arrive e m1))) in
  let m3 := sioRun ts3 (snd (doSIO t3 (Serial_arrive e m2))) in
  _mode m3 = DATA_MODE /\
  fst (doSIO t4 m3) = false /\
  _mode (snd (doSIO t4 m3)) = COMMAND_MODE /\
  serial_out (snd (doSIO t4 m3)) = serial_out m3 ++ msg_OK /\
  (forall x t,
     x <> e -> u8 x <> 13 -> u8 x <> 10 ->
     t3 <= t < 4294967296 -> t - t3 <= g ->
     let mc := snd (doSIO t (Serial_arrive x m3)) in
     _mode mc = DATA_MODE /\ escCount mc = 0 /\
     forall ts, _mode (sioRun ts mc) = DATA_MODE).
Proof.
  intros e g Hmd Hsi Hc Hg Hlen Ht12 Ht23 Ht34 Hwin Hsil Hfst Hlst Hts3 m1 m2 m3.
  set (sr := sregs (cfg m)).
  assert (Ee : e = nth 2 sr 0) by reflexivity.
  assert (Egd : g = nth 12 sr 0 * 20) by reflexivity.
  assert (H0 : esc_at m sr g (escCount m) (escFirst m) (escLast m) (lstChar m))
    by (unfold esc_at; repeat apply conj; trivial).
  clearbody e g sr.
  assert (U1 : u32 t1 = t1) by (apply u32_small; lia).
  assert (U2 : u32 t2 = t2) by (apply u32_small; lia).
  assert (U3 : u32 t3 = t3) by (apply u32_small; lia).
  assert (U4 : u32 t4 = t4) by (apply u32_small; lia).
  (* first escape character *)
  destruct (doSIO_char t1 m e sr g _ _ _ _ H0 Hc) as (L1 & _ & A1 & _); [lia|].
  rewrite U1 in A1. specialize (A1 Ee Hfst Hlst).
  destruct (sioRun_idle ts1 _ sr g 1 t1 (escLast m) t1 A1) as (B1 & Q1); [discriminate|].
  change (sioRun ts1 (snd (doSIO t1 (Serial_arrive e m)))) with m1 in B1, Q1.
  assert (Hl1 : Fifo.len (txFIFO m1) < 30) by (rewrite Q1; lia).
  clearbody m1.
  (* second *)
  destruct (doSIO_char t2 m1 e sr g _ _ _ _ B1) as (L2 & _ & _ & _ & A2);
    [discriminate|lia|].
  rewrite U2 in A2.
  assert (W2 : u32 (t2 - t1) <= g) by (rewrite u32_small; lia).
  specialize (A2 Ee W2). change (u8 (1 + 1)) with 2 in A2. cbn [Z.eqb Pos.eqb] in A2.
  destruct (sioRun_idle ts2 _ sr g 2 t1 (escLast m) t2 A2) as (B2 & Q2); [discriminate|].
  change (sioRun ts2 (snd (doSIO t2 (Serial_arrive e m1)))) with m2 in B2, Q2.
  assert (Hl2 : Fifo.len (txFIFO m2) < 31) by (rewrite Q2; lia).
  clearbody m2.
  (* third *)
  destruct (doSIO_char t3 m2 e sr g _ _ _ _ B2) as (L3 & _ & _ & _ & A3);
    [discriminate|lia|].
  rewrite U3 in A3.
  assert (W3 : u32 (t3 - t1) <= g) by (rewrite u32_small; lia).
  specialize (A3 Ee W3). change (u8 (2 + 1)) with 3 in A3. cbn [Z.eqb Pos.eqb] in A3.
  destruct (sioRun_idle ts3 _ sr g 3 t1 t3 t3 A3) as (B3 & Q3).
  { intros _. rewrite <- Egd. eapply Forall_impl; [exact Hts3|].
    intros t (Ha & Hb). cbn beta. rewrite (u32_small t), u32_small; lia. }
  change (sioRun ts3 (snd (doSIO t3 (Serial_arrive e m2)))) with m3 in B3, Q3.
  assert (Hl3 : Fifo.len (txFIFO m3) < 32) by (rewrite Q3; lia).
  clearbody m3.
  split; [apply B3|].
  (* the guard silence *)
  assert (F : doSIO t4 m3 =
              (false, Serial_print msg_OK
                        (set_escCount 0 (setMode COMMAND_MODE (set_now (u32 t4) m3))))).
  { apply (doSIO_fire t4 m3 sr g t1 t3 t3 B3). rewrite <- Egd, U4, u32_small; lia. }
  rewrite F. cbn [fst snd].
  split; [reflexivity|]. split; [reflexivity|]. split; [reflexivity|].
  (* another byte before the silence has elapsed *)
  intros x t Hx H13 H10 Ht Hw.
  set (mc := snd (doSIO t (Serial_arrive x m3))).
  assert (C : esc_at mc sr g 0 t1 t3 (u32 t)).
  { apply (doSIO_cancel t m3 x sr g t1 t3 t3 B3); trivial; [|congruence].
    rewrite <- Egd, (u32_small t), u32_small; lia. }
  split; [apply C|]. split; [apply C|].
  intros ts. destruct (sioRun_idle ts mc sr g 0 t1 t3 (u32 t) C) as (D & _); [discriminate|].
  apply D.
Qed.

End SioFacts.

(** ** Loopback: what the receiver can deliver *)

Section LoopFacts.
Context {P : Platform}.

Lemma low_clear_0 k : low_clear k 0.
Proof. intros i _. apply Z.bits_0. Qed.

Lemma low_clear_step k x c :
  k <= 8 -> low_clear k x -> c = 0 \/ c = 128 ->
  low_clear (k - 1) (Z.lor (Z.shiftr x 1) c).
Proof.
  intros Hk Hx Hc i Hi.
  rewrite Z.lor_spec, Z.shiftr_spec by lia.
  rewrite (Hx (i + 1)) by lia. cbn [orb].
  destruct Hc as [->| ->]; [apply Z.bits_0|].
  change 128 with (2 ^ 7). rewrite Z.pow2_bits_eqb by lia.
  apply Z.eqb_neq. lia.
Qed.

Lemma low_clear_odd k b : 1 <= k -> low_clear k b -> Z.odd b = false.
Proof. intros Hk H. rewrite <- Z.bit0_odd. apply H. lia. Qed.

Lemma put_aligned k x f ok f' :
  Fifo.put x f = (ok, f') ->
  Fifo.wf f -> Forall (low_clear k) (Fifo.contents f) -> low_clear k x ->
  Fifo.wf f' /\ Forall (low_clear k) (Fifo.contents f').
Proof.
  intros E Hw Hall Hx.
  pose proof (FifoFacts.wf_put x f Hw) as W. rewrite E in W. cbn [snd] in W.
  split; [exact W|].
  destruct (Fifo.full f) eqn:Ef.
  - rewrite FifoFacts.put_full in E by exact Ef. inversion E; subst. exact Hall.
  - destruct (FifoFacts.put_contents x f Hw Ef) as (_ & C). rewrite E in C. cbn [snd] in C.
    rewrite C. apply Forall_app. split; [exact Hall|]. constructor; [exact Hx|constructor].
Qed.

(** The transmitter does not touch the receiver, its queue or the profile. *)
Lemma txHandle_keeps m :
  rx (txHandle m) = rx m /\ rxFIFO (txHandle m) = rxFIFO m /\
  cfgAFSK (txHandle m) = cfgAFSK m.
Proof.
  unfold txHandle. case_if.
  - case_if.
    + match goal with |- context [txFrame ?y] =>
        destruct (txFrame_keeps y) as (_ & Fa & _ & _ & Fr & Fq) end.
      rewrite Fa, Fr, Fq. unfold DAC. msimpl. repeat split; reflexivity.
    + unfold DAC. msimpl. repeat split; reflexivity.
  - unfold txDial, txFIFO_out, DAC. msimpl. mcases; repeat split; reflexivity.
Qed.

(** One decoded sample keeps the alignment. *)
Lemma rxDecoder_aligned d bt m :
  1 <= d < 8 -> rx_aligned d m -> rx_aligned d (rxDecoder bt m).
Proof.
  intros Hd (Hdt & Hw & Hall & Hdata & Hstop).
  destruct (rxDecoder_frame bt m) as (_ & _ & _ & _ & Fa & _).
  unfold rx_aligned. rewrite Fa. split; [exact Hdt|]. clear Fa.
  unfold rxDecoder, rxFIFO_in. mnorm.
  rewrite ?Hdt. clear Hdt.
  case_state; try discriminate.
  - (* WAIT *) mcases; repeat apply conj; trivial; msimpl; intros; discriminate.
  - (* CARRIER *) mcases; repeat apply conj; trivial; msimpl; intros; discriminate.
  - (* PREAMBLE *) mcases; repeat apply conj; trivial; msimpl; intros; discriminate.
  - (* START_BIT *)
    clear Hdata Hstop.
    mcases; repeat apply conj; trivial; msimpl; intros; try discriminate.
    split; [lia|]. apply low_clear_0.
  - (* DATA_BIT *)
    destruct (Hdata eq_refl) as (Hb & Hlc). clear Hdata Hstop. mnorm.
    match type of Hlc with
    | low_clear (8 - ?b) ?x =>
        assert (Eb : u8 (b + 1) = b + 1) by (apply u8_small; lia);
        assert (Hnew : forall c, c = 0 \/ c = 128 ->
                  low_clear (8 - (b + 1)) (Z.lor (Z.shiftr x 1) c))
          by (intros c Hc; replace (8 - (b + 1)) with (8 - b - 1) by lia;
              apply low_clear_step; [lia|exact Hlc|exact Hc]);
        assert (Hlast : forall c, c = 0 \/ c = 128 -> d <= b + 1 ->
                  low_clear (8 - d) (Z.lor (Z.shiftr x 1) c))
          by (intros c Hc Hge; replace d with (b + 1) by lia; apply Hnew, Hc)
    end.
    rewrite Eb in *.
    mcases; bool_hyps; repeat apply conj; trivial; msimpl; intros; try discriminate;
      try (split; [lia|]); try (apply Hnew; auto; fail);
      try assumption; try (apply Hlast; auto; lia).
  - (* STOP_BIT *)
    specialize (Hstop eq_refl). clear Hdata. mnorm.
    repeat (case_if; msimpl);
      try match goal with
          | |- context [Fifo.put ?x ?f] =>
              let E := fresh "E" in
              destruct (Fifo.put x f) as [ok f'] eqn:E;
              destruct (put_aligned _ _ _ _ _ E Hw Hall Hstop)
          end;
      repeat apply conj; trivial; msimpl; intros; discriminate.
  - (* TRAIL *) mcases; repeat apply conj; trivial; msimpl; intros; discriminate.
Qed.

Lemma rx_aligned_ext d m m' :
  cfgAFSK m' = cfgAFSK m -> rxFIFO m' = rxFIFO m -> rx m' = rx m ->
  rx_aligned d m -> rx_aligned d m'.
Proof. unfold rx_aligned. intros -> -> ->. trivial. Qed.

(** [rxHandle] always hands one decision to the decoder, after touching only
    the filter taps, the delay line and the enable flag. *)
Lemma rxHandle_decodes s m :
  exists bt m',
    rxHandle s m = rxDecoder bt m' /\
    cfgAFSK m' = cfgAFSK m /\ rxFIFO m' = rxFIFO m /\
    rx_state (rx m') = rx_state (rx m) /\ rx_data (rx m') = rx_data (rx m) /\
    rx_bits (rx m') = rx_bits (rx m).
Proof.
  unfold rxHandle, dyFIFO_out, dyFIFO_in. msimpl.
  change (negb (1 =? 0)) with true. cbv iota.
  do 2 eexists. split; [reflexivity|]. msimpl. repeat split; reflexivity.
Qed.

Lemma rxHandle_aligned d s m :
  1 <= d < 8 -> rx_aligned d m -> rx_aligned d (rxHandle s m).
Proof.
  intros Hd H.
  destruct (rxHandle_decodes s m) as (bt & m' & -> & Ea & Eq & Es & Ed & Eb).
  apply rxDecoder_aligned; [exact Hd|].
  unfold rx_aligned in *. rewrite Ea, Eq, Es, Ed, Eb. exact H.
Qed.

Lemma loopback_tick_aligned d m :
  1 <= d < 8 -> rx_aligned d m -> rx_aligned d (loopback_tick m).
Proof.
  intros Hd H. unfold loopback_tick.
  destruct (txHandle_keeps m) as (Er & Eq & Ea).
  assert (H' : rx_aligned d (txHandle m)) by (apply (rx_aligned_ext d m); assumption).
  destruct (tx_emitting m); [apply rxHandle_aligned; assumption|exact H'].
Qed.

Lemma loopback_S n m : loopback (S n) m = loopback_tick (loopback n m).
Proof. reflexivity. Qed.

Lemma loopback_aligned d n : forall m,
  1 <= d < 8 -> rx_aligned d m -> rx_aligned d (loopback n m).
Proof.
  induction n as [|n IH]; intros m Hd H; [exact H|].
  rewrite loopback_S. apply loopback_tick_aligned; [exact Hd|]. apply IH; assumption.
Qed.

(** C1 (what the code does with fewer than eight data bits).  The decoder
    shifts every received bit in at bit 7 and never aligns the register, so
    with [dtbits < 8] every byte it puts into the RX queue has its low
    [8 - dtbits] bits clear, whatever samples it is fed; in loopback no byte
    sequence that holds an odd byte, such as 0x41 alone, comes out of the RX
    queue, for any waveform table and any number of ticks. *)
Theorem C1_short_frames_left_aligned (m : Modem) (n : nat) :
  1 <= dtbits (cfgAFSK m) < 8 ->
  rx_state (rx m) = WAIT ->
  Fifo.wf (rxFIFO m) ->
  Fifo.contents (rxFIFO m) = [] ->
  Forall (low_clear (8 - dtbits (cfgAFSK m))) (Fifo.contents (rxFIFO (loopback n m))) /\
  (forall bs b, In b bs -> Z.odd b = true ->
     Fifo.contents (rxFIFO (loopback n m)) <> bs).
Proof.
  intros Hd Hs Hw Hq.
  assert (H0 : rx_aligned (dtbits (cfgAFSK m)) m).
  { unfold rx_aligned. rewrite Hq, Hs.
    repeat apply conj; trivial; try constructor; intros; discriminate. }
  destruct (loopback_aligned _ n m Hd H0) as (_ & _ & Hall & _).
  split; [exact Hall|].
  intros bs b Hin Hodd E. rewrite E in Hall.
  rewrite Forall_forall in Hall.
  specialize (Hall b). 
  assert (Hb : low_clear (8 - dtbits (cfgAFSK m)) b).
  { apply Hall. apply list_elem_of_In. exact Hin. }
  rewrite (low_clear_odd (8 - dtbits (cfgAFSK m)) b) in Hodd; [discriminate|lia|exact Hb].
Qed.

End LoopFacts.

(** ** The theorems on concrete inputs *)

Lemma wf_fresh_rx d flw : Fifo.wf (rxFIFO (online0 d flw)).
Proof. apply FifoFacts.wfb_wf. reflexivity. Qed.

(** Seven data bits, 0x41 queued, a thousand ticks of loopback. *)
Lemma C1_witness :
  (1 <= dtbits (cfgAFSK c1_modem) < 8 /\ rx_state (rx c1_modem) = WAIT /\
   Fifo.wf (rxFIFO c1_modem) /\ Fifo.contents (rxFIFO c1_modem) = []) /\
  Forall (low_clear (8 - dtbits (cfgAFSK c1_modem)))
    (Fifo.contents (rxFIFO (loopback 1000 c1_modem))) /\
  (forall bs b, In b bs -> Z.odd b = true ->
     Fifo.contents (rxFIFO (loopback 1000 c1_modem)) <> bs).
Proof.
  assert (H1 : 1 <= dtbits (cfgAFSK c1_modem) < 8) by concrete.
  assert (H2 : rx_state (rx c1_modem) = WAIT) by reflexivity.
  assert (H3 : Fifo.wf (rxFIFO c1_modem)) by (apply FifoFacts.wfb_wf; reflexivity).
  assert (H4 : Fifo.contents (rxFIFO c1_modem) = []) by reflexivity.
  split; [exact (conj H1 (conj H2 (conj H3 H4)))|].
  exact (C1_short_frames_left_aligned c1_modem 1000 H1 H2 H3 H4).
Defined.

(** With no flow-control mode configured the flag stays down at 48 bytes;
    and with the flag up and 15 bytes queued, a run that finds a byte on
    the transport takes it first and does not release the flag. *)
Lemma C2_counterexample :
  ~ (flowControl (snd (doSIO 0 (filled 0))) = true <->
     48 <= Fifo.len (txFIFO (filled 0))) /\
  ~ (Fifo.len (txFIFO c2_refill) = 15 -> flowControl c2_refill = true ->
     fst (doSIO 0 c2_refill) = true ->
     flowControl (snd (doSIO 0 c2_refill)) = false).
Proof.
  split.
  - intros [_ H].
    assert (E : flowControl (snd (doSIO 0 (filled 0))) = false) by reflexivity.
    rewrite E in H. discriminate H. concrete.
  - intros H.
    assert (E : flowControl (snd (doSIO 0 c2_refill)) = true) by reflexivity.
    rewrite E in H. discriminate H; reflexivity.
Qed.

Lemma C2_witness :
  fst (doSIO 0 (filled 3)) = true /\
  (flowControl (filled 3) = false ->
     (flowControl (snd (doSIO 0 (filled 3))) = true <->
      flwctr (cfg (filled 3)) <> 0 /\ 48 <= Fifo.len (txFIFO (filled 3)))) /\
  (flowControl (filled 3) = true ->
     (flowControl (snd (doSIO 0 (filled 3))) = false <->
      Fifo.len (txFIFO (snd (doSIO 0 (filled 3)))) < 16)) /\
  Fifo.len (txFIFO (filled 3)) <= Fifo.len (txFIFO (snd (doSIO 0 (filled 3))))
    <= Fifo.len (txFIFO (filled 3)) + 1 /\
  (48 <= Fifo.len (txFIFO (filled 3)) ->
     txFIFO (snd (doSIO 0 (filled 3))) = txFIFO (filled 3)) /\
  (48 <= Fifo.len (txFIFO (filled 3)) -> escCount (filled 3) <> 3 ->
     serial_in (snd (doSIO 0 (filled 3))) = serial_in (filled 3)).
Proof.
  assert (H : fst (doSIO 0 (filled 3)) = true) by reflexivity.
  split; [exact H|].
  exact (C2_flow_hysteresis 0 (filled 3) H).
Defined.

(** C3 (the code at the failing input).  In RTS/CTS mode ([flwctr] = 3),
    when the TX queue stands at 48 the bridge writes XOFF (0x13) to the
    transport, leaves PORTB as it was and overwrites the configured mode
    with 4; on release at 15 bytes it writes XON (0x11), again without
    touching PORTB. *)
Theorem C3_rtscts_writes_xoff :
  flwctr (cfg (filled 3)) = 3 /\ Fifo.len (txFIFO (filled 3)) = 48 /\
  flowControl (filled 3) = false /\
  flowControl (snd (doSIO 0 (filled 3))) = true /\
  serial_out (snd (doSIO 0 (filled 3))) = serial_out (filled 3) ++ [19] /\
  PORTB (snd (doSIO 0 (filled 3))) = PORTB (filled 3) /\
  flwctr (cfg (snd (doSIO 0 (filled 3)))) = 4 /\
  flowControl (snd (doSIO 0 (drained 3))) = false /\
  serial_out (snd (doSIO 0 (drained 3))) = serial_out (drained 3) ++ [17] /\
  PORTB (snd (doSIO 0 (drained 3))) = PORTB (drained 3).
Proof. repeat split; reflexivity. Qed.

Lemma C5_witness :
  (tx_active (tx c5_modem) = ON /\ tx_state (tx c5_modem) = WAIT /\
   tx_clk (tx c5_modem) = 0 /\ Fifo.wf (txFIFO c5_modem) /\
   Fifo.contents (txFIFO c5_modem) = [65] /\ dtbits (cfgAFSK c5_modem) = 8 /\
   carBits < 256 /\ 0 <= fulBit c5_modem < 256) /\
  txSymbols (14 * 33) c5_modem =
    repeat MARK 4 ++ [SPACE; 1; 0; 0; 0; 0; 0; 1; 0; MARK].
Proof.
  assert (H4 : Fifo.wf (txFIFO c5_modem)) by (apply FifoFacts.wfb_wf; reflexivity).
  assert (H7 : carBits < 256) by concrete.
  assert (H8 : 0 <= fulBit c5_modem < 256) by concrete.
  split; [exact (conj eq_refl (conj eq_refl (conj eq_refl (conj H4 (conj eq_refl (conj eq_refl (conj H7 H8)))))))|].
  exact (C5_tx_frame_0x41 c5_modem eq_refl eq_refl eq_refl H4 eq_refl eq_refl H7 H8).
Defined.

(** Sixteen samples collected, three of them HIGH: more than 1/8 of the
    samples, yet the decoder goes on to START_BIT. *)
Lemma C6_counterexample :
  ~ (rx_state (rx (rxFeed c6_samples c6_modem)) = WAIT <->
     8 * highs c6_samples > Z.of_nat (length c6_samples)).
Proof.
  intros [_ H].
  assert (E : rx_state (rx (rxFeed c6_samples c6_modem)) = START_BIT) by reflexivity.
  rewrite E in H. discriminate H. concrete.
Qed.

Lemma is_bit_list bs : forallb (fun b => (b =? 0) || (b =? 1)) bs = true -> Forall is_bit bs.
Proof.
  induction bs as [|b bs IH]; cbn [forallb]; intros H; constructor.
  - apply andb_true_iff in H. destruct H as (H & _).
    apply orb_true_iff in H. destruct H as [H|H]; apply Z.eqb_eq in H; [left|right]; exact H.
  - apply IH. apply andb_true_iff in H. apply H.
Defined.

Lemma C6_witness :
  (timing_ok c6_modem /\ 2 <= fulBit c6_modem /\ rx_state (rx c6_modem) = PREAMBLE /\
   rx_clk (rx c6_modem) = 0 /\ rx_bitsum (rx c6_modem) = 0 /\
   Forall is_bit c6_samples /\ Z.of_nat (length c6_samples) = hlfBit c6_modem) /\
  (forall k, (k < length c6_samples)%nat ->
             rx_state (rx (rxFeed (firstn k c6_samples) c6_modem)) = PREAMBLE) /\
  (fulBit c6_modem < 8 * highs c6_samples ->
     rx_state (rx (rxFeed c6_samples c6_modem)) = WAIT) /\
  (8 * highs c6_samples <= fulBit c6_modem ->
     rx_state (rx (rxFeed c6_samples c6_modem)) = START_BIT).
Proof.
  assert (H1 : timing_ok c6_modem) by concrete.
  assert (H2 : 2 <= fulBit c6_modem) by concrete.
  assert (H6 : Forall is_bit c6_samples) by (apply is_bit_list; reflexivity).
  split; [exact (conj H1 (conj H2 (conj eq_refl (conj eq_refl (conj eq_refl (conj H6 eq_refl))))))|].
  exact (C6_preamble_threshold c6_modem c6_samples H1 H2 eq_refl eq_refl eq_refl H6 eq_refl).
Defined.

Lemma C7_witness :
  (timing_ok c7_modem /\ 1 <= fulBit c7_modem /\ rx_state (rx c7_modem) = STOP_BIT /\
   rx_clk (rx c7_modem) = hlfBit c7_modem /\ rx_bitsum (rx c7_modem) = 0 /\
   Forall is_bit c7_samples /\
   Z.of_nat (length c7_samples) = fulBit c7_modem - hlfBit c7_modem) /\
  (forall k, (k < length c7_samples)%nat ->
             rx_state (rx (rxFeed (firstn k c7_samples) c7_modem)) = STOP_BIT /\
             rxFIFO (rxFeed (firstn k c7_samples) c7_modem) = rxFIFO c7_modem) /\
  rx_state (rx (rxFeed c7_samples c7_modem)) = WAIT /\
  (fulBit c7_modem < 4 * highs c7_samples ->
     rxFIFO (rxFeed c7_samples c7_modem) =
       snd (Fifo.put (rx_data (rx c7_modem)) (rxFIFO c7_modem))) /\
  (4 * highs c7_samples <= fulBit c7_modem ->
     rxFIFO (rxFeed c7_samples c7_modem) = rxFIFO c7_modem).
Proof.
  assert (H1 : timing_ok c7_modem) by concrete.
  assert (H2 : 1 <= fulBit c7_modem) by concrete.
  assert (H6 : Forall is_bit c7_samples) by (apply is_bit_list; reflexivity).
  split; [exact (conj H1 (conj H2 (conj eq_refl (conj eq_refl (conj eq_refl (conj H6 eq_refl))))))|].
  exact (C7_stop_bit c7_modem c7_samples H1 H2 eq_refl eq_refl eq_refl H6 eq_refl).
Defined.

(** Three escape characters, each 800 ms after the previous one with a guard
    time of 1000 ms, then 6400 ms of silence: no switch to command mode. *)
Lemma C8_counterexample :
  (2800 - 2000 <= sreg (cfg (online0 8 0)) 12 * 20 /\
   3600 - 2800 <= sreg (cfg (online0 8 0)) 12 * 20 /\
   sreg (cfg (online0 8 0)) 12 * 20 < 10000 - 3600) /\
  _mode c8_slow = DATA_MODE /\
  _mode (snd (doSIO 10000 c8_slow)) = DATA_MODE /\
  serial_out (snd (doSIO 10000 c8_slow)) = [].
Proof. concrete. Qed.

Lemma C8_witness :
  let m := online0 8 0 in
  let e := sreg (cfg m) 2 in
  let g := sreg (cfg m) 12 * 20 in
  let m1 := sioRun [2100] (snd (doSIO 2000 (Serial_arrive e m))) in
  let m2 := sioRun [2400] (snd (doSIO 2300 (Serial_arrive e m1))) in
  let m3 := sioRun [2700; 3000] (snd (doSIO 2600 (Serial_arrive e m2))) in
  (_mode m = DATA_MODE /\ serial_in m = [] /\ escCount m <> 3 /\ _guard m = g /\
   Fifo.len (txFIFO m) < 29 /\ 0 <= 2000 <= 2300 /\ 2300 <= 2600 /\
   2600 < 4000 < 4294967296 /\ 2600 - 2000 <= g /\ g < 4000 - 2600 /\
   g < u32 (2000 - escFirst m) /\ g <= u32 (2000 - lstChar m) /\
   Forall (fun t => 2600 <= t < 4294967296 /\ t - 2600 <= g) [2700; 3000]) /\
  _mode m3 = DATA_MODE /\
  fst (doSIO 4000 m3) = false /\
  _mode (snd (doSIO 4000 m3)) = COMMAND_MODE /\
  serial_out (snd (doSIO 4000 m3)) = serial_out m3 ++ msg_OK /\
  (forall x t,
     x <> e -> u8 x <> 13 -> u8 x <> 10 ->
     2600 <= t < 4294967296 -> t - 2600 <= g ->
     _mode (snd (doSIO t (Serial_arrive x m3))) = DATA_MODE /\
     escCount (snd (doSIO t (Serial_arrive x m3))) = 0 /\
     forall ts, _mode (sioRun ts (snd (doSIO t (Serial_arrive x m3)))) = DATA_MODE).
Proof.
  intros m e g m1 m2 m3.
  assert (H3 : escCount m <> 3) by concrete.
  assert (H5 : Fifo.len (txFIFO m) < 29) by concrete.
  assert (H6 : 0 <= 2000 <= 2300) by lia.
  assert (H7 : 2300 <= 2600) by lia.
  assert (H8 : 2600 < 4000 < 4294967296) by lia.
  assert (H9 : 2600 - 2000 <= g) by concrete.
  assert (H10 : g < 4000 - 2600) by concrete.
  assert (H11 : g < u32 (2000 - escFirst m)) by concrete.
  assert (H12 : g <= u32 (2000 - lstChar m)) by concrete.
  assert (H13 : Forall (fun t => 2600 <= t < 4294967296 /\ t - 2600 <= g) [2700; 3000])
    by (repeat constructor; concrete).
  split; [exact (conj eq_refl (conj eq_refl (conj H3 (conj eq_refl (conj H5 (conj H6 (conj H7 (conj H8 (conj H9 (conj H10 (conj H11 (conj H12 H13))))))))))))|].
  exact (C8_escape_sequence m 2000 2300 2600 4000 [2100] [2400] [2700; 3000]
           eq_refl eq_refl H3 eq_refl H5 H6 H7 H8 H9 H10 H11 H12 H13).
Defined.

(** The carrier is forced on and never cleared, the count is 1 of 4, and the
    modulator already leaves the preamble. *)
Lemma C9_counterexample :
  ~ (tx_state (tx (txFrame c9_modem)) = START_BIT <->
     (carBits <= u8 (tx_bits (tx c9_modem) + 1) \/ tx_carrier (tx c9_modem) = OFF)).
Proof.
  intros [H _].
  assert (E : tx_state (tx (txFrame c9_modem)) = START_BIT) by reflexivity.
  destruct (H E) as [H1|H1]; [vm_compute in H1; apply H1; reflexivity|discriminate H1].
Qed.

Lemma C9_witness :
  tx_state (tx c9_modem) = PREAMBLE /\
  tx_bits (tx (txFrame c9_modem)) = u8 (tx_bits (tx c9_modem) + 1) /\
  (carBits <= u8 (tx_bits (tx c9_modem) + 1) \/ tx_carrier (tx c9_modem) = ON ->
     tx_state (tx (txFrame c9_modem)) = START_BIT /\
     tx_dtbit (tx (txFrame c9_modem)) = SPACE) /\
  (u8 (tx_bits (tx c9_modem) + 1) < carBits /\ tx_carrier (tx c9_modem) <> ON ->
     tx_state (tx (txFrame c9_modem)) = PREAMBLE /\
     tx_dtbit (tx (txFrame c9_modem)) = tx_dtbit (tx c9_modem)).
Proof.
  split; [reflexivity|]. exact (C9_preamble_exit c9_modem eq_refl).
Defined.

Lemma C10_witness :
  0 <= ON < 256 /\
  tx_carrier (tx (setCarrier ON (online0 8 0))) = Z.land ON (txcarr (cfg (online0 8 0))) /\
  (txcarr (cfg (online0 8 0)) = 0 ->
     tx_carrier (tx (setCarrier ON (online0 8 0))) = OFF).
Proof.
  assert (H : 0 <= ON < 256) by concrete.
  split; [exact H|]. exact (C10_setCarrier_mask ON (online0 8 0) H).
Defined.

(** ** Further facts about the members *)

Lemma u16_small z : 0 <= z < 65536 -> u16 z = z.
Proof. intros H. unfold u16. apply Z.mod_small. exact H. Qed.

Lemma u16_add_l a b : u16 (u16 a + b) = u16 (a + b).
Proof. unfold u16. apply Zplus_mod_idemp_l. Qed.

Ltac frame_open :=
  unfold tx_at, txFrameN, tx_norm, txFrame, txFIFO_out in *; mnorm.

Ltac frame_close :=
  cbn [negb andb orb byte_of]; msimpl;
  repeat apply conj; first [assumption | reflexivity].


Section RampFacts.
Context {P : Platform}.

(** *** initHW: the ramp *)

Lemma rampDAC_steps (n : nat) : forall i m,
  0 <= i -> i + Z.of_nat n = wave_sample 0 + 1 -> wave_sample 0 < 255 ->
  rampDAC (S n) i m = Some (if (0 <? Z.of_nat n) then DAC (wave_sample 0) m else m).
Proof.
  induction n as [|n IH]; intros i m Hi Hn Hs.
  - cbn [rampDAC]. replace (i <=? wave_sample 0) with false by (symmetry; apply Z.leb_gt; lia).
    reflexivity.
  - change (rampDAC (S (S n)) i m)
      with (if i <=? wave_sample 0 then rampDAC (S n) (u8 (i + 1)) (DAC i m) else Some m).
    replace (i <=? wave_sample 0) with true by (symmetry; apply Z.leb_le; lia).
    assert (E : u8 (i + 1) = i + 1) by (apply u8_small; lia).
    rewrite E, IH by lia.
    f_equal. destruct n as [|n]; [|reflexivity].
    replace i with (wave_sample 0) by lia. reflexivity.
Qed.

Lemma rampDAC_stuck (fuel : nat) : forall i m,
  255 <= wave_sample 0 -> 0 <= i < 256 -> rampDAC fuel i m = None.
Proof.
  induction fuel as [|k IH]; intros i m Hs Hi; [reflexivity|].
  cbn [rampDAC]. replace (i <=? wave_sample 0) with true by (symmetry; apply Z.leb_le; lia).
  apply IH; [exact Hs|apply u8_range].
Qed.

(** The ramp of [initHW] ends, after [wave.sample(0) + 1] writes, with the
    first sample in the PWM register, as [init] has it, when that sample is
    below 255. *)
Theorem initHW_ramp_ends (m : Modem) :
  0 <= wave_sample 0 < 255 ->
  rampDAC (Z.to_nat (wave_sample 0) + 2) 0 m = Some (DAC (wave_sample 0) m) /\
  OCR2 (DAC (wave_sample 0) m) = wave_sample 0.
Proof.
  intros Hs. split.
  - replace (Z.to_nat (wave_sample 0) + 2)%nat with (S (Z.to_nat (wave_sample 0 + 1))) by lia.
    rewrite (rampDAC_steps (Z.to_nat (wave_sample 0 + 1)) 0 m) by lia.
    replace (0 <? Z.of_nat (Z.to_nat (wave_sample 0 + 1))) with true
      by (symmetry; apply Z.ltb_lt; lia).
    reflexivity.
  - unfold DAC. msimpl. apply u8_small. lia.
Qed.

(** With a first sample of 255 (or more) the 8-bit loop counter wraps
    before the test can fail: the ramp never ends. *)
Theorem initHW_ramp_never_ends (fuel : nat) (m : Modem) :
  255 <= wave_sample 0 -> rampDAC fuel 0 m = None.
Proof. intros Hs. apply rampDAC_stuck; [exact Hs|lia]. Qed.

End RampFacts.

Section DirectionFacts.
Context {P : Platform}.

(** *** setDirection *)

Lemma iter_dyFIFO_in x n : forall m,
  Nat.iter n (dyFIFO_in x) m = set_dyFIFO (puts x n (dyFIFO m)) m.
Proof.
  induction n as [|n IH]; intros m; [reflexivity|].
  rewrite Nat.iter_succ, IH. unfold dyFIFO_in, puts. rewrite Nat.iter_succ. reflexivity.
Qed.

Lemma puts_contents x n : forall f,
  Fifo.wf f ->
  Fifo.wf (puts x n f) /\ Fifo.cap (puts x n f) = Fifo.cap f /\
  Fifo.contents (puts x n f) =
    Fifo.contents f ++ repeat x (Nat.min n (Fifo.cap f - Fifo.f_len f)).
Proof.
  induction n as [|n IH]; intros f Hwf.
  - cbn. rewrite app_nil_r. auto.
  - destruct (IH f Hwf) as (W & C & E).
    change (puts x (S n) f) with (snd (Fifo.put x (puts x n f))).
    split; [apply FifoFacts.wf_put; exact W|].
    assert (L : Fifo.f_len (puts x n f) = (Fifo.f_len f + Nat.min n (Fifo.cap f - Fifo.f_len f))%nat).
    { rewrite <- (FifoFacts.length_contents (puts x n f)), E, length_app, repeat_length,
        FifoFacts.length_contents. reflexivity. }
    pose proof (Fifo.wf_len _ Hwf) as Hl.
    destruct (Fifo.full (puts x n f)) eqn:F.
    + rewrite (FifoFacts.put_full x _ F). cbn [snd].
      apply FifoFacts.full_iff in F; [|exact W].
      split; [exact C|]. rewrite E. f_equal. f_equal. lia.
    + destruct (FifoFacts.put_contents x _ W F) as (_ & E').
      assert (Hn : Fifo.f_len (puts x n f) <> Fifo.cap (puts x n f)).
      { intros A. apply (FifoFacts.full_iff _ W) in A. congruence. }
      split.
      * replace (snd (Fifo.put x (puts x n f))) with (Fifo.apply (Fifo.In x) (puts x n f))
          by reflexivity.
        rewrite FifoFacts.cap_apply. exact C.
      * rewrite E', E, <- app_assoc. f_equal.
        replace (Nat.min (S n) (Fifo.cap f - Fifo.f_len f)) with
          (S (Nat.min n (Fifo.cap f - Fifo.f_len f))) by lia.
        rewrite <- repeat_cons. reflexivity.
Qed.

(** [setDirection] always selects the two tone pairs crosswise; the [rev]
    argument only counts when originating, the [revans] configuration only
    when answering; the forced carrier is dropped. *)
Lemma setDirection_sel (dir : dir_t) (rev : Z) (m : Modem) :
  (fsqTX (setDirection dir rev m), fsqRX (setDirection dir rev m)) =
    (if match dir with
        | ORIGINATING => rev =? OFF
        | ANSWERING => revans (cfg m) =? ON
        end
     then (SelOrig, SelAnsw) else (SelAnsw, SelOrig)) /\
  _dir (setDirection dir rev m) = dir /\
  tx_carrier (tx (setDirection dir rev m)) = OFF /\
  cfgAFSK (setDirection dir rev m) = cfgAFSK m /\
  cfg (setDirection dir rev m) = cfg m.
Proof.
  unfold setDirection. rewrite !iter_dyFIFO_in. unfold setCarrier. msimpl.
  destruct dir; msimpl; case_if; msimpl; repeat apply conj; reflexivity.
Qed.

(** [setDirection] always selects the two tone pairs crosswise; the [rev]
    argument only counts when originating, the [revans] configuration only
    when answering; the forced carrier is dropped. *)
Theorem setDirection_profiles (dir : dir_t) (rev : Z) (m : Modem) :
  fsqTX (setDirection dir rev m) <> fsqRX (setDirection dir rev m) /\
  (fsqTX (setDirection dir rev m) = SelOrig <->
     (dir = ORIGINATING /\ rev = OFF) \/ (dir = ANSWERING /\ revans (cfg m) = ON)) /\
  _dir (setDirection dir rev m) = dir /\
  tx_carrier (tx (setDirection dir rev m)) = OFF /\
  setDirection ANSWERING rev m = setDirection ANSWERING OFF m /\
  cfgAFSK (setDirection dir rev m) = cfgAFSK m.
Proof.
  destruct (setDirection_sel dir rev m) as (S & D & C & A & _).
  assert (E1 : fsqTX (setDirection dir rev m) = fst (fsqTX (setDirection dir rev m), fsqRX (setDirection dir rev m))) by reflexivity.
  assert (E2 : fsqRX (setDirection dir rev m) = snd (fsqTX (setDirection dir rev m), fsqRX (setDirection dir rev m))) by reflexivity.
  rewrite S in E1, E2. rewrite E1, E2.
  split; [|split; [|split; [exact D|split; [exact C|split; [reflexivity|exact A]]]]].
  - destruct dir; [destruct (rev =? OFF)|destruct (revans (cfg m) =? ON)]; discriminate.
  - destruct dir.
    + destruct (Z.eqb_spec rev OFF) as [E|E]; cbn [fst].
      * split; [intros _; left; auto|reflexivity].
      * split; [discriminate|]. intros [(_ & B)|(B & _)]; [contradiction|discriminate].
    + destruct (Z.eqb_spec (revans (cfg m)) ON) as [E|E]; cbn [fst].
      * split; [intros _; right; auto|reflexivity].
      * split; [discriminate|]. intros [(B & _)|(_ & B)]; [discriminate|contradiction].
Qed.

(** [setDirection] empties the TX and RX queues and leaves in the delay
    queue [queuelen] copies of the bias, or as many as the queue holds. *)
Theorem setDirection_queues (dir : dir_t) (rev : Z) (m : Modem) :
  Fifo.wf (dyFIFO m) ->
  Fifo.contents (txFIFO (setDirection dir rev m)) = [] /\
  Fifo.contents (rxFIFO (setDirection dir rev m)) = [] /\
  Fifo.contents (dyFIFO (setDirection dir rev m)) =
    repeat (u8 bias)
      (Nat.min (Z.to_nat (queuelen (fsq m (fsqRX (setDirection dir rev m)))))
               (Fifo.cap (dyFIFO m))).
Proof.
  intros Hwf.
  assert (W : Fifo.wf (Fifo.clear (dyFIFO m))) by (apply FifoFacts.wf_clear; exact Hwf).
  unfold setDirection. rewrite !iter_dyFIFO_in. unfold setCarrier, fsq.
  destruct dir; msimpl; case_if; msimpl;
    (split; [apply FifoFacts.contents_clear|]);
    (split; [apply FifoFacts.contents_clear|]);
    match goal with |- Fifo.contents (puts ?x ?n ?f) = _ =>
      destruct (puts_contents x n f W) as (_ & _ & E); rewrite E end;
    rewrite FifoFacts.contents_clear; cbn [app Fifo.clear Fifo.f_len Fifo.cap Fifo.f_bits];
    rewrite Nat.sub_0_r; reflexivity.
Qed.

End DirectionFacts.

Section ModeFacts.
Context {P : Platform}.

(** *** setModemType, init, setLine, doTXRX *)

Lemma sioGuard_mode a m :
  _mode (sioGuard a m) = COMMAND_MODE \/ _mode (sioGuard a m) = _mode m.
Proof.
  unfold sioGuard, setMode, Serial_print, Serial_read. msimpl.
  mcases; auto.
Qed.

Lemma sioCount_mode a m : _mode (sioCount a m) = _mode m.
Proof.
  destruct (sioCount_changes a m) as (c & f & l & E). rewrite E. reflexivity.
Qed.

Lemma sioEscape_mode a m :
  _mode (sioEscape a m) = COMMAND_MODE \/ _mode (sioEscape a m) = _mode m.
Proof.
  unfold sioEscape. rewrite sioCount_mode. apply sioGuard_mode.
Qed.

Lemma doSIO_result t m :
  fst (doSIO t m) = match _mode (snd (doSIO t m)) with
                    | COMMAND_MODE => false | DATA_MODE => true end /\
  (_mode (snd (doSIO t m)) = COMMAND_MODE \/ _mode (snd (doSIO t m)) = _mode m).
Proof.
  rewrite doSIO_unfold.
  pose proof (sioEscape_mode (Serial_available m) (set_now (u32 t) m)) as Hm.
  destruct (_mode (sioEscape (Serial_available m) (set_now (u32 t) m))) eqn:E; cbn [fst snd].
  - rewrite E. split; [reflexivity|left; reflexivity].
  - destruct (sioData_keeps (Serial_available m)
                (sioEscape (Serial_available m) (set_now (u32 t) m))) as (_ & _ & _ & K & _).
    rewrite K, E. split; [reflexivity|].
    destruct Hm as [Hm|Hm]; [discriminate|]. right. rewrite Hm. reflexivity.
Qed.

(** The value [doSIO] returns tells the mode it leaves the modem in, and
    [doSIO] never takes the modem from command mode to data mode. *)
Theorem doSIO_returns_mode (t : Z) (m : Modem) :
  (fst (doSIO t m) = true <-> _mode (snd (doSIO t m)) = DATA_MODE) /\
  (_mode m = COMMAND_MODE -> _mode (snd (doSIO t m)) = COMMAND_MODE).
Proof.
  destruct (doSIO_result t m) as (R & M). rewrite R. split.
  - destruct (_mode (snd (doSIO t m))); split; intros; congruence.
  - intros C. destruct M as [M|M]; congruence.
Qed.

(** In command mode the bridge moves no data: nothing is taken from the
    transport for the TX queue and no received byte is delivered. *)
Theorem doSIO_command_mode (t : Z) (m : Modem) :
  _mode m = COMMAND_MODE ->
  fst (doSIO t m) = false /\
  txFIFO (snd (doSIO t m)) = txFIFO m /\
  rxFIFO (snd (doSIO t m)) = rxFIFO m /\
  tx (snd (doSIO t m)) = tx m /\
  flowControl (snd (doSIO t m)) = flowControl m /\
  (escCount m <> 3 ->
     serial_in (snd (doSIO t m)) = serial_in m /\
     serial_out (snd (doSIO t m)) = serial_out m).
Proof.
  intros C.
  destruct (doSIO_result t m) as (R & M).
  assert (C' : _mode (snd (doSIO t m)) = COMMAND_MODE)
    by (destruct M as [M|M]; congruence).
  rewrite C' in R. split; [exact R|]. clear R M.
  rewrite doSIO_unfold in *.
  set (a := Serial_available m) in *. set (m0 := set_now (u32 t) m) in *.
  destruct (_mode (sioEscape a m0)) eqn:E; cbn [fst snd] in *.
  - destruct (sioEscape_frame a m0) as (F1 & F2 & _ & F4 & _ & _ & _ & _ & F9).
    rewrite F1, F2, F4, F9.
    repeat (split; [reflexivity|]).
    intros H3. unfold sioEscape. rewrite (sioGuard_off a m0) by exact H3.
    destruct (sioCount_changes a m0) as (c & f & l & Ec). rewrite Ec. split; reflexivity.
  - destruct (sioData_keeps a (sioEscape a m0)) as (_ & _ & _ & K & _). congruence.
Qed.

End ModeFacts.

Section ProfileFacts.
Context {P : Platform}.

Lemma setDirection_keeps (dir : dir_t) (rev : Z) (m : Modem) :
  _online (setDirection dir rev m) = _online m /\
  _mode (setDirection dir rev m) = _mode m /\
  cfg (setDirection dir rev m) = cfg m /\
  cfgAFSK (setDirection dir rev m) = cfgAFSK m /\
  OCR2 (setDirection dir rev m) = OCR2 m.
Proof.
  unfold setDirection. rewrite !iter_dyFIFO_in. unfold setCarrier.
  destruct dir; msimpl; case_if; msimpl; repeat apply conj; reflexivity.
Qed.

Lemma setModemType_fields (afsk : AFSK_t) (m : Modem) :
  _online (setModemType afsk m) = OFF /\
  _mode (setModemType afsk m) = COMMAND_MODE /\
  _dir (setModemType afsk m) = ORIGINATING /\
  fsqTX (setModemType afsk m) = SelOrig /\
  fsqRX (setModemType afsk m) = SelAnsw /\
  cfg (setModemType afsk m) = cfg m /\
  OCR2 (setModemType afsk m) = OCR2 m /\
  cfgAFSK (setModemType afsk m) =
    set_answ (set_step_mark (wave_getStep (freq_mark (answ afsk)))
               (set_step_space (wave_getStep (freq_space (answ afsk))) (answ afsk)))
      (set_orig (set_step_mark (wave_getStep (freq_mark (orig afsk)))
                  (set_step_space (wave_getStep (freq_space (orig afsk))) (orig afsk)))
         afsk) /\
  fulBit (setModemType afsk m) = u8 (F_SAMPLE / baud afsk) /\
  cdTotal (setModemType afsk m) =
    u16 (u16 (F_SAMPLE / 10 * sreg (cfg m) 9) -
         Z.shiftr (u16 (F_SAMPLE / 10 * sreg (cfg m) 9)) 4).
Proof.
  unfold setModemType. cbv zeta.
  remember (setLine OFF (initSteps (set_cfgAFSK afsk m))) as m1 eqn:Em1.
  destruct (setDirection_keeps ORIGINATING OFF m1) as (K1 & K2 & K3 & K4 & K5).
  destruct (setDirection_sel ORIGINATING OFF m1) as (S & D & _).
  apply pair_equal_spec in S. destruct S as (E1 & E2). cbn [Z.eqb OFF] in E1, E2.
  mnorm. rewrite K1, K2, K3, K4, K5, D, E1, E2.
  subst m1. unfold setLine, setMode, initSteps. msimpl.
  repeat apply conj; reflexivity.
Qed.

(** After [setModemType] (and so after [init]) the modem is off line, in
    command mode and originating, sending on the originating pair; the
    sample interrupt then does nothing and the serial bridge reports that
    it processed no data. *)
Theorem setModemType_offline (afsk : AFSK_t) (m : Modem) (adch t : Z) :
  _online (setModemType afsk m) = OFF /\
  _mode (setModemType afsk m) = COMMAND_MODE /\
  _dir (setModemType afsk m) = ORIGINATING /\
  fsqTX (setModemType afsk m) = SelOrig /\
  fsqRX (setModemType afsk m) = SelAnsw /\
  doTXRX adch (setModemType afsk m) = setModemType afsk m /\
  fst (doSIO t (setModemType afsk m)) = false.
Proof.
  destruct (setModemType_fields afsk m) as (A & B & C & D & E & _).
  repeat (split; [assumption|]). split.
  - unfold doTXRX. rewrite A. reflexivity.
  - destruct (doSIO_result t (setModemType afsk m)) as (R & M).
    rewrite R. destruct M as [M|M]; [rewrite M; reflexivity|].
    rewrite M, B. reflexivity.
Qed.

(** The timing constants that [setModemType] derives: the samples per bit
    (kept in 8 bits), its half, quarter and eighth, and the carrier-detect
    count, 15/16 of S9 tenths of a second of samples (kept in 16 bits). *)
Theorem setModemType_constants (afsk : AFSK_t) (m : Modem) :
  fulBit (setModemType afsk m) = (F_SAMPLE / baud afsk) mod 256 /\
  hlfBit (setModemType afsk m) = fulBit (setModemType afsk m) / 2 /\
  qrtBit (setModemType afsk m) = fulBit (setModemType afsk m) / 4 /\
  octBit (setModemType afsk m) = fulBit (setModemType afsk m) / 8 /\
  cdTotal (setModemType afsk m) =
    (((F_SAMPLE / 10 * sreg (cfg m) 9) mod 65536) -
     ((F_SAMPLE / 10 * sreg (cfg m) 9) mod 65536) / 16) mod 65536.
Proof.
  destruct (setModemType_fields afsk m) as (_ & _ & _ & _ & _ & _ & _ & _ & F & C).
  destruct (timing_values _ (setModemType_timing afsk m)) as (H2 & H4 & H8).
  rewrite C. split; [exact F|]. split; [exact H2|]. split; [exact H4|]. split; [exact H8|].
  unfold u16. rewrite Z.shiftr_div_pow2 by lia. reflexivity.
Qed.


End ProfileFacts.

Section CarrierFacts.
Context {P : Platform}.

(** *** checkCarrier *)

Lemma port_clr0_bit2 p : Z.testbit (port_clr p PORTB0) 2 = Z.testbit p 2.
Proof.
  unfold port_clr, u8. change 256 with (2 ^ 8).
  rewrite Z.mod_pow2_bits_low, Z.land_spec by lia.
  change (Z.testbit (Z.lnot (_BV PORTB0)) 2) with true. apply andb_true_r.
Qed.

Lemma port_set0_bit2 p : Z.testbit (port_set p PORTB0) 2 = Z.testbit p 2.
Proof.
  unfold port_set, u8. change 256 with (2 ^ 8).
  rewrite Z.mod_pow2_bits_low, Z.lor_spec by lia.
  change (Z.testbit (_BV PORTB0) 2) with false. apply orb_false_r.
Qed.

Lemma port_clr2_bit2 p : Z.testbit (port_clr p PORTB2) 2 = false.
Proof.
  unfold port_clr, u8. change 256 with (2 ^ 8).
  rewrite Z.mod_pow2_bits_low, Z.land_spec by lia.
  change (Z.testbit (Z.lnot (_BV PORTB2)) 2) with false. apply andb_false_r.
Qed.

Lemma port_set2_bit2 p : Z.testbit (port_set p PORTB2) 2 = true.
Proof.
  unfold port_set, u8. change 256 with (2 ^ 8).
  rewrite Z.mod_pow2_bits_low, Z.lor_spec by lia.
  change (Z.testbit (_BV PORTB2) 2) with true. apply orb_true_r.
Qed.

(** The decoder leaves the CD led alone and keeps the carrier flag at ON
    or OFF. *)
Lemma rxDecoder_cd bt m :
  Z.testbit (PORTB (rxDecoder bt m)) 2 = Z.testbit (PORTB m) 2 /\
  (rx_carrier (rx (rxDecoder bt m)) = rx_carrier (rx m) \/
   rx_carrier (rx (rxDecoder bt m)) = ON).
Proof.
  unfold rxDecoder, rxFIFO_in. msimpl.
  mcases; (split; [first [reflexivity|apply port_clr0_bit2|apply port_set0_bit2]
                  |first [left; reflexivity|right; reflexivity]]).
Qed.

Lemma rxFeed_cd bs : forall m,
  Z.testbit (PORTB (rxFeed bs m)) 2 = Z.testbit (PORTB m) 2 /\
  (rx_carrier (rx (rxFeed bs m)) = rx_carrier (rx m) \/
   rx_carrier (rx (rxFeed bs m)) = ON).
Proof.
  induction bs as [|b bs IH]; intros m.
  - rewrite rxFeed_nil. split; [reflexivity|left; reflexivity].
  - rewrite rxFeed_cons. destruct (IH (rxDecoder b m)) as (A & B).
    destruct (rxDecoder_cd b m) as (C & D).
    split; [congruence|]. destruct B as [B|B]; [|right; exact B].
    rewrite B. exact D.
Qed.

(** Whatever the decoder saw during the wait, [checkCarrier] returns true
    exactly when it leaves the CD led on. *)
Theorem checkCarrier_led (bs : list Z) (m : Modem) :
  fst (checkCarrier bs m) = Z.testbit (PORTB (snd (checkCarrier bs m))) 2.
Proof.
  unfold checkCarrier.
  destruct (rxFeed_cd bs (checkCarrier_enter m)) as (A & B).
  assert (E : Z.testbit (PORTB (checkCarrier_enter m)) 2 = false /\
              (rx_carrier (rx (checkCarrier_enter m)) = ON \/
               rx_carrier (rx (checkCarrier_enter m)) = OFF)).
  { unfold checkCarrier_enter. msimpl. case_if; msimpl;
      (split; [apply port_clr2_bit2|]); [left|right]; reflexivity. }
  destruct E as (E1 & E2). rewrite E1 in A.
  assert (C : rx_carrier (rx (rxFeed bs (checkCarrier_enter m))) = ON \/
              rx_carrier (rx (rxFeed bs (checkCarrier_enter m))) = OFF)
    by (destruct B as [B|B]; [rewrite B; exact E2|left; exact B]).
  remember (rxFeed bs (checkCarrier_enter m)) as m1 eqn:Em1. clear Em1 B E1 E2.
  unfold checkCarrier_leave. mnorm. destruct C as [C|C]; rewrite C.
  - change (ON =? ON) with true. msimpl. rewrite C.
    symmetry. apply port_set2_bit2.
  - change (OFF =? ON) with false. msimpl. rewrite C.
    symmetry. exact A.
Qed.

(** With S7 = 0 [checkCarrier] does not wait: it reports the carrier as
    found, lights the CD led and leaves the decoder in its state. *)
Theorem checkCarrier_no_wait (m : Modem) :
  sreg (cfg m) 7 = 0 ->
  fst (checkCarrier [] m) = true /\
  rx_carrier (rx (snd (checkCarrier [] m))) = ON /\
  rx_state (rx (snd (checkCarrier [] m))) = rx_state (rx m) /\
  cdCount (snd (checkCarrier [] m)) = cdCount m.
Proof.
  intros H. unfold checkCarrier. rewrite rxFeed_nil.
  unfold checkCarrier_leave, checkCarrier_enter. mnorm. rewrite H.
  change (0 =? 0) with true. msimpl. change (ON =? ON) with true. msimpl.
  repeat apply conj; reflexivity.
Qed.

Lemma rxDecoder_CARRIER_high bt m :
  rx_state (rx m) = CARRIER -> bt <> 0 ->
  cdCount (rxDecoder bt m) = u16 (cdCount m + 1) /\
  (u16 (cdCount m + 1) < cdTotal m ->
     rx_state (rx (rxDecoder bt m)) = CARRIER /\
     rx_carrier (rx (rxDecoder bt m)) = rx_carrier (rx m)) /\
  (cdTotal m <= u16 (cdCount m + 1) ->
     rx_state (rx (rxDecoder bt m)) = WAIT /\
     rx_carrier (rx (rxDecoder bt m)) = ON) /\
  cdTotal (rxDecoder bt m) = cdTotal m.
Proof.
  intros Hs Hb. unfold rxDecoder. mnorm. rewrite Hs.
  apply Z.eqb_neq in Hb. rewrite Hb. cbn [negb]. msimpl.
  case_if; bool_hyps; msimpl;
    (split; [reflexivity|]); (split; [intros; first [lia|split; reflexivity]|]);
    (split; [intros; first [lia|split; reflexivity]|reflexivity]).
Qed.

Lemma rxDecoder_CARRIER_low m :
  rx_state (rx m) = CARRIER ->
  cdCount (rxDecoder 0 m) = 0 /\ rx_state (rx (rxDecoder 0 m)) = CARRIER /\
  rx_carrier (rx (rxDecoder 0 m)) = rx_carrier (rx m).
Proof.
  intros Hs. unfold rxDecoder. mnorm. rewrite Hs.
  change (0 =? 0) with true. cbn [negb]. msimpl. repeat apply conj; reflexivity.
Qed.

Lemma rxFeed_CARRIER_count bs : forall m,
  rx_state (rx m) = CARRIER ->
  Forall (fun b => b <> 0) bs ->
  0 <= cdCount m -> cdCount m + Z.of_nat (length bs) < cdTotal m ->
  cdTotal m <= 65536 ->
  rx_state (rx (rxFeed bs m)) = CARRIER /\
  rx_carrier (rx (rxFeed bs m)) = rx_carrier (rx m) /\
  cdCount (rxFeed bs m) = cdCount m + Z.of_nat (length bs) /\
  cdTotal (rxFeed bs m) = cdTotal m.
Proof.
  induction bs as [|b bs IH]; intros m Hs Hb H0 Hn Ht.
  - rewrite rxFeed_nil. cbn [length]. repeat apply conj; [exact Hs|reflexivity|lia|reflexivity].
  - inversion Hb as [|? ? Hb1 Hb2]; subst. cbn [length] in Hn.
    rewrite rxFeed_cons.
    assert (E : u16 (cdCount m + 1) = cdCount m + 1) by (apply u16_small; lia).
    destruct (rxDecoder_CARRIER_high b m Hs Hb1) as (C & S1 & _ & T).
    rewrite E in C, S1. destruct S1 as (S1 & S2); [lia|].
    destruct (IH (rxDecoder b m) S1 Hb2) as (I1 & I2 & I3 & I4); [lia|lia|lia|].
    rewrite I1, I2, I3, I4, C, S2, T. cbn [length].
    repeat apply conj; [reflexivity|reflexivity|lia|reflexivity].
Qed.

(** With S7 set, [checkCarrier] counts decoded HIGH samples: the carrier
    is found by the sample that brings the count to [cdTotal], not before,
    and a LOW sample before that starts the count again. *)
Theorem checkCarrier_counts (bs : list Z) (b : Z) (m : Modem) :
  sreg (cfg m) 7 <> 0 ->
  Forall (fun x => x <> 0) bs -> b <> 0 ->
  0 <= cdTotal m <= 65536 ->
  Z.of_nat (length bs) < cdTotal m ->
  fst (checkCarrier bs m) = false /\
  cdCount (snd (checkCarrier bs m)) = Z.of_nat (length bs) /\
  (cdTotal m = Z.of_nat (length bs) + 1 -> cdTotal m < 65536 ->
     fst (checkCarrier (bs ++ [b]) m) = true /\
     rx_state (rx (snd (checkCarrier (bs ++ [b]) m))) = WAIT) /\
  fst (checkCarrier (bs ++ [0]) m) = false /\
  cdCount (snd (checkCarrier (bs ++ [0]) m)) = 0.
Proof.
  intros H7 Hbs Hb Ht Hn.
  assert (E : rx_state (rx (checkCarrier_enter m)) = CARRIER /\
              rx_carrier (rx (checkCarrier_enter m)) = OFF /\
              cdCount (checkCarrier_enter m) = 0 /\
              cdTotal (checkCarrier_enter m) = cdTotal m).
  { unfold checkCarrier_enter. mnorm. apply Z.eqb_neq in H7. rewrite H7. msimpl.
    repeat apply conj; reflexivity. }
  destruct E as (E1 & E2 & E3 & E4).
  destruct (rxFeed_CARRIER_count bs (checkCarrier_enter m) E1 Hbs) as (F1 & F2 & F3 & F4);
    [lia|lia|lia|].
  rewrite E2 in F2. rewrite E3 in F3. rewrite E4 in F4. cbn [Z.add] in F3.
  assert (L : forall m1, rx_carrier (rx m1) = OFF ->
                fst (checkCarrier_leave m1) = false /\
                cdCount (snd (checkCarrier_leave m1)) = cdCount m1 /\
                rx_state (rx (snd (checkCarrier_leave m1))) = rx_state (rx m1)).
  { intros m1 C. unfold checkCarrier_leave. mnorm. rewrite C.
    change (OFF =? ON) with false. msimpl. rewrite C.
    repeat apply conj; reflexivity. }
  unfold checkCarrier. rewrite !rxFeed_app, !rxFeed_cons, !rxFeed_nil.
  remember (rxFeed bs (checkCarrier_enter m)) as m1 eqn:Em1.
  destruct (L m1 F2) as (L1 & L2 & _).
  split; [exact L1|]. split; [rewrite L2; exact F3|]. split.
  - intros Hc Hlt.
    destruct (rxDecoder_CARRIER_high b m1 F1 Hb) as (_ & _ & W & _).
    destruct W as (W1 & W2); [rewrite F3, F4, u16_small by lia; lia|].
    unfold checkCarrier_leave. mnorm. rewrite W2.
    change (ON =? ON) with true. msimpl. rewrite W2.
    split; [reflexivity|exact W1].
  - destruct (rxDecoder_CARRIER_low m1 F1) as (Z1 & Z2 & Z3).
    rewrite F2 in Z3. destruct (L _ Z3) as (L3 & L4 & _).
    split; [exact L3|]. rewrite L4. exact Z1.
Qed.

End CarrierFacts.

Section DialFacts.
Context {P : Platform}.

(** *** dial *)

Lemma put_list_contents xs : forall f,
  Fifo.wf f ->
  Fifo.wf (fold_left (fun g x => snd (Fifo.put x g)) xs f) /\
  Fifo.cap (fold_left (fun g x => snd (Fifo.put x g)) xs f) = Fifo.cap f /\
  Fifo.contents (fold_left (fun g x => snd (Fifo.put x g)) xs f) =
    Fifo.contents f ++ firstn (Fifo.cap f - Fifo.f_len f) xs.
Proof.
  induction xs as [|x xs IH]; intros f Hwf.
  - cbn [fold_left]. rewrite firstn_nil, app_nil_r. auto.
  - cbn [fold_left].
    pose proof (FifoFacts.wf_put x f Hwf) as W.
    assert (C : Fifo.cap (snd (Fifo.put x f)) = Fifo.cap f)
      by (apply (FifoFacts.cap_apply (Fifo.In x))).
    destruct (IH _ W) as (I1 & I2 & I3). rewrite I2, I3, C.
    split; [exact I1|]. split; [reflexivity|].
    pose proof (Fifo.wf_len _ Hwf) as Hl.
    destruct (Fifo.full f) eqn:F.
    + rewrite (FifoFacts.put_full x f F). cbn [snd].
      apply (FifoFacts.full_iff _ Hwf) in F.
      replace (Fifo.cap f - Fifo.f_len f)%nat with 0%nat by lia. reflexivity.
    + destruct (FifoFacts.put_contents x f Hwf F) as (_ & E).
      assert (Hn : Fifo.f_len f <> Fifo.cap f).
      { intros A. apply (FifoFacts.full_iff _ Hwf) in A. congruence. }
      assert (L : Fifo.f_len (snd (Fifo.put x f)) = S (Fifo.f_len f)).
      { rewrite <- (FifoFacts.length_contents (snd (Fifo.put x f))), E, length_app,
          FifoFacts.length_contents. cbn [length]. lia. }
      rewrite E, L, <- app_assoc. f_equal.
      replace (Fifo.cap f - Fifo.f_len f)%nat with (S (Fifo.cap f - S (Fifo.f_len f))) by lia.
      reflexivity.
Qed.

Lemma fold_txFIFO_in xs : forall m,
  fold_left (fun a c => snd (txFIFO_in c a)) xs m =
  set_txFIFO (fold_left (fun g x => snd (Fifo.put x g)) xs (txFIFO m)) m.
Proof.
  induction xs as [|x xs IH]; intros m; [reflexivity|].
  cbn [fold_left]. rewrite IH. unfold txFIFO_in. msimpl. reflexivity.
Qed.

Lemma fold_left_map {A B C} (f : A -> B -> A) (g : C -> B) xs : forall a,
  fold_left (fun a c => f a (g c)) xs a = fold_left f (map g xs) a.
Proof. induction xs as [|x xs IH]; intros a; [reflexivity|]. cbn. apply IH. Qed.

Lemma dialStart_eq (phone : list Z) (m : Modem) :
  exists c,
    dialStart phone m =
      set__dialing ON
        (set_txFIFO
           (fold_left (fun g x => snd (Fifo.put x g)) (44 :: map u8 phone ++ [44])
              (Fifo.clear (txFIFO m)))
           (set__commaCnt 0
              (set__commaMax (u32 (F_SAMPLE * sreg c 8))
                 (set_cfg c (setCarrier OFF m))))) /\
    c = (if 6 <? sreg (cfg m) 8
         then set_sregs (<[8%nat := 2]> (sregs (cfg m))) (cfg m) else cfg m).
Proof.
  eexists. split; [|reflexivity].
  unfold dialStart. cbv zeta.
  rewrite (fold_left_map (fun a c => snd (txFIFO_in c a)) u8).
  rewrite fold_txFIFO_in. unfold txFIFO_in, setCarrier.
  cbn [fold_left]. rewrite fold_left_app. cbn [fold_left].
  msimpl. case_if; msimpl; reflexivity.
Qed.

(** [dial] leaves in the TX queue a comma, the number and a comma, cut to
    the capacity of the queue (what does not fit is dropped, the closing
    comma first), drops the forced carrier and starts the dialler. *)
Theorem dialStart_queue (phone : list Z) (m : Modem) :
  Fifo.wf (txFIFO m) ->
  Fifo.contents (txFIFO (dialStart phone m)) =
    firstn (Fifo.cap (txFIFO m)) (44 :: map u8 phone ++ [44]) /\
  _dialing (dialStart phone m) = ON /\
  _commaCnt (dialStart phone m) = 0 /\
  tx_carrier (tx (dialStart phone m)) = OFF.
Proof.
  intros Hwf. destruct (dialStart_eq phone m) as (c & E & _). rewrite E.
  unfold setCarrier. msimpl.
  destruct (put_list_contents (44 :: map u8 phone ++ [44]) (Fifo.clear (txFIFO m))
              (FifoFacts.wf_clear _ Hwf)) as (_ & _ & C).
  split; [|repeat apply conj; reflexivity].
  etransitivity; [exact C|].
  rewrite FifoFacts.contents_clear. cbn [app Fifo.clear Fifo.f_len Fifo.cap Fifo.f_bits].
  rewrite Nat.sub_0_r. reflexivity.
Qed.

(** [dial] limits the comma pause: an S8 above 6 is replaced by 2, in the
    configuration itself, and the pause is S8 seconds of samples; the
    other S registers are left alone. *)
Theorem dialStart_comma (phone : list Z) (m : Modem) :
  sreg (cfg (dialStart phone m)) 8 =
    (if 6 <? sreg (cfg m) 8 then 2 else sreg (cfg m) 8) /\
  sreg (cfg (dialStart phone m)) 8 <= 6 /\
  _commaMax (dialStart phone m) = u32 (F_SAMPLE * sreg (cfg (dialStart phone m)) 8) /\
  (forall i, i <> 8%nat -> sreg (cfg (dialStart phone m)) i = sreg (cfg m) i).
Proof.
  destruct (dialStart_eq phone m) as (c & E & Ec). rewrite E. unfold setCarrier. msimpl.
  assert (A : sreg c 8 = (if 6 <? sreg (cfg m) 8 then 2 else sreg (cfg m) 8) /\
              forall i, i <> 8%nat -> sreg c i = sreg (cfg m) i).
  { subst c. destruct (Z.ltb_spec 6 (sreg (cfg m) 8)) as [H|H]; [|auto].
    unfold sreg in *. msimpl.
    assert (L : (8 < length (sregs (cfg m)))%nat).
    { destruct (Nat.lt_ge_cases 8 (length (sregs (cfg m)))) as [L|L]; [exact L|].
      rewrite nth_overflow in H by exact L. lia. }
    split.
    - rewrite nth_lookup, list_lookup_insert_eq by exact L. reflexivity.
    - intros i Hi. rewrite !nth_lookup, list_lookup_insert_ne by congruence. reflexivity. }
  destruct A as (A1 & A2).
  split; [exact A1|]. split; [|split; [reflexivity|exact A2]].
  rewrite A1. destruct (Z.ltb_spec 6 (sreg (cfg m) 8)); lia.
Qed.

(** *** The comma pause of the tone dialler *)

Lemma txDial_comma m :
  tx_emitting m = false -> _dialing m <> 0 -> dialChar m = 44 ->
  txHandle m =
    (if _commaMax m <=? _commaCnt m
     then set__commaCnt 0 (set_dialChar 0 m)
     else set__commaCnt (u32 (_commaCnt m + 1)) m).
Proof.
  intros He Hd Hc. unfold txHandle. rewrite He.
  apply Z.eqb_neq in Hd. rewrite Hd. cbn [negb].
  unfold txDial. rewrite Hc. change (44 =? 44) with true. msimpl.
  case_if; reflexivity.
Qed.

Lemma txRun_comma (n : nat) : forall m,
  tx_emitting m = false -> _dialing m <> 0 -> dialChar m = 44 ->
  0 <= _commaCnt m -> _commaCnt m + Z.of_nat n <= _commaMax m ->
  _commaMax m < 4294967296 ->
  txRun n m = set__commaCnt (_commaCnt m + Z.of_nat n) m.
Proof.
  induction n as [|n IH]; intros m He Hd Hc H0 Hn Hm.
  - cbn [Z.of_nat txRun Nat.iter]. rewrite Z.add_0_r. reflexivity.
  - rewrite txRun_S, (txDial_comma m He Hd Hc).
    replace (_commaMax m <=? _commaCnt m) with false by (symmetry; apply Z.leb_gt; lia).
    rewrite u32_small by lia.
    rewrite IH; [|exact He|exact Hd|exact Hc| |  |exact Hm].
    + msimpl. f_equal. lia.
    + mnorm. lia.
    + mnorm. lia.
Qed.

(** While the dial character is a comma the dialler only counts: the
    pause lasts [_commaMax + 1] samples, during which nothing is written
    to the DAC and nothing is taken from the queue; then the dial
    character and the counter are cleared. *)
Theorem dial_comma_pause (m : Modem) :
  tx_emitting m = false -> _dialing m <> 0 -> dialChar m = 44 ->
  _commaCnt m = 0 -> 0 <= _commaMax m < 4294967295 ->
  (forall n, Z.of_nat n <= _commaMax m ->
     txRun n m = set__commaCnt (Z.of_nat n) m) /\
  txRun (S (Z.to_nat (_commaMax m))) m = set_dialChar 0 m.
Proof.
  intros He Hd Hc H0 Hm.
  assert (A : forall n, Z.of_nat n <= _commaMax m ->
                txRun n m = set__commaCnt (Z.of_nat n) m).
  { intros n Hn. rewrite (txRun_comma n m He Hd Hc) by lia. rewrite H0. reflexivity. }
  split; [exact A|].
  replace (S (Z.to_nat (_commaMax m))) with (Z.to_nat (_commaMax m) + 1)%nat by lia.
  rewrite txRun_add, A by lia.
  change (txRun 1 ?x) with (txHandle x).
  rewrite txDial_comma; [|exact He|exact Hd|exact Hc].
  mnorm. rewrite Z2Nat.id by lia.
  match goal with |- context [?a <=? ?a] =>
    replace (a <=? a) with true by (symmetry; apply Z.leb_le; lia) end.
  rewrite <- H0. reflexivity.
Qed.

End DialFacts.

Section FrameFacts.
Context {P : Platform}.

(** *** Whole character frames *)

Lemma txFrames_add a : forall b m, txFrames (a + b) m = txFrames b (txFrames a m).
Proof.
  induction a as [|a IH]; intros b m; [reflexivity|].
  change (S a + b)%nat with (S (a + b)). rewrite !txFrames_S. apply IH.
Qed.

Lemma emits_nil m : emits 0 m [] m.
Proof. unfold emits. cbn. auto. Qed.

Lemma emits_app a b m s1 m1 s2 m2 :
  emits a m s1 m1 -> emits b m1 s2 m2 -> emits (a + b) m (s1 ++ s2) m2.
Proof.
  intros (A1 & A2 & A3) (B1 & B2 & B3). subst m1. unfold emits.
  rewrite frameSymbols_add, txFrames_add, A1, B1.
  split; [reflexivity|]. split; [|exact B3].
  apply framesEmit_add; assumption.
Qed.

Lemma emits_one m s dt d b q s' dt' d' b' q' :
  tx_at m s dt d b q -> tx_at (txFrameN m) s' dt' d' b' q' ->
  emits 1 m [dt'] (txFrameN m).
Proof.
  intros H H'. unfold emits. cbn [frameSymbols framesEmit txFrames Nat.iter].
  destruct H' as (_ & Hdt & _). rewrite Hdt.
  split; [reflexivity|]. split; [|reflexivity].
  split; [exact (tx_at_emitting _ _ _ _ _ _ H)|exact I].
Qed.

Lemma emits_same k m s m' : emits k m s m' -> tx_same m m'.
Proof. intros (_ & _ & <-). apply txFrames_same. Qed.

Lemma lsb_bits_S d x :
  lsb_bits (S d) x = Z.land x 1 :: lsb_bits d (Z.shiftr x 1).
Proof.
  unfold lsb_bits. cbn [seq map]. f_equal.
  rewrite <- seq_shift, map_map. apply map_ext_in. intros i _.
  rewrite Z.shiftr_shiftr by lia. f_equal. f_equal. lia.
Qed.

(** The data bits still to come, from DATA_BIT on the first of them. *)
Lemma data_run j : forall m dt dd b q,
  tx_at m DATA_BIT dt dd b q ->
  0 <= b -> b + Z.of_nat j < dtbits (cfgAFSK m) -> dtbits (cfgAFSK m) <= 256 ->
  exists dt',
    emits j m (lsb_bits j dd) (txFrames j m) /\
    tx_at (txFrames j m) DATA_BIT dt' (Z.shiftr dd (Z.of_nat j)) (b + Z.of_nat j) q.
Proof.
  induction j as [|j IH]; intros m dt dd b q H H0 Hlt Hmax.
  - exists dt. split; [apply emits_nil|].
    cbn [txFrames Nat.iter Z.of_nat]. rewrite Z.add_0_r. exact H.
  - assert (E : u8 (b + 1) = b + 1) by (apply u8_small; lia).
    pose proof (txFrame_DATA_next m dt dd b q H) as H1.
    rewrite E in H1. specialize (H1 ltac:(lia)).
    destruct (txFrameN_same m) as (_ & Sa & _).
    destruct (IH (txFrameN m) _ _ _ _ H1) as (dt' & I1 & I2);
      [lia|rewrite Sa; lia|rewrite Sa; lia|].
    exists dt'. rewrite txFrames_S, lsb_bits_S. split.
    + apply (emits_app 1 j m [Z.land dd 1] (txFrameN m)); [|exact I1].
      eapply emits_one; [exact H|exact H1].
    + rewrite Z.shiftr_shiftr in I2 by lia.
      replace (1 + Z.of_nat j) with (Z.of_nat (S j)) in I2 by lia.
      replace (b + Z.of_nat (S j)) with (b + 1 + Z.of_nat j) by lia. exact I2.
Qed.

(** One character, from START_BIT (the start bit is on the line): the
    data bits, least significant first, and the stop bit. *)
Lemma byte_frame m dt x b q (d : nat) :
  tx_at m START_BIT dt x b q ->
  dtbits (cfgAFSK m) = Z.of_nat d -> (1 <= d <= 8)%nat ->
  exists dd bb,
    emits (d + 1) m (lsb_bits d x ++ [MARK]) (txFrames (d + 1) m) /\
    tx_at (txFrames (d + 1) m) STOP_BIT MARK dd bb q.
Proof.
  intros H Hd Hr.
  destruct d as [|j]; [lia|].
  pose proof (txFrame_START m _ _ _ _ H) as H1.
  destruct (txFrameN_same m) as (_ & Sa & _).
  destruct (data_run j (txFrameN m) _ _ _ _ H1) as (dt' & I1 & I2);
    [lia|rewrite Sa; lia|rewrite Sa; lia|].
  rewrite <- txFrames_S in I1, I2.
  destruct (emits_same _ _ _ _ I1) as (_ & Sb & _).
  pose proof (txFrame_DATA_last _ _ _ _ _ I2) as H3.
  assert (E : u8 (0 + Z.of_nat j + 1) = Z.of_nat (S j)) by (rewrite u8_small; lia).
  rewrite E in H3. specialize (H3 ltac:(rewrite Sb, Sa; lia)).
  do 2 eexists.
  replace (S j + 1)%nat with (1 + j + 1)%nat by lia.
  rewrite (txFrames_add (1 + j) 1 m).
  change (txFrames 1 ?y) with (txFrameN y).
  split; [|exact H3].
  rewrite lsb_bits_S.
  apply (emits_app (1 + j) 1 m _ (txFrames (S j) m)).
  - apply (emits_app 1 j m [Z.land x 1] (txFrameN m)).
    + eapply emits_one; [exact H|exact H1].
    + exact I1.
  - eapply emits_one; [exact I2|exact H3].
Qed.

Lemma bytes_frames (d : nat) q : forall m dt x b,
  tx_at m START_BIT dt x b q ->
  dtbits (cfgAFSK m) = Z.of_nat d -> (1 <= d <= 8)%nat ->
  exists dd bb,
    emits (d + 1 + length q * (d + 2)) m
      (lsb_bits d x ++ [MARK] ++ concat (map (frame_of d) q))
      (txFrames (d + 1 + length q * (d + 2)) m) /\
    tx_at (txFrames (d + 1 + length q * (d + 2)) m) STOP_BIT MARK dd bb [].
Proof.
  induction q as [|y q IH]; intros m dt x b H Hd Hr.
  - destruct (byte_frame m dt x b [] d H Hd Hr) as (dd & bb & E & T).
    exists dd, bb. cbn [length map concat Nat.mul]. rewrite Nat.add_0_r, app_nil_r.
    split; assumption.
  - destruct (byte_frame m dt x b (y :: q) d H Hd Hr) as (dd & bb & E & T).
    pose proof (txFrame_STOP_next _ _ _ _ _ _ T) as H2.
    destruct (emits_same _ _ _ _ E) as (_ & Sa & _).
    destruct (txFrameN_same (txFrames (d + 1) m)) as (_ & Sb & _).
    destruct (IH _ _ _ _ H2) as (dd' & bb' & E' & T'); [rewrite Sb, Sa; exact Hd|exact Hr|].
    exists dd', bb'.
    replace (d + 1 + length (y :: q) * (d + 2))%nat
      with ((d + 1) + 1 + (d + 1 + length q * (d + 2)))%nat by (cbn [length]; lia).
    rewrite (txFrames_add (d + 1 + 1)), (txFrames_add (d + 1) 1).
    change (txFrames 1 ?z) with (txFrameN z).
    split; [|exact T'].
    cbn [map concat]. unfold frame_of at 1.
    replace (lsb_bits d x ++ [MARK] ++ (SPACE :: lsb_bits d (u8 y) ++ [MARK]) ++
             concat (map (frame_of d) q))
      with (((lsb_bits d x ++ [MARK]) ++ [SPACE]) ++
            (lsb_bits d (u8 y) ++ [MARK] ++ concat (map (frame_of d) q)))
      by (repeat first [rewrite <- !app_assoc | progress cbn [app]]; reflexivity).
    eapply emits_app; [|exact E'].
    eapply emits_app; [exact E|].
    eapply emits_one; [exact T|exact H2].
Qed.

Lemma frames_bytes (m : Modem) (x : Z) (q : list Z) (d : nat) (p : Z) :
  tx_at m WAIT (tx_dtbit (tx m)) (tx_data (tx m)) (tx_bits (tx m)) (x :: q) ->
  dtbits (cfgAFSK m) = Z.of_nat d -> (1 <= d <= 8)%nat ->
  carBits < 256 ->
  p = (if tx_carrier (tx m) =? ON then 1 else Z.max 1 carBits) ->
  exists dd bb m',
    emits (Z.to_nat p + length (x :: q) * (d + 2)) m
      (repeat MARK (Z.to_nat p) ++ concat (map (frame_of d) (x :: q))) m' /\
    tx_at m' STOP_BIT MARK dd bb [].
Proof.
  intros H0 Hd Hr Hcb Ep.
  set (j := Z.to_nat (p - 1)).
  assert (Hp : 1 <= p) by (rewrite Ep; destruct (tx_carrier (tx m) =? ON); lia).
  assert (Hcase : (tx_carrier (tx m) = ON /\ p = 1) \/
                  (tx_carrier (tx m) <> ON /\ p = Z.max 1 carBits)).
  { rewrite Ep. destruct (Z.eqb_spec (tx_carrier (tx m)) ON); [left|right]; split; trivial. }
  clear Ep.
  pose proof (txFrame_WAIT_byte m _ _ _ _ _ H0) as H1.
  set (m1 := txFrameN m) in *.
  destruct (txFrameN_same m) as (Sc1 & Sa1 & _). fold m1 in Sc1, Sa1.
  assert (R : frameSymbols j m1 = repeat MARK j /\ framesEmit j m1 /\
              tx_at (txFrames j m1) PREAMBLE MARK (u8 x) (Z.of_nat j) q).
  { destruct Hcase as [(Eon & Ep)|(Eon & Ep)].
    - replace j with 0%nat by (unfold j; lia).
      cbn [frameSymbols framesEmit repeat txFrames Nat.iter Z.of_nat].
      split; [reflexivity|]. split; [exact I|exact H1].
    - destruct (Z.eq_dec p 1) as [E1|E1].
      + replace j with 0%nat by (unfold j; lia).
        cbn [frameSymbols framesEmit repeat txFrames Nat.iter Z.of_nat].
        split; [reflexivity|]. split; [exact I|exact H1].
      + apply (preamble_run j m1 MARK (u8 x) 0 q H1);
          [rewrite Sc1; exact Eon|lia|unfold j; lia|lia]. }
  destruct R as (R1 & R2 & R3).
  set (m2 := txFrames j m1) in *.
  destruct (txFrames_same j m1) as (Sc2 & Sa2 & _). fold m2 in Sc2, Sa2.
  assert (Ex : carBits <= u8 (Z.of_nat j + 1) \/ tx_carrier (tx m2) = ON).
  { rewrite Sc2, Sc1.
    destruct Hcase as [(Eon & Ep)|(Eon & Ep)];
      [right; exact Eon|left; rewrite u8_small; unfold j; lia]. }
  pose proof (txFrame_PREAMBLE_exit m2 _ _ _ _ R3 Ex) as H3.
  set (m3 := txFrameN m2) in *.
  destruct (txFrameN_same m2) as (_ & Sa3 & _). fold m3 in Sa3.
  destruct (bytes_frames d q m3 _ _ _ H3) as (dd & bb & E & T);
    [rewrite Sa3, Sa2, Sa1; exact Hd|exact Hr|].
  exists dd, bb, (txFrames (d + 1 + length q * (d + 2)) m3).
  split; [|exact T].
  replace (Z.to_nat p + length (x :: q) * (d + 2))%nat
    with (1 + j + 1 + (d + 1 + length q * (d + 2)))%nat by (cbn [length]; unfold j; lia).
  replace (Z.to_nat p) with (1 + j)%nat by (unfold j; lia).
  cbn [map concat]. unfold frame_of at 1.
  replace (repeat MARK (1 + j) ++ (SPACE :: lsb_bits d (u8 x) ++ [MARK]) ++
           concat (map (frame_of d) q))
    with ((([MARK] ++ repeat MARK j) ++ [SPACE]) ++
          (lsb_bits d (u8 x) ++ [MARK] ++ concat (map (frame_of d) q)))
    by (repeat first [rewrite <- !app_assoc | progress cbn [app]]; reflexivity).
  eapply emits_app; [|exact E].
  eapply emits_app; [eapply emits_app|].
  - eapply emits_one; [exact H0|exact H1].
  - unfold emits. split; [exact R1|]. split; [exact R2|reflexivity].
  - fold m2. eapply emits_one; [exact R3|exact H3].
Qed.

(** [k] whole bit periods, sample by sample, are [k] runs of the framing. *)
Lemma txRun_periods k : forall m,
  tx_clk (tx m) = 0 ->
  0 <= fulBit m < 256 ->
  framesEmit k m ->
  tx_norm (txRun (k * S (Z.to_nat (fulBit m))) m) = tx_norm (txFrames k m).
Proof.
  induction k as [|k IH]; intros m Hc Hf He; [reflexivity|].
  destruct He as (He & Hn).
  cbn [Nat.mul]. rewrite txRun_add, txFrames_S.
  destruct (tx_period m He Hc Hf) as (R & _).
  assert (E : tx_norm (txRun (S (Z.to_nat (fulBit m))) m) = tx_norm (txFrameN m))
    by (rewrite R; reflexivity).
  rewrite (tx_norm_eq_run _ _ _ E).
  destruct (txFrame_keeps m) as (Ff & _ & Fc & _).
  replace (fulBit m) with (fulBit (txFrameN m)) by exact Ff.
  apply IH; [exact (Fc Hc)|change (fulBit (txFrameN m)) with (fulBit (txFrame m)); lia|exact Hn].
Qed.

(** The symbols of a whole transmission.  With transmission active, the
    modulator idle in WAIT at the start of a bit period and the bytes
    [x :: q] queued, the symbols chosen at the following bit-period
    boundaries are the preamble of MARKs and then, for each byte in queue
    order and with nothing in between, a SPACE start bit, the data bits
    least significant first and a MARK stop bit; the queue is then empty. *)
Theorem tx_frames_queue (m : Modem) (x : Z) (q : list Z) (d : nat) :
  tx_active (tx m) = ON ->
  tx_state (tx m) = WAIT ->
  tx_clk (tx m) = 0 ->
  Fifo.wf (txFIFO m) ->
  Fifo.contents (txFIFO m) = x :: q ->
  dtbits (cfgAFSK m) = Z.of_nat d -> (1 <= d <= 8)%nat ->
  carBits < 256 ->
  0 <= fulBit m < 256 ->
  let p := Z.to_nat (if tx_carrier (tx m) =? ON then 1 else Z.max 1 carBits) in
  let k := (p + length (x :: q) * (d + 2))%nat in
  txSymbols (k * S (Z.to_nat (fulBit m))) m =
    repeat MARK p ++ concat (map (frame_of d) (x :: q)) /\
  Fifo.contents (txFIFO (txRun (k * S (Z.to_nat (fulBit m))) m)) = [] /\
  tx_state (tx (txRun (k * S (Z.to_nat (fulBit m))) m)) = STOP_BIT.
Proof.
  intros Ha Hs Hc Hw Hq Hd Hr Hcb Hf p k.
  assert (H0 : tx_at m WAIT (tx_dtbit (tx m)) (tx_data (tx m)) (tx_bits (tx m)) (x :: q))
    by (unfold tx_at; repeat apply conj; trivial).
  destruct (frames_bytes m x q d _ H0 Hd Hr Hcb eq_refl) as (dd & bb & m' & E & T).
  fold p in E. fold k in E. destruct E as (E1 & E2 & E3).
  split; [rewrite tx_periods; [exact E1|exact Hc|exact Hf|exact E2]|].
  pose proof (txRun_periods k m Hc Hf E2) as N. rewrite E3 in N.
  destruct T as (Ts & _ & _ & _ & Tq & _).
  change (Fifo.contents (txFIFO (tx_norm (txRun (k * S (Z.to_nat (fulBit m))) m))) = [] /\
          tx_state (tx (tx_norm (txRun (k * S (Z.to_nat (fulBit m))) m))) = STOP_BIT).
  rewrite N. split; [exact Tq|exact Ts].
Qed.

End FrameFacts.

Section TxMore.
Context {P : Platform}.

(** *** The sample clock of the transmitter *)

(** A tick inside a bit period: the sample goes to the DAC, the phase
    index steps by the step of the symbol, the sample counter counts. *)
Lemma txHandle_inside_eq m :
  tx_emitting m = true -> tx_clk (tx m) < fulBit m -> 0 <= tx_clk (tx m) < 255 ->
  txHandle m =
    upd_tx (fun t => set_tx_clk (tx_clk (tx m) + 1)
                       (set_tx_idx (u16 (tx_idx (tx m) +
                          fsq_step (fsq m (fsqTX m)) (tx_dtbit (tx m)))) t))
      (DAC (wave_sample (tx_idx (tx m))) m).
Proof.
  intros He Hc H0. unfold txHandle. rewrite He. unfold DAC, fsq. mnorm.
  case_if; bool_hyps; [lia|]. rewrite u8_small by lia. reflexivity.
Qed.

Lemma txRun_inside_eq (k : nat) : forall m,
  tx_emitting m = true -> 0 <= tx_clk (tx m) ->
  tx_clk (tx m) + Z.of_nat k < fulBit m -> fulBit m < 256 ->
  0 <= tx_idx (tx m) < 65536 ->
  txRun (S k) m =
    upd_tx (fun t => set_tx_clk (tx_clk (tx m) + Z.of_nat (S k))
                       (set_tx_idx (u16 (tx_idx (tx m) + Z.of_nat (S k) *
                          fsq_step (fsq m (fsqTX m)) (tx_dtbit (tx m)))) t))
      (DAC (wave_sample (u16 (tx_idx (tx m) + Z.of_nat k *
                          fsq_step (fsq m (fsqTX m)) (tx_dtbit (tx m))))) m).
Proof.
  induction k as [|k IH]; intros m He H0 Hn Hf Hi.
  - change (txRun 1 m) with (txHandle m).
    rewrite (txHandle_inside_eq m He) by lia.
    change (Z.of_nat 0) with 0. change (Z.of_nat 1) with 1.
    rewrite Z.mul_0_l, Z.add_0_r, Z.mul_1_l, (u16_small (tx_idx (tx m))) by exact Hi.
    reflexivity.
  - rewrite txRun_S, (txHandle_inside_eq m He) by lia.
    set (s := fsq_step (fsq m (fsqTX m)) (tx_dtbit (tx m))).
    set (m1 := upd_tx _ _).
    assert (A : tx_emitting m1 = true) by exact He.
    assert (B : tx_clk (tx m1) = tx_clk (tx m) + 1) by reflexivity.
    assert (C : tx_idx (tx m1) = u16 (tx_idx (tx m) + s)) by reflexivity.
    assert (D : fsq_step (fsq m1 (fsqTX m1)) (tx_dtbit (tx m1)) = s) by reflexivity.
    assert (F : fulBit m1 = fulBit m) by reflexivity.
    rewrite IH; [|exact A|rewrite B; lia|rewrite B, F; lia|rewrite F; lia
                 |rewrite C; apply Z.mod_pos_bound; lia].
    rewrite D, B, C, !u16_add_l.
    replace (tx_idx (tx m) + s + Z.of_nat (S k) * s)
      with (tx_idx (tx m) + Z.of_nat (S (S k)) * s) by lia.
    replace (tx_idx (tx m) + s + Z.of_nat k * s)
      with (tx_idx (tx m) + Z.of_nat (S k) * s) by lia.
    replace (tx_clk (tx m) + 1 + Z.of_nat (S k))
      with (tx_clk (tx m) + Z.of_nat (S (S k))) by lia.
    reflexivity.
Qed.

(** Inside a bit period the modulator is a phase accumulator: after [k]
    further samples the 16-bit phase index has advanced by [k] steps of the
    symbol on the line, each sample written to the DAC is the oscillator's
    sample at the phase reached, and the symbol, the framing state and
    the queue stay as they are. *)
Theorem tx_phase_accumulates (m : Modem) (k : nat) :
  tx_emitting m = true -> 0 <= tx_clk (tx m) ->
  tx_clk (tx m) + Z.of_nat k < fulBit m -> fulBit m < 256 ->
  0 <= tx_idx (tx m) < 65536 ->
  tx_idx (tx (txRun (S k) m)) =
    (tx_idx (tx m) + Z.of_nat (S k) *
       fsq_step (fsq m (fsqTX m)) (tx_dtbit (tx m))) mod 65536 /\
  OCR2 (txRun (S k) m) =
    (wave_sample ((tx_idx (tx m) + Z.of_nat k *
       fsq_step (fsq m (fsqTX m)) (tx_dtbit (tx m))) mod 65536)) mod 256 /\
  tx_dtbit (tx (txRun (S k) m)) = tx_dtbit (tx m) /\
  tx_state (tx (txRun (S k) m)) = tx_state (tx m) /\
  txFIFO (txRun (S k) m) = txFIFO m.
Proof.
  intros He H0 Hn Hf Hi. rewrite (txRun_inside_eq k m He H0 Hn Hf Hi).
  unfold DAC. msimpl. repeat apply conj; reflexivity.
Qed.

End TxMore.

Section TrailFacts.
Context {P : Platform}.

(** The modulator works in bit periods of [fulBit + 1] samples: started
    with the sample counter at zero, it runs the framing switch on the
    sample after [fulBit] samples, not before, and starts the next period
    with the counter at zero. *)
Theorem tx_bit_period (m : Modem) :
  tx_emitting m = true -> tx_clk (tx m) = 0 -> 0 <= fulBit m < 256 ->
  (forall n, Z.of_nat n <= fulBit m ->
     txSymbols n m = [] /\ tx_state (tx (txRun n m)) = tx_state (tx m) /\
     tx_dtbit (tx (txRun n m)) = tx_dtbit (tx m)) /\
  txSymbols (S (Z.to_nat (fulBit m))) m = [tx_dtbit (tx (txFrame m))] /\
  tx_state (tx (txRun (S (Z.to_nat (fulBit m))) m)) = tx_state (tx (txFrame m)) /\
  tx_clk (tx (txRun (S (Z.to_nat (fulBit m))) m)) = 0.
Proof.
  intros He Hc Hf. split.
  - intros n Hn. destruct (txRun_inside n m He) as (R & S0); [lia|lia|lia|].
    split; [exact S0|].
    change (tx_state (tx (tx_norm (txRun n m))) = tx_state (tx m) /\
            tx_dtbit (tx (tx_norm (txRun n m))) = tx_dtbit (tx m)).
    rewrite R. split; reflexivity.
  - destruct (tx_period m He Hc Hf) as (R & S1).
    destruct (txFrame_keeps m) as (_ & _ & Fc & _).
    split; [exact S1|].
    change (tx_state (tx (tx_norm (txRun (S (Z.to_nat (fulBit m))) m))) =
              tx_state (tx (txFrame m)) /\
            tx_clk (tx (tx_norm (txRun (S (Z.to_nat (fulBit m))) m))) = 0).
    rewrite R. split; [reflexivity|exact (Fc Hc)].
Qed.

(** *** The trail *)


Lemma txFrame_TRAIL_end m dt d b q :
  tx_at m TRAIL dt d b q ->
  carBits < u8 (b + 1) ->
  tx_active (tx (txFrameN m)) = OFF /\ tx_state (tx (txFrameN m)) = WAIT /\
  tx_dtbit (tx (txFrameN m)) = dt /\ txFIFO (txFrameN m) = txFIFO m /\
  PORTB (txFrameN m) = port_clr (PORTB m) PORTB1 /\
  tx_carrier (tx (txFrameN m)) = tx_carrier (tx m) /\
  _dialing (txFrameN m) = _dialing m.
Proof.
  intros (Hs & Hdt & Hd & Hb & Hq & Hw & Ha & Hc) Hlt.
  apply Z.ltb_lt in Hlt.
  frame_open. rewrite Hs, Hb, Hlt. frame_close.
Qed.

Lemma txFrame_TRAIL_resume m dt d b x q :
  tx_at m TRAIL dt d b (x :: q) ->
  u8 (b + 1) <= carBits ->
  u8 (b + 1) <> carBits \/ tx_carrier (tx m) <> OFF ->
  tx_at (txFrameN m) START_BIT SPACE (u8 x) (u8 (b + 1)) q.
Proof.
  intros (Hs & Hdt & Hd & Hb & Hq & Hw & Ha & Hc) Hle Hn.
  destruct (FifoFacts.get_cons _ _ _ Hw Hq) as (G1 & G2).
  assert (E : Fifo.empty (txFIFO m) = false)
    by (apply FifoFacts.empty_false_contents; congruence).
  pose proof (FifoFacts.wf_get _ Hw) as Hw'.
  apply Z.ltb_ge in Hle.
  assert (F : (u8 (b + 1) =? carBits) && (tx_carrier (tx m) =? OFF) = false).
  { apply andb_false_iff. destruct Hn as [H|H]; [left|right]; apply Z.eqb_neq, H. }
  frame_open. rewrite Hs, Hb, Hle, F, E, G1. frame_close.
Qed.

Lemma txFrame_TRAIL_last m dt d b q :
  tx_at m TRAIL dt d b q ->
  u8 (b + 1) = carBits -> tx_carrier (tx m) = OFF ->
  tx_at (txFrameN m) TRAIL MARK d (u8 (b + 1)) q.
Proof.
  intros (Hs & Hdt & Hd & Hb & Hq & Hw & Ha & Hc) He Hcar.
  assert (L : (carBits <? u8 (b + 1)) = false) by (apply Z.ltb_ge; lia).
  apply Z.eqb_eq in He. apply Z.eqb_eq in Hcar.
  frame_open. rewrite Hs, Hb, L, He, Hcar. frame_close.
Qed.






(** A byte that is queued while the trail is being sent.  Before the last
    trail period it is taken at the next boundary and sent from its start
    bit, with no new preamble.  At the boundary that makes the bit count
    equal to [carBits] with no forced carrier, and at the one that ends the
    trail, the queue is not looked at: the byte stays queued, and the
    modulator switches itself off with the byte still in the queue. *)
Theorem tx_trail_new_data (m : Modem) (dt d b x : Z) (q : list Z) :
  tx_at m TRAIL dt d b (x :: q) ->
  (u8 (b + 1) <= carBits ->
   u8 (b + 1) <> carBits \/ tx_carrier (tx m) <> OFF ->
     tx_state (tx (txFrame m)) = START_BIT /\
     tx_dtbit (tx (txFrame m)) = SPACE /\
     tx_data (tx (txFrame m)) = u8 x /\
     Fifo.contents (txFIFO (txFrame m)) = q) /\
  (u8 (b + 1) = carBits -> tx_carrier (tx m) = OFF ->
     tx_state (tx (txFrame m)) = TRAIL /\
     tx_active (tx (txFrame m)) = ON /\
     Fifo.contents (txFIFO (txFrame m)) = x :: q) /\
  (carBits < u8 (b + 1) ->
     tx_state (tx (txFrame m)) = WAIT /\
     tx_active (tx (txFrame m)) = OFF /\
     Fifo.contents (txFIFO (txFrame m)) = x :: q).
Proof.
  intros H. split; [|split].
  - intros Hle Hn.
    destruct (txFrame_TRAIL_resume m dt d b x q H Hle Hn) as (A & B & C & _ & D & _).
    repeat apply conj; [exact A|exact B|exact C|exact D].
  - intros He Hc.
    destruct (txFrame_TRAIL_last m dt d b (x :: q) H He Hc) as (A & _ & _ & _ & D & _ & E & _).
    repeat apply conj; [exact A|exact E|exact D].
  - intros Hlt.
    destruct (txFrame_TRAIL_end m dt d b (x :: q) H Hlt) as (A & B & _ & C & _).
    destruct H as (_ & _ & _ & _ & Hq & _).
    repeat apply conj; [exact B|exact A|].
    change (Fifo.contents (txFIFO (txFrameN m)) = x :: q). rewrite C. exact Hq.
Qed.

End TrailFacts.

Section RxMore.
Context {P : Platform}.

(** *** The decoder: edge detection *)

Lemma land3_bits x :
  Z.land x 3 = 2 <-> Z.testbit x 0 = false /\ Z.testbit x 1 = true.
Proof.
  change 3 with (Z.ones 2). rewrite Z.land_ones by lia.
  change (2 ^ 2) with (2 * 2). rewrite Z.rem_mul_r by lia.
  replace (Z.testbit x 1) with (Z.testbit (x / 2) 0)
    by (rewrite <- Z.div2_div, Z.div2_spec, Z.shiftr_spec by lia; reflexivity).
  rewrite !Z.bit0_odd, !Zmod_odd.
  destruct (Z.odd x), (Z.odd (x / 2)); split; intros H; try lia;
    destruct H; discriminate.
Qed.

Lemma stream_bit0 s bt :
  is_bit bt -> Z.testbit (Z.lor (u8 (Z.shiftl s 1)) bt) 0 = (bt =? 1).
Proof.
  intros Hb. unfold u8. change 256 with (2 ^ 8).
  rewrite Z.lor_spec, Z.mod_pow2_bits_low, Z.shiftl_spec_low, orb_false_l by lia.
  destruct Hb; subst; reflexivity.
Qed.

Lemma stream_bit1 s bt :
  is_bit bt -> Z.testbit (Z.lor (u8 (Z.shiftl s 1)) bt) 1 = Z.testbit s 0.
Proof.
  intros Hb. unfold u8. change 256 with (2 ^ 8).
  rewrite Z.lor_spec, Z.mod_pow2_bits_low, Z.shiftl_spec by lia.
  change (1 - 1) with 0.
  destruct Hb; subst; cbn [Z.testbit]; apply orb_false_r.
Qed.

Lemma rxDecoder_stream bt m :
  rx_stream (rx (rxDecoder bt m)) = Z.lor (u8 (Z.shiftl (rx_stream (rx m)) 1)) bt.
Proof.
  unfold rxDecoder, rxFIFO_in. msimpl. mcases; reflexivity.
Qed.

Lemma rxDecoder_WAIT bt m :
  rx_state (rx m) = WAIT ->
  rx_state (rx (rxDecoder bt m)) =
    (if Z.land (Z.lor (u8 (Z.shiftl (rx_stream (rx m)) 1)) bt) 3 =? 2
     then PREAMBLE else WAIT) /\
  (rx_state (rx (rxDecoder bt m)) = PREAMBLE ->
     rx_clk (rx (rxDecoder bt m)) = 0 /\ rx_bitsum (rx (rxDecoder bt m)) = 0) /\
  rxFIFO (rxDecoder bt m) = rxFIFO m /\ PORTB (rxDecoder bt m) = PORTB m.
Proof.
  intros Hs. unfold rxDecoder. mnorm. rewrite Hs.
  case_if; msimpl; repeat apply conj; try reflexivity; intros; try discriminate;
    split; reflexivity.
Qed.

(** In WAIT the decoder suspects a start bit exactly on a LOW sample that
    follows a HIGH sample, whatever came before; it then starts counting
    from zero.  Any other pair of samples leaves it in WAIT. *)
Theorem rx_wait_edge (b1 b2 : Z) (m : Modem) :
  is_bit b1 -> is_bit b2 ->
  rx_state (rx (rxDecoder b1 m)) = WAIT ->
  (rx_state (rx (rxDecoder b2 (rxDecoder b1 m))) = PREAMBLE <-> b1 = 1 /\ b2 = 0) /\
  (rx_state (rx (rxDecoder b2 (rxDecoder b1 m))) = WAIT <-> ~ (b1 = 1 /\ b2 = 0)) /\
  (b1 = 1 -> b2 = 0 ->
     rx_clk (rx (rxDecoder b2 (rxDecoder b1 m))) = 0 /\
     rx_bitsum (rx (rxDecoder b2 (rxDecoder b1 m))) = 0) /\
  rxFIFO (rxDecoder b2 (rxDecoder b1 m)) = rxFIFO (rxDecoder b1 m).
Proof.
  intros H1 H2 Hs.
  destruct (rxDecoder_WAIT b2 (rxDecoder b1 m) Hs) as (S & R & Q & _).
  rewrite rxDecoder_stream in S.
  assert (E : (Z.land (Z.lor (u8 (Z.shiftl
                 (Z.lor (u8 (Z.shiftl (rx_stream (rx m)) 1)) b1) 1)) b2) 3 =? 2) =
              (b1 =? 1) && (b2 =? 0)).
  { apply eq_true_iff_eq. rewrite Z.eqb_eq, land3_bits, andb_true_iff, !Z.eqb_eq.
    rewrite (stream_bit0 _ b2 H2), (stream_bit1 _ b2 H2), (stream_bit0 _ b1 H1).
    rewrite Z.eqb_eq, Z.eqb_neq.
    destruct H2; subst; lia. }
  rewrite E in S.
  destruct (Z.eqb_spec b1 1) as [A|A], (Z.eqb_spec b2 0) as [B|B];
    cbn [andb] in S; rewrite S in *;
    (split; [split; [intros; first [discriminate|tauto]|intros; first [reflexivity|lia]]|]);
    (split; [split; [intros; first [discriminate|tauto]|intros; first [reflexivity|tauto]]|]);
    (split; [|exact Q]); intros; first [lia|apply R; reflexivity].
Qed.

End RxMore.

Section RxWindows.
Context {P : Platform}.

(** *** The decoder: the start bit, the data bits, a whole character *)

Lemma rxDecoder_PREAMBLE_pass bt m :
  rx_state (rx m) = PREAMBLE ->
  hlfBit m <= u8 (rx_clk (rx m) + 1) ->
  u8 (rx_bitsum (rx m) + bt) <= octBit m ->
  rx_state (rx (rxDecoder bt m)) = START_BIT /\
  rx_clk (rx (rxDecoder bt m)) = u8 (rx_clk (rx m) + 1) /\
  rx_bitsum (rx (rxDecoder bt m)) = u8 (rx_bitsum (rx m) + bt) /\
  rxFIFO (rxDecoder bt m) = rxFIFO m.
Proof.
  intros Hs Hc Hb. unfold rxDecoder. mnorm. rewrite Hs.
  case_if; bool_hyps; [|lia]. case_if; bool_hyps; [lia|].
  msimpl. repeat apply conj; reflexivity.
Qed.

Lemma rxDecoder_START_decide bt m :
  rx_state (rx m) = START_BIT ->
  fulBit m <= u8 (rx_clk (rx m) + 1) ->
  (qrtBit m < u8 (rx_bitsum (rx m) + bt) ->
     rx_state (rx (rxDecoder bt m)) = WAIT) /\
  (u8 (rx_bitsum (rx m) + bt) <= qrtBit m ->
     rx_state (rx (rxDecoder bt m)) = DATA_BIT /\
     rx_data (rx (rxDecoder bt m)) = 0 /\ rx_clk (rx (rxDecoder bt m)) = 0 /\
     rx_bitsum (rx (rxDecoder bt m)) = 0 /\ rx_bits (rx (rxDecoder bt m)) = 0) /\
  rxFIFO (rxDecoder bt m) = rxFIFO m.
Proof.
  intros Hs Hc. unfold rxDecoder. mnorm. rewrite Hs.
  case_if; bool_hyps; [|lia]. case_if; bool_hyps; msimpl;
    (split; [intros; first [reflexivity|lia]|]);
    (split; [intros; first [lia|repeat apply conj; reflexivity]|reflexivity]).
Qed.

Lemma rxDecoder_DATA_decide bt m :
  rx_state (rx m) = DATA_BIT ->
  fulBit m <= u8 (rx_clk (rx m) + 1) ->
  rx_data (rx (rxDecoder bt m)) =
    Z.lor (Z.shiftr (rx_data (rx m)) 1)
          (if hlfBit m <? u8 (rx_bitsum (rx m) + bt) then 128 else 0) /\
  rx_bits (rx (rxDecoder bt m)) = u8 (rx_bits (rx m) + 1) /\
  rx_bitsum (rx (rxDecoder bt m)) = 0 /\
  (u8 (rx_bits (rx m) + 1) < dtbits (cfgAFSK m) ->
     rx_state (rx (rxDecoder bt m)) = DATA_BIT /\ rx_clk (rx (rxDecoder bt m)) = 0) /\
  (dtbits (cfgAFSK m) <= u8 (rx_bits (rx m) + 1) ->
     rx_state (rx (rxDecoder bt m)) = STOP_BIT /\
     rx_clk (rx (rxDecoder bt m)) = hlfBit m) /\
  rxFIFO (rxDecoder bt m) = rxFIFO m.
Proof.
  intros Hs Hc. unfold rxDecoder. mnorm. rewrite Hs.
  case_if; bool_hyps; [|lia].
  case_if; bool_hyps; msimpl;
    (split; [reflexivity|]); (split; [reflexivity|]); (split; [reflexivity|]);
    (split; [intros; first [lia|split; reflexivity]|]);
    (split; [intros; first [lia|split; reflexivity]|reflexivity]).
Qed.

(** A window of a timed state: every sample but the last is only counted. *)
Lemma rxFeed_window bs b m :
  rx_timed (rx_state (rx m)) ->
  Forall is_bit (bs ++ [b]) ->
  0 <= rx_bitsum (rx m) <= rx_clk (rx m) ->
  rx_clk (rx m) + Z.of_nat (length (bs ++ [b])) = fulBit m ->
  fulBit m < 256 ->
  rxFeed (bs ++ [b]) m = rxDecoder b (rxFeed bs m) /\
  rx_state (rx (rxFeed bs m)) = rx_state (rx m) /\
  fulBit (rxFeed bs m) <= u8 (rx_clk (rx (rxFeed bs m)) + 1) /\
  u8 (rx_bitsum (rx (rxFeed bs m)) + b) = rx_bitsum (rx m) + highs (bs ++ [b]) /\
  rx_data (rx (rxFeed bs m)) = rx_data (rx m) /\
  rx_bits (rx (rxFeed bs m)) = rx_bits (rx m) /\
  rxFIFO (rxFeed bs m) = rxFIFO m.
Proof.
  intros Ht Hb Hr Hlen Hf.
  rewrite length_app in Hlen. cbn [length] in Hlen.
  apply Forall_app in Hb. destruct Hb as (Hb1 & Hb2).
  inversion Hb2 as [|? ? Hbit _]; subst.
  destruct (rxFeed_timed_count bs m Ht Hb1) as (S1 & C1 & B1 & D1 & N1 & Q1); try lia.
  pose proof (highs_bounds bs Hb1) as Hhs.
  destruct (rxFeed_frame bs m) as (Ff & _).
  rewrite rxFeed_app, rxFeed_cons, rxFeed_nil.
  split; [reflexivity|]. split; [exact S1|].
  rewrite Ff, C1, B1, highs_app, highs_cons. cbn [highs fold_right].
  split; [rewrite u8_small; lia|].
  split; [rewrite u8_small by (destruct Hbit; subst; lia); lia|].
  split; [exact D1|]. split; [exact N1|exact Q1].
Qed.

Lemma nonempty_snoc {A} (l : list A) :
  (0 < length l)%nat -> exists l' x, l = l' ++ [x].
Proof.
  intros H. apply list_snoc_inv. intros ->. cbn in H. lia.
Qed.

(** One data bit, from the first sample of its window. *)
Lemma rxFeed_DATA_window bs m :
  timing_ok m -> 1 <= fulBit m ->
  rx_state (rx m) = DATA_BIT ->
  rx_clk (rx m) = 0 -> rx_bitsum (rx m) = 0 ->
  0 <= rx_bits (rx m) < 255 ->
  Forall is_bit bs -> Z.of_nat (length bs) = fulBit m ->
  rx_data (rx (rxFeed bs m)) =
    Z.lor (Z.shiftr (rx_data (rx m)) 1) (if hlfBit m <? highs bs then 128 else 0) /\
  rx_bits (rx (rxFeed bs m)) = rx_bits (rx m) + 1 /\
  rx_bitsum (rx (rxFeed bs m)) = 0 /\
  (rx_bits (rx m) + 1 < dtbits (cfgAFSK m) ->
     rx_state (rx (rxFeed bs m)) = DATA_BIT /\ rx_clk (rx (rxFeed bs m)) = 0) /\
  (dtbits (cfgAFSK m) <= rx_bits (rx m) + 1 ->
     rx_state (rx (rxFeed bs m)) = STOP_BIT /\
     rx_clk (rx (rxFeed bs m)) = hlfBit m) /\
  rxFIFO (rxFeed bs m) = rxFIFO m.
Proof.
  intros T H1 Hs Hc Hb Hn Hbits Hlen.
  destruct T as (Tf & _).
  destruct (nonempty_snoc bs) as (bs' & b & ->); [lia|].
  assert (Ht : rx_timed (rx_state (rx m))) by (rewrite Hs; right; left; reflexivity).
  destruct (rxFeed_window bs' b m Ht Hbits) as (E & S1 & C1 & B1 & D1 & N1 & Q1);
    [lia|lia|lia|].
  rewrite Hs in S1. rewrite E.
  destruct (rxDecoder_DATA_decide b (rxFeed bs' m) S1 C1) as (A1 & A2 & A3 & A4 & A5 & A6).
  destruct (rxFeed_frame bs' m) as (_ & Fh & _ & _ & Fa & _).
  rewrite Fh, B1, D1, Hb, Z.add_0_l in A1.
  rewrite N1, u8_small in A2, A4, A5 by lia.
  rewrite Fa in A4, A5. rewrite Fh in A5. rewrite Q1 in A6.
  split; [exact A1|split; [exact A2|split; [exact A3|split; [exact A4|split; [exact A5|exact A6]]]]].
Qed.

Lemma vote_half f h :
  0 <= f -> (f / 2 <? h) = (f <? 2 * h).
Proof.
  intros Hf.
  destruct (Z.ltb_spec (f / 2) h) as [L|L], (Z.ltb_spec f (2 * h)) as [L'|L'];
    try reflexivity; exfalso.
  - apply div_lt_iff in L; lia.
  - rewrite <- Z.nlt_ge, (div_lt_iff _ 2) in L by lia. lia.
Qed.

(** In DATA_BIT the decoder takes a majority vote over one bit period of
    samples: the bit is a one exactly when more than half of them are
    HIGH; it is shifted in at bit 7, the register moving right; after the
    last data bit the decoder goes to STOP_BIT with its sample counter at
    half a bit period.  The RX queue is not touched. *)
Theorem rx_data_bit (m : Modem) (bs : list Z) :
  timing_ok m -> 1 <= fulBit m ->
  rx_state (rx m) = DATA_BIT ->
  rx_clk (rx m) = 0 -> rx_bitsum (rx m) = 0 ->
  0 <= rx_bits (rx m) < 255 ->
  Forall is_bit bs -> Z.of_nat (length bs) = fulBit m ->
  rx_data (rx (rxFeed bs m)) =
    Z.lor (Z.shiftr (rx_data (rx m)) 1) (if fulBit m <? 2 * highs bs then 128 else 0) /\
  rx_bits (rx (rxFeed bs m)) = rx_bits (rx m) + 1 /\
  rx_bitsum (rx (rxFeed bs m)) = 0 /\
  (rx_bits (rx m) + 1 < dtbits (cfgAFSK m) ->
     rx_state (rx (rxFeed bs m)) = DATA_BIT /\ rx_clk (rx (rxFeed bs m)) = 0) /\
  (dtbits (cfgAFSK m) <= rx_bits (rx m) + 1 ->
     rx_state (rx (rxFeed bs m)) = STOP_BIT /\
     rx_clk (rx (rxFeed bs m)) = hlfBit m) /\
  rxFIFO (rxFeed bs m) = rxFIFO m.
Proof.
  intros T H1 Hs Hc Hb Hn Hbits Hlen.
  destruct (timing_values m T) as (Eh & _ & _).
  pose proof T as (Tf & _).
  destruct (rxFeed_DATA_window bs m T H1 Hs Hc Hb Hn Hbits Hlen)
    as (A1 & A2 & A3 & A4 & A5 & A6).
  rewrite Eh, vote_half in A1 by lia.
  repeat apply conj; assumption.
Qed.

(** The start bit is checked twice over one running count.  From the
    edge, the HIGH samples of the first half bit period must not exceed an
    eighth of a bit period; the count is kept, and at the end of the bit
    period the HIGH samples of the whole period must not exceed a quarter
    of it.  Then the decoder starts the data bits with a clear register;
    otherwise it returns to WAIT.  Nothing is put into the RX queue. *)
Theorem rx_start_bit (m : Modem) (bs1 bs2 : list Z) :
  timing_ok m -> 2 <= fulBit m ->
  rx_state (rx m) = PREAMBLE -> rx_clk (rx m) = 0 -> rx_bitsum (rx m) = 0 ->
  Forall is_bit bs1 -> Forall is_bit bs2 ->
  Z.of_nat (length bs1) = hlfBit m ->
  Z.of_nat (length bs2) = fulBit m - hlfBit m ->
  8 * highs bs1 <= fulBit m ->
  (4 * (highs bs1 + highs bs2) <= fulBit m ->
     rx_state (rx (rxFeed (bs1 ++ bs2) m)) = DATA_BIT /\
     rx_data (rx (rxFeed (bs1 ++ bs2) m)) = 0 /\
     rx_clk (rx (rxFeed (bs1 ++ bs2) m)) = 0 /\
     rx_bitsum (rx (rxFeed (bs1 ++ bs2) m)) = 0 /\
     rx_bits (rx (rxFeed (bs1 ++ bs2) m)) = 0) /\
  (fulBit m < 4 * (highs bs1 + highs bs2) ->
     rx_state (rx (rxFeed (bs1 ++ bs2) m)) = WAIT) /\
  rxFIFO (rxFeed (bs1 ++ bs2) m) = rxFIFO m.
Proof.
  intros T H2 Hs Hc Hb Hb1 Hb2 Hl1 Hl2 Hoct.
  destruct (timing_values m T) as (Eh & Eq & Eo).
  destruct T as (Tf & _).
  assert (Hh : 1 <= hlfBit m < fulBit m).
  { rewrite Eh. split; [apply Z.div_le_lower_bound; lia|apply Z.div_lt_upper_bound; lia]. }
  destruct (nonempty_snoc bs1) as (p1 & b1 & ->); [lia|].
  destruct (nonempty_snoc bs2) as (p2 & b2 & ->); [lia|].
  pose proof (highs_bounds _ Hb1) as Hh1.
  pose proof Hb1 as Hb1'. apply Forall_app in Hb1'. destruct Hb1' as (Hp1 & Hx1).
  inversion Hx1 as [|? ? Hbit1 _]; subst.
  rewrite length_app in Hl1, Hh1. cbn [length] in Hl1, Hh1.
  pose proof (highs_bounds _ Hp1) as Hhp.
  destruct (rxFeed_PREAMBLE_count p1 m Hs Hp1) as (S1 & C1 & B1 & Q1); try lia.
  destruct (rxFeed_frame p1 m) as (Ff1 & Fh1 & Fq1 & Fo1 & _).
  rewrite Hc, Z.add_0_l in C1. rewrite Hb, Z.add_0_l in B1.
  assert (E1 : u8 (rx_bitsum (rx (rxFeed p1 m)) + b1) = highs (p1 ++ [b1])).
  { rewrite B1, highs_app, highs_cons. cbn [highs fold_right].
    rewrite u8_small by (destruct Hbit1; subst; lia). lia. }
  destruct (rxDecoder_PREAMBLE_pass b1 (rxFeed p1 m) S1) as (S2 & C2 & B2 & Q2).
  { rewrite Fh1, C1, u8_small; lia. }
  { rewrite E1, Fo1, Eo. apply Z.div_le_lower_bound; lia. }
  rewrite C1, u8_small in C2 by lia. rewrite E1 in B2.
  set (m1 := rxDecoder b1 (rxFeed p1 m)) in *.
  assert (Em1 : rxFeed (p1 ++ [b1]) m = m1)
    by (rewrite rxFeed_app, rxFeed_cons, rxFeed_nil; reflexivity).
  destruct (rxDecoder_frame b1 (rxFeed p1 m)) as (Ff2 & _ & Fq2 & _).
  fold m1 in Ff2, Fq2.
  assert (Ht : rx_timed (rx_state (rx m1))) by (rewrite S2; left; reflexivity).
  destruct (rxFeed_window p2 b2 m1 Ht Hb2) as (E & S3 & C3 & B3 & _ & _ & Q3).
  { rewrite B2, C2. lia. }
  { rewrite C2, Ff2, Ff1. lia. }
  { rewrite Ff2, Ff1. lia. }
  rewrite S2 in S3. rewrite B2 in B3.
  destruct (rxDecoder_START_decide b2 (rxFeed p2 m1) S3 C3) as (D1 & D2 & D3).
  destruct (rxFeed_frame p2 m1) as (_ & _ & Fq3 & _).
  rewrite B3, Fq3, Fq2, Fq1, Eq in D1, D2.
  rewrite rxFeed_app, Em1, E.
  split; [|split].
  - intros Hle. apply D2. apply Z.div_le_lower_bound; lia.
  - intros Hgt. apply D1. apply div_lt_iff; lia.
  - rewrite D3, Q3, Q2, Q1. reflexivity.
Qed.

(** *** The receive shift register *)

Lemma rx_shift_cons a v vs :
  rx_shift a (v :: vs) = rx_shift (Z.lor (Z.shiftr a 1) (if v then 128 else 0)) vs.
Proof. reflexivity. Qed.

Lemma rx_shift_app a vs ws : rx_shift a (vs ++ ws) = rx_shift (rx_shift a vs) ws.
Proof. unfold rx_shift. apply fold_left_app. Qed.

Lemma lor_bit7 a (v : bool) :
  0 <= a < 256 ->
  Z.lor (Z.shiftr a 1) (if v then 128 else 0) = a / 2 + (if v then 128 else 0) /\
  0 <= a / 2 + (if v then 128 else 0) < 256.
Proof.
  intros Ha. rewrite Z.shiftr_div_pow2 by lia. change (2 ^ 1) with 2.
  assert (Hq : 0 <= a / 2 < 128)
    by (split; [apply Z.div_pos; lia|apply Z.div_lt_upper_bound; lia]).
  destruct v; [|rewrite Z.lor_0_r; lia].
  split; [|lia].
  rewrite <- Z.add_nocarry_lor; [reflexivity|].
  apply Z.bits_inj'. intros k Hk. rewrite Z.land_spec, Z.bits_0.
  destruct (Z.eq_dec k 7) as [->|Hk7].
  - replace (Z.testbit (a / 2) 7) with false; [reflexivity|].
    symmetry. destruct (Z.eq_dec (a / 2) 0) as [->|Hz]; [apply Z.bits_0|].
    apply Z.bits_above_log2; [lia|]. apply Z.log2_lt_pow2; lia.
  - change 128 with (2 ^ 7). rewrite Z.pow2_bits_eqb by lia.
    replace (7 =? k) with false by (symmetry; apply Z.eqb_neq; lia).
    apply andb_false_r.
Qed.

(** Shifting in the first [d] bits of [x], least significant first, leaves
    them at the top of the register. *)
Lemma rx_shift_lsb (d : nat) : forall a x,
  (d <= 8)%nat -> 0 <= a < 256 ->
  rx_shift a (map (fun s => s =? 1) (lsb_bits d x)) =
    a / 2 ^ Z.of_nat d + (x mod 2 ^ Z.of_nat d) * 2 ^ (8 - Z.of_nat d).
Proof.
  induction d as [|d IH]; intros a x Hd Ha.
  - cbn [lsb_bits seq map rx_shift fold_left Z.of_nat].
    change (2 ^ 0) with 1. rewrite Z.div_1_r, Z.mod_1_r. lia.
  - rewrite lsb_bits_S. cbn [map]. rewrite rx_shift_cons.
    destruct (lor_bit7 a (Z.land x 1 =? 1) Ha) as (E & R). rewrite E.
    rewrite IH by (lia || exact R).
    rewrite Z.shiftr_div_pow2 by lia. change (2 ^ 1) with 2.
    replace (Z.of_nat (S d)) with (Z.of_nat d + 1) by lia.
    rewrite Z.pow_add_r by lia. change (2 ^ 1) with 2.
    set (e := 2 ^ Z.of_nat d).
    assert (He : 0 < e) by (apply Z.pow_pos_nonneg; lia).
    assert (Eb : (if Z.land x 1 =? 1 then 128 else 0) = (x mod 2) * (2 ^ (7 - Z.of_nat d) * e)).
    { unfold e. rewrite <- Z.pow_add_r by lia.
      replace (7 - Z.of_nat d + Z.of_nat d) with 7 by lia.
      change (Z.land x 1) with (Z.land x (Z.ones 1)). rewrite Z.land_ones by lia.
      change (2 ^ 1) with 2. pose proof (Z.mod_pos_bound x 2 ltac:(lia)).
      destruct (Z.eqb_spec (x mod 2) 1) as [->|N]; [reflexivity|].
      replace (x mod 2) with 0 by lia. reflexivity. }
    rewrite Eb, Z.mul_assoc, Z.div_add by lia.
    rewrite Z.div_div by lia. rewrite (Z.mul_comm 2 e).
    rewrite (Z.mul_comm e 2), Z.rem_mul_r by lia.
    replace (8 - Z.of_nat d) with (1 + (7 - Z.of_nat d)) by lia.
    rewrite Z.pow_add_r by lia. change (2 ^ 1) with 2.
    replace (8 - (Z.of_nat d + 1)) with (7 - Z.of_nat d) by lia.
    rewrite (Z.mul_comm 2 e). ring.
Qed.

Lemma highs_repeat s n : highs (repeat s n) = s * Z.of_nat n.
Proof.
  induction n as [|n IH]; [cbn; lia|].
  cbn [repeat]. rewrite highs_cons, IH. lia.
Qed.

Lemma is_bit_repeat s n : is_bit s -> Forall is_bit (repeat s n).
Proof. intros H. induction n as [|n IH]; cbn [repeat]; constructor; assumption. Qed.

(** The data bits of a character on a clean line, from the first sample
    of the first of them. *)
Lemma rxFeed_data_bits ss : forall m,
  timing_ok m -> 1 <= fulBit m ->
  rx_state (rx m) = DATA_BIT ->
  rx_clk (rx m) = 0 -> rx_bitsum (rx m) = 0 ->
  0 <= rx_bits (rx m) ->
  ss <> [] -> Forall is_bit ss ->
  rx_bits (rx m) + Z.of_nat (length ss) = dtbits (cfgAFSK m) ->
  dtbits (cfgAFSK m) <= 8 ->
  rx_state (rx (rxFeed (bit_samples (Z.to_nat (fulBit m)) ss) m)) = STOP_BIT /\
  rx_clk (rx (rxFeed (bit_samples (Z.to_nat (fulBit m)) ss) m)) = hlfBit m /\
  rx_bitsum (rx (rxFeed (bit_samples (Z.to_nat (fulBit m)) ss) m)) = 0 /\
  rx_data (rx (rxFeed (bit_samples (Z.to_nat (fulBit m)) ss) m)) =
    rx_shift (rx_data (rx m)) (map (fun s => s =? 1) ss) /\
  rxFIFO (rxFeed (bit_samples (Z.to_nat (fulBit m)) ss) m) = rxFIFO m.
Proof.
  induction ss as [|s ss IH]; intros m T H1 Hs Hc Hb Hn Hne Hbits Hlen Hd; [congruence|].
  inversion Hbits as [|? ? Hbit Hrest]; subst.
  cbn [length] in Hlen.
  unfold bit_samples. cbn [flat_map]. fold (bit_samples (Z.to_nat (fulBit m)) ss).
  rewrite rxFeed_app.
  destruct (rxFeed_DATA_window (repeat s (Z.to_nat (fulBit m))) m T H1 Hs Hc Hb)
    as (A1 & A2 & A3 & A4 & A5 & A6);
    [lia|apply is_bit_repeat; exact Hbit|rewrite repeat_length; lia|].
  rewrite highs_repeat, Z2Nat.id in A1 by lia.
  assert (Ev : (hlfBit m <? s * fulBit m) = (s =? 1)).
  { destruct (timing_values m T) as (Eh & _ & _). destruct T as (Tf & _).
    rewrite Eh, vote_half by lia.
    destruct Hbit; subst; [apply Z.ltb_ge|apply Z.ltb_lt]; lia. }
  rewrite Ev in A1.
  set (m1 := rxFeed (repeat s (Z.to_nat (fulBit m))) m) in *.
  destruct (rxFeed_frame (repeat s (Z.to_nat (fulBit m))) m) as (Ff & Fh & _ & _ & Fa & _).
  fold m1 in Ff, Fh, Fa.
  cbn [map]. rewrite rx_shift_cons, <- A1.
  destruct ss as [|s' ss].
  - cbn [bit_samples flat_map map]. rewrite rxFeed_nil. cbn [rx_shift fold_left].
    cbn [length] in Hlen. destruct A5 as (S & C); [lia|].
    repeat apply conj; [exact S|exact C|exact A3|reflexivity|exact A6].
  - cbn [length] in Hlen. destruct A4 as (S & C); [lia|].
    assert (T1 : timing_ok m1)
      by (apply (timing_frame m); [apply rxFeed_frame|exact T]).
    rewrite <- Ff, <- Fh.
    destruct (IH m1 T1) as (I1 & I2 & I3 & I4 & I5);
      [rewrite Ff; exact H1|exact S|exact C|exact A3|rewrite A2; lia|discriminate
      |exact Hrest|rewrite A2, Fa; cbn [length]; lia|rewrite Fa; exact Hd|].
    rewrite I5. repeat apply conj; [exact I1|exact I2|exact I3|exact I4|exact A6].
Qed.

(** A whole character on a clean line.  From the first sample of the
    first data bit, [d] data bits of [x] sent least significant first, one
    bit period of samples each, and the stop bit: the decoder puts one
    byte into the RX queue and returns to WAIT.  The byte holds the [d]
    bits at its top: it is [x] itself for eight data bits, and [x] moved
    up by [8 - d] places for fewer. *)
Theorem rx_decodes_character (m : Modem) (x : Z) (d : nat) :
  timing_ok m -> 1 <= fulBit m ->
  rx_state (rx m) = DATA_BIT ->
  rx_clk (rx m) = 0 -> rx_bitsum (rx m) = 0 ->
  rx_bits (rx m) = 0 -> rx_data (rx m) = 0 ->
  dtbits (cfgAFSK m) = Z.of_nat d -> (1 <= d <= 8)%nat ->
  let samples := bit_samples (Z.to_nat (fulBit m)) (lsb_bits d x) ++
                 repeat MARK (Z.to_nat (fulBit m - hlfBit m)) in
  rx_state (rx (rxFeed samples m)) = WAIT /\
  rxFIFO (rxFeed samples m) =
    snd (Fifo.put ((x mod 2 ^ Z.of_nat d) * 2 ^ (8 - Z.of_nat d)) (rxFIFO m)).
Proof.
  intros T H1 Hs Hc Hb Hn Hdat Hd Hr samples. unfold samples. clear samples.
  destruct (timing_values m T) as (Eh & Eq & Eo).
  pose proof T as (Tf & _).
  assert (Hbits : Forall is_bit (lsb_bits d x)).
  { unfold lsb_bits. apply Forall_forall. intros s Hin.
    apply list_elem_of_In, in_map_iff in Hin. destruct Hin as (i & <- & _).
    change 1 with (Z.ones 1). rewrite Z.land_ones by lia. change (2 ^ 1) with 2.
    pose proof (Z.mod_pos_bound (Z.shiftr x (Z.of_nat i)) 2 ltac:(lia)).
    unfold is_bit. lia. }
  assert (Hlen : length (lsb_bits d x) = d)
    by (unfold lsb_bits; rewrite length_map, length_seq; reflexivity).
  destruct (rxFeed_data_bits (lsb_bits d x) m T H1 Hs Hc Hb) as (S & C & B & D & Q);
    [lia|intros E; rewrite E in Hlen; cbn in Hlen; lia|exact Hbits
    |rewrite Hn, Hlen; lia|lia|].
  rewrite Hdat, rx_shift_lsb in D by lia.
  rewrite Z.div_0_l, Z.add_0_l in D by (apply Z.pow_nonzero; lia).
  rewrite rxFeed_app.
  set (m1 := rxFeed (bit_samples (Z.to_nat (fulBit m)) (lsb_bits d x)) m) in *.
  destruct (rxFeed_frame (bit_samples (Z.to_nat (fulBit m)) (lsb_bits d x)) m)
    as (Ff & Fh & Fq & _).
  fold m1 in Ff, Fh, Fq.
  assert (Hh : 0 <= hlfBit m < fulBit m).
  { rewrite Eh. split; [apply Z.div_pos; lia|apply Z.div_lt_upper_bound; lia]. }
  destruct (nonempty_snoc (repeat MARK (Z.to_nat (fulBit m - hlfBit m))))
    as (p & b & Ep); [rewrite repeat_length; lia|].
  assert (Hm : Forall is_bit (repeat MARK (Z.to_nat (fulBit m - hlfBit m))))
    by (apply is_bit_repeat; right; reflexivity).
  assert (Hhi : highs (repeat MARK (Z.to_nat (fulBit m - hlfBit m))) = fulBit m - hlfBit m)
    by (rewrite highs_repeat, Z2Nat.id by lia; unfold MARK; lia).
  assert (Hl : Z.of_nat (length (repeat MARK (Z.to_nat (fulBit m - hlfBit m)))) =
               fulBit m - hlfBit m) by (rewrite repeat_length; lia).
  rewrite Ep in *.
  assert (Ht : rx_timed (rx_state (rx m1))) by (rewrite S; right; right; reflexivity).
  destruct (rxFeed_window p b m1 Ht Hm) as (E & S3 & C3 & B3 & D3 & _ & Q3);
    [rewrite B, C; lia|rewrite C, Ff; lia|rewrite Ff; lia|].
  rewrite S in S3.
  destruct (rxDecoder_STOP_decide b (rxFeed p m1) S3 C3) as (W & F).
  destruct (rxFeed_frame p m1) as (_ & _ & Fq3 & _).
  rewrite E, W. split; [reflexivity|].
  rewrite F, B3, B, Z.add_0_l, Hhi, Fq3, Fq, Eq, D3, D, Q3, Q.
  replace (fulBit m / 4 <? fulBit m - hlfBit m) with true; [reflexivity|].
  symmetry. apply Z.ltb_lt. apply Z.div_lt_upper_bound; [lia|].
  rewrite Eh. pose proof (Z.mul_div_le (fulBit m) 2 ltac:(lia)). lia.
Qed.

End RxWindows.

Section BridgeMore.
Context {P : Platform}.

(** *** The serial bridge: taking and delivering bytes *)

Lemma port_set1_bit1 p : Z.testbit (port_set p PORTB1) 1 = true.
Proof.
  unfold port_set, u8. change 256 with (2 ^ 8).
  rewrite Z.mod_pow2_bits_low, Z.lor_spec by lia.
  change (Z.testbit (_BV PORTB1) 1) with true. apply orb_true_r.
Qed.

Lemma not_full f :
  Fifo.len f < Z.of_nat (Fifo.cap f) -> Fifo.full f = false.
Proof.
  unfold Fifo.len, Fifo.full. intros H. apply Nat.leb_gt. lia.
Qed.

(** The first data-mode block when it takes a byte. *)
Lemma sioAccept_take m c l :
  serial_in m = c :: l ->
  Fifo.wf (txFIFO m) -> Fifo.len (txFIFO m) < Z.of_nat (Fifo.cap (txFIFO m)) ->
  Fifo.len (txFIFO m) < 48 ->
  Fifo.len (txFIFO m) < 32 \/ flowControl m = false ->
  serial_in (sioAccept true m) = l /\
  Fifo.contents (txFIFO (sioAccept true m)) = Fifo.contents (txFIFO m) ++ [u8 c] /\
  lstChar (sioAccept true m) = now m /\
  tx_active (tx (sioAccept true m)) = ON /\
  Z.testbit (PORTB (sioAccept true m)) 1 = true /\
  serial_out (sioAccept true m) =
    serial_out m ++ (if dtecho (cfg m) =? 0 then [] else [u8 c]) /\
  flowControl (sioAccept true m) = flowControl m /\
  rxFIFO (sioAccept true m) = rxFIFO m.
Proof.
  intros Hsi Hwf Hcap H48 Hmed.
  destruct fifo_thresholds as (E16 & E32 & E48).
  pose proof (not_full _ Hcap) as Hnf.
  destruct (FifoFacts.put_contents (u8 c) _ Hwf Hnf) as (Ok & Ct).
  assert (Hb : (Fifo.len (txFIFO m) <? 32) || negb (flowControl m) = true).
  { apply orb_true_iff. destruct Hmed as [H|H]; [left; apply Z.ltb_lt, H|right; rewrite H; reflexivity]. }
  apply Z.ltb_lt in H48.
  unfold sioAccept, txFIFO_in, Serial_read, Serial_write, Serial_peek.
  mnorm. rewrite E32, E48, H48, Hb, Hsi. cbn [andb tl]. msimpl.
  rewrite Ok. msimpl.
  case_bool; msimpl; rewrite ?app_nil_r;
    repeat apply conj; first [reflexivity|exact Ct|apply port_set1_bit1].
Qed.

(** The first data-mode block when it leaves the byte on the transport. *)
Lemma sioAccept_leave a m :
  48 <= Fifo.len (txFIFO m) \/ (32 <= Fifo.len (txFIFO m) /\ flowControl m = true) ->
  serial_in (sioAccept a m) = serial_in m /\ txFIFO (sioAccept a m) = txFIFO m.
Proof.
  intros H.
  destruct fifo_thresholds as (E16 & E32 & E48).
  unfold sioAccept, sioSignal, txFIFO_in, Serial_read, Serial_write, Serial_peek.
  mnorm. rewrite E32, E48.
  destruct H as [H|(H1 & H2)]; [|rewrite H2];
    repeat (case_cmp; try lia); cbn [negb andb orb]; rewrite ?andb_false_r;
    repeat (case_bool; msimpl); split; reflexivity.
Qed.

Lemma sioData_rest m :
  serial_in (sioDrain (sioRelease m)) = serial_in m /\
  txFIFO (sioDrain (sioRelease m)) = txFIFO m /\
  lstChar (sioDrain (sioRelease m)) = lstChar m /\
  tx (sioDrain (sioRelease m)) = tx m /\
  PORTB (sioDrain (sioRelease m)) = PORTB m.
Proof.
  destruct (sioRelease_changes m) as (so & x & fc & R).
  destruct (sioDrain_changes (sioRelease m)) as (q & so' & ->).
  rewrite R. mnorm. repeat apply conj; reflexivity.
Qed.

Lemma sioEscape_quiet a m :
  escCount m <> 3 ->
  serial_in (sioEscape a m) = serial_in m /\
  serial_out (sioEscape a m) = serial_out m /\
  _mode (sioEscape a m) = _mode m.
Proof.
  intros H3. unfold sioEscape. rewrite (sioGuard_off a m H3).
  destruct (sioCount_changes a m) as (c & f & l & ->). repeat apply conj; reflexivity.
Qed.

(** In data mode, with no escape sequence waiting for its guard silence,
    a run takes the byte at the head of the transport exactly when the TX
    queue holds fewer than 48 bytes and, under backpressure, fewer than
    32.  A byte taken is never lost: it goes to the end of the TX queue,
    the escape character like any other, the time is stamped and
    transmission is switched on with the TX led; a byte not taken stays
    at the head of the transport. *)
Theorem doSIO_takes_byte (t c : Z) (l : list Z) (m : Modem) :
  _mode m = DATA_MODE -> escCount m <> 3 ->
  serial_in m = c :: l ->
  Fifo.wf (txFIFO m) -> 48 <= Z.of_nat (Fifo.cap (txFIFO m)) ->
  (Fifo.len (txFIFO m) < 48 ->
   Fifo.len (txFIFO m) < 32 \/ flowControl m = false ->
     serial_in (snd (doSIO t m)) = l /\
     Fifo.contents (txFIFO (snd (doSIO t m))) = Fifo.contents (txFIFO m) ++ [u8 c] /\
     lstChar (snd (doSIO t m)) = u32 t /\
     tx_active (tx (snd (doSIO t m))) = ON /\
     Z.testbit (PORTB (snd (doSIO t m))) 1 = true) /\
  (48 <= Fifo.len (txFIFO m) \/
   (32 <= Fifo.len (txFIFO m) /\ flowControl m = true) ->
     serial_in (snd (doSIO t m)) = c :: l /\
     txFIFO (snd (doSIO t m)) = txFIFO m).
Proof.
  intros Hmd H3 Hsi Hwf Hcap.
  rewrite doSIO_unfold.
  assert (Ea : Serial_available m = true)
    by (unfold Serial_available; rewrite Hsi; reflexivity).
  rewrite Ea.
  set (m0 := set_now (u32 t) m).
  destruct (sioEscape_quiet true m0 H3) as (Q1 & _ & Q3).
  destruct (sioEscape_frame true m0) as (Fq & _ & _ & Ff & _ & Fn & _).
  change (_mode m0) with (_mode m) in Q3. rewrite Hmd in Q3. rewrite Q3. cbn [snd].
  set (m1 := sioEscape true m0) in *.
  change (serial_in m0) with (serial_in m) in Q1.
  change (txFIFO m0) with (txFIFO m) in Fq.
  change (flowControl m0) with (flowControl m) in Ff.
  change (now m0) with (u32 t) in Fn.
  unfold sioData.
  destruct (sioData_rest (sioAccept true m1)) as (R1 & R2 & R3 & R4 & R5).
  rewrite R1, R2, R3, R4, R5. split.
  - intros H48 Hmed.
    destruct (sioAccept_take m1 c l) as (A1 & A2 & A3 & A4 & A5 & _);
      [rewrite Q1; exact Hsi|rewrite Fq; exact Hwf|rewrite Fq; lia|rewrite Fq; exact H48
      |rewrite Fq, Ff; exact Hmed|].
    rewrite Fq in A2. rewrite Fn in A3.
    repeat apply conj; assumption.
  - intros H.
    destruct (sioAccept_leave true m1) as (A1 & A2); [rewrite Fq, Ff; exact H|].
    rewrite A1, A2, Q1, Fq. split; [exact Hsi|reflexivity].
Qed.




End BridgeMore.

Section IdealLine.
Context {P : Platform}.

Lemma ideal_line_S n m : ideal_line (S n) m = ideal_line n (ideal_tick m).
Proof. unfold ideal_line. rewrite Nat.iter_succ_r. reflexivity. Qed.

Lemma ideal_line_add a : forall b m,
  ideal_line (a + b) m = ideal_line b (ideal_line a m).
Proof.
  induction a as [|a IH]; intros b m; [reflexivity|].
  change (S a + b)%nat with (S (a + b)). rewrite !ideal_line_S. apply IH.
Qed.

Lemma ideal_line_silent k : forall m,
  tx_emitting m = false -> _dialing m = 0 -> ideal_line k m = m.
Proof.
  induction k as [|k IH]; intros m He Hd; [reflexivity|].
  rewrite ideal_line_S.
  assert (E : ideal_tick m = m).
  { unfold ideal_tick, txHandle. rewrite He, Hd. reflexivity. }
  rewrite E. apply IH; assumption.
Qed.

End IdealLine.

Lemma ideal_bytes_ok :
  forallb ideal_byte_ok (map Z.of_nat (seq 0 256)) = true.
Proof. vm_compute. reflexivity. Qed.


Lemma ideal_byte_in (b : Z) : 0 <= b < 256 -> ideal_byte_ok b = true.
Proof.
  intros Hb.
  pose proof ideal_bytes_ok as A. rewrite forallb_forall in A. apply A.
  apply in_map_iff. exists (Z.to_nat b). split; [lia|]. apply in_seq. lia.
Qed.

Lemma ideal_byte_unfold (b : Z) :
  ideal_byte_ok b =
  match Fifo.contents (rxFIFO (ideal_line 700 (sending [b] 8))) with
  | [] => b <? 128
  | [x] => (x =? b) && (128 <=? b)
  | _ => false
  end && negb (tx_emitting (ideal_line 700 (sending [b] 8))) &&
  (_dialing (ideal_line 700 (sending [b] 8)) =? 0).
Proof. unfold ideal_byte_ok. reflexivity. Qed.

Lemma ideal_byte_facts (b : Z) (l : list Z) (e : bool) (d : Z) :
  match l with
  | [] => b <? 128
  | [x] => (x =? b) && (128 <=? b)
  | _ => false
  end && negb e && (d =? 0) = true ->
  l = (if 128 <=? b then [b] else []) /\ e = false /\ d = 0.
Proof.
  intros H.
  apply andb_true_iff in H. destruct H as (H & Hd).
  apply andb_true_iff in H. destruct H as (H & He).
  apply negb_true_iff in He. apply Z.eqb_eq in Hd.
  split; [|split; assumption].
  destruct l as [|x [|y r]];
    [|apply andb_true_iff in H; destruct H as (H1 & H2); apply Z.eqb_eq in H1; subst x|discriminate].
  - apply Z.ltb_lt in H. replace (128 <=? b) with false by (symmetry; apply Z.leb_gt; lia).
    reflexivity.
  - rewrite H2. reflexivity.
Qed.

(** The two sample clocks together.  On an ideal line (the decoder is
    handed, tick by tick, the symbol the modulator is sending), at 9600
    samples per second, 300 baud, eight data bits and a preamble of four
    bits, a queued byte reaches the RX queue exactly when its bit 7 is
    set; a byte with bit 7 clear is discarded at the stop-bit check.  (The
    modulator's bit period is 33 samples, the decoder's 32, so the
    stop-bit window takes half its samples from data bit 7.) *)
Theorem ideal_line_bit7 (b : Z) (k : nat) :
  0 <= b < 256 ->
  Fifo.contents (rxFIFO (ideal_line (700 + k) (sending [b] 8))) =
    (if 128 <=? b then [b] else []).
Proof.
  intros Hb.
  pose proof (ideal_byte_in b Hb) as H. rewrite ideal_byte_unfold in H.
  apply ideal_byte_facts in H. destruct H as (H1 & H2 & H3).
  rewrite ideal_line_add, (ideal_line_silent k _ H2 H3). exact H1.
Qed.

(** ** The further facts on concrete inputs *)

Ltac witness_hyp :=
  first [ reflexivity
        | apply FifoFacts.wfb_wf; reflexivity
        | apply is_bit_list; reflexivity
        | unfold tx_at; repeat apply conj;
          first [reflexivity | apply FifoFacts.wfb_wf; reflexivity]
        | lia
        | left; reflexivity
        | right; reflexivity
        | repeat constructor; discriminate
        | solve [concrete] ].

Lemma initHW_ramp_ends_witness :
  (0 <= wave_sample 0 < 255) /\
  (rampDAC (Z.to_nat (wave_sample 0) + 2) 0 blank = Some (DAC (wave_sample 0) blank) /\ OCR2 (DAC (wave_sample 0) blank) = wave_sample 0).
Proof.
  assert (h1 : 0 <= wave_sample 0 < 255) by witness_hyp.
  exact (conj h1 (initHW_ramp_ends blank h1)).
Defined.

Lemma setDirection_queues_witness :
  (Fifo.wf (dyFIFO blank)) /\
  (Fifo.contents (txFIFO (setDirection ORIGINATING OFF blank)) = [] /\ Fifo.contents (rxFIFO (setDirection ORIGINATING OFF blank)) = [] /\ Fifo.contents (dyFIFO (setDirection ORIGINATING OFF blank)) = repeat (u8 bias) (Nat.min (Z.to_nat (queuelen (fsq blank (fsqRX (setDirection ORIGINATING OFF blank))))) (Fifo.cap (dyFIFO blank)))).
Proof.
  assert (h1 : Fifo.wf (dyFIFO blank)) by witness_hyp.
  exact (conj h1 (setDirection_queues ORIGINATING OFF blank h1)).
Defined.

Lemma doSIO_command_mode_witness :
  (_mode (modem0 8 0) = COMMAND_MODE) /\
  (fst (doSIO 0 (modem0 8 0)) = false /\ txFIFO (snd (doSIO 0 (modem0 8 0))) = txFIFO (modem0 8 0) /\ rxFIFO (snd (doSIO 0 (modem0 8 0))) = rxFIFO (modem0 8 0) /\ tx (snd (doSIO 0 (modem0 8 0))) = tx (modem0 8 0) /\ flowControl (snd (doSIO 0 (modem0 8 0))) = flowControl (modem0 8 0) /\ (escCount (modem0 8 0) <> 3 -> serial_in (snd (doSIO 0 (modem0 8 0))) = serial_in (modem0 8 0) /\ serial_out (snd (doSIO 0 (modem0 8 0))) = serial_out (modem0 8 0))).
Proof.
  assert (h1 : _mode (modem0 8 0) = COMMAND_MODE) by witness_hyp.
  exact (conj h1 (doSIO_command_mode 0 (modem0 8 0) h1)).
Defined.

Lemma checkCarrier_no_wait_witness :
  (sreg (cfg c_nowait) 7 = 0) /\
  (fst (checkCarrier [] c_nowait) = true /\ rx_carrier (rx (snd (checkCarrier [] c_nowait))) = ON /\ rx_state (rx (snd (checkCarrier [] c_nowait))) = rx_state (rx c_nowait) /\ cdCount (snd (checkCarrier [] c_nowait)) = cdCount c_nowait).
Proof.
  assert (h1 : sreg (cfg c_nowait) 7 = 0) by witness_hyp.
  exact (conj h1 (checkCarrier_no_wait c_nowait h1)).
Defined.

Lemma checkCarrier_counts_witness :
  (sreg (cfg (online0 8 0)) 7 <> 0) /\
  (Forall (fun x => x <> 0) [1; 1; 1]) /\
  (1 <> 0) /\
  (0 <= cdTotal (online0 8 0) <= 65536) /\
  (Z.of_nat (length [1; 1; 1]) < cdTotal (online0 8 0)) /\
  (fst (checkCarrier [1; 1; 1] (online0 8 0)) = false /\ cdCount (snd (checkCarrier [1; 1; 1] (online0 8 0))) = Z.of_nat (length [1; 1; 1]) /\ (cdTotal (online0 8 0) = Z.of_nat (length [1; 1; 1]) + 1 -> cdTotal (online0 8 0) < 65536 -> fst (checkCarrier ([1; 1; 1] ++ [1]) (online0 8 0)) = true /\ rx_state (rx (snd (checkCarrier ([1; 1; 1] ++ [1]) (online0 8 0)))) = WAIT) /\ fst (checkCarrier ([1; 1; 1] ++ [0]) (online0 8 0)) = false /\ cdCount (snd (checkCarrier ([1; 1; 1] ++ [0]) (online0 8 0))) = 0).
Proof.
  assert (h1 : sreg (cfg (online0 8 0)) 7 <> 0) by witness_hyp.
  assert (h2 : Forall (fun x => x <> 0) [1; 1; 1]) by witness_hyp.
  assert (h3 : 1 <> 0) by witness_hyp.
  assert (h4 : 0 <= cdTotal (online0 8 0) <= 65536) by witness_hyp.
  assert (h5 : Z.of_nat (length [1; 1; 1]) < cdTotal (online0 8 0)) by witness_hyp.
  exact (conj h1 (conj h2 (conj h3 (conj h4 (conj h5 (checkCarrier_counts [1; 1; 1] 1 (online0 8 0) h1 h2 h3 h4 h5)))))).
Defined.

Lemma dialStart_queue_witness :
  (Fifo.wf (txFIFO (online0 8 0))) /\
  (Fifo.contents (txFIFO (dialStart [53; 53; 53] (online0 8 0))) = firstn (Fifo.cap (txFIFO (online0 8 0))) (44 :: map u8 [53; 53; 53] ++ [44]) /\ _dialing (dialStart [53; 53; 53] (online0 8 0)) = ON /\ _commaCnt (dialStart [53; 53; 53] (online0 8 0)) = 0 /\ tx_carrier (tx (dialStart [53; 53; 53] (online0 8 0))) = OFF).
Proof.
  assert (h1 : Fifo.wf (txFIFO (online0 8 0))) by witness_hyp.
  exact (conj h1 (dialStart_queue [53; 53; 53] (online0 8 0) h1)).
Defined.

Lemma dial_comma_pause_witness :
  (tx_emitting c_dialing = false) /\
  (_dialing c_dialing <> 0) /\
  (dialChar c_dialing = 44) /\
  (_commaCnt c_dialing = 0) /\
  (0 <= _commaMax c_dialing < 4294967295) /\
  ((forall n, Z.of_nat n <= _commaMax c_dialing -> txRun n c_dialing = set__commaCnt (Z.of_nat n) c_dialing) /\ txRun (S (Z.to_nat (_commaMax c_dialing))) c_dialing = set_dialChar 0 c_dialing).
Proof.
  assert (h1 : tx_emitting c_dialing = false) by witness_hyp.
  assert (h2 : _dialing c_dialing <> 0) by witness_hyp.
  assert (h3 : dialChar c_dialing = 44) by witness_hyp.
  assert (h4 : _commaCnt c_dialing = 0) by witness_hyp.
  assert (h5 : 0 <= _commaMax c_dialing < 4294967295) by witness_hyp.
  exact (conj h1 (conj h2 (conj h3 (conj h4 (conj h5 (dial_comma_pause c_dialing h1 h2 h3 h4 h5)))))).
Defined.

Lemma tx_frames_queue_witness :
  (tx_active (tx (sending [65; 66] 8)) = ON) /\
  (tx_state (tx (sending [65; 66] 8)) = WAIT) /\
  (tx_clk (tx (sending [65; 66] 8)) = 0) /\
  (Fifo.wf (txFIFO (sending [65; 66] 8))) /\
  (Fifo.contents (txFIFO (sending [65; 66] 8)) = 65 :: [66]) /\
  (dtbits (cfgAFSK (sending [65; 66] 8)) = Z.of_nat 8%nat) /\
  ((1 <= 8%nat <= 8)%nat) /\
  (carBits < 256) /\
  (0 <= fulBit (sending [65; 66] 8) < 256) /\
  (let p := Z.to_nat (if tx_carrier (tx (sending [65; 66] 8)) =? ON then 1 else Z.max 1 carBits) in let k := (p + length (65 :: [66]) * (8%nat + 2))%nat in txSymbols (k * S (Z.to_nat (fulBit (sending [65; 66] 8)))) (sending [65; 66] 8) = repeat MARK p ++ concat (map (frame_of 8%nat) (65 :: [66])) /\ Fifo.contents (txFIFO (txRun (k * S (Z.to_nat (fulBit (sending [65; 66] 8)))) (sending [65; 66] 8))) = [] /\ tx_state (tx (txRun (k * S (Z.to_nat (fulBit (sending [65; 66] 8)))) (sending [65; 66] 8))) = STOP_BIT).
Proof.
  assert (h1 : tx_active (tx (sending [65; 66] 8)) = ON) by witness_hyp.
  assert (h2 : tx_state (tx (sending [65; 66] 8)) = WAIT) by witness_hyp.
  assert (h3 : tx_clk (tx (sending [65; 66] 8)) = 0) by witness_hyp.
  assert (h4 : Fifo.wf (txFIFO (sending [65; 66] 8))) by witness_hyp.
  assert (h5 : Fifo.contents (txFIFO (sending [65; 66] 8)) = 65 :: [66]) by witness_hyp.
  assert (h6 : dtbits (cfgAFSK (sending [65; 66] 8)) = Z.of_nat 8%nat) by witness_hyp.
  assert (h7 : (1 <= 8%nat <= 8)%nat) by witness_hyp.
  assert (h8 : carBits < 256) by witness_hyp.
  assert (h9 : 0 <= fulBit (sending [65; 66] 8) < 256) by witness_hyp.
  exact (conj h1 (conj h2 (conj h3 (conj h4 (conj h5 (conj h6 (conj h7 (conj h8 (conj h9 (tx_frames_queue (sending [65; 66] 8) 65 [66] 8%nat h1 h2 h3 h4 h5 h6 h7 h8 h9)))))))))).
Defined.

Lemma tx_phase_accumulates_witness :
  (tx_emitting c5_modem = true) /\
  (0 <= tx_clk (tx c5_modem)) /\
  (tx_clk (tx c5_modem) + Z.of_nat 3%nat < fulBit c5_modem) /\
  (fulBit c5_modem < 256) /\
  (0 <= tx_idx (tx c5_modem) < 65536) /\
  (tx_idx (tx (txRun (S 3%nat) c5_modem)) = (tx_idx (tx c5_modem) + Z.of_nat (S 3%nat) * fsq_step (fsq c5_modem (fsqTX c5_modem)) (tx_dtbit (tx c5_modem))) mod 65536 /\ OCR2 (txRun (S 3%nat) c5_modem) = (wave_sample ((tx_idx (tx c5_modem) + Z.of_nat 3%nat * fsq_step (fsq c5_modem (fsqTX c5_modem)) (tx_dtbit (tx c5_modem))) mod 65536)) mod 256 /\ tx_dtbit (tx (txRun (S 3%nat) c5_modem)) = tx_dtbit (tx c5_modem) /\ tx_state (tx (txRun (S 3%nat) c5_modem)) = tx_state (tx c5_modem) /\ txFIFO (txRun (S 3%nat) c5_modem) = txFIFO c5_modem).
Proof.
  assert (h1 : tx_emitting c5_modem = true) by witness_hyp.
  assert (h2 : 0 <= tx_clk (tx c5_modem)) by witness_hyp.
  assert (h3 : tx_clk (tx c5_modem) + Z.of_nat 3%nat < fulBit c5_modem) by witness_hyp.
  assert (h4 : fulBit c5_modem < 256) by witness_hyp.
  assert (h5 : 0 <= tx_idx (tx c5_modem) < 65536) by witness_hyp.
  exact (conj h1 (conj h2 (conj h3 (conj h4 (conj h5 (tx_phase_accumulates c5_modem 3%nat h1 h2 h3 h4 h5)))))).
Defined.

Lemma tx_bit_period_witness :
  (tx_emitting c5_modem = true) /\
  (tx_clk (tx c5_modem) = 0) /\
  (0 <= fulBit c5_modem < 256) /\
  ((forall n, Z.of_nat n <= fulBit c5_modem -> txSymbols n c5_modem = [] /\ tx_state (tx (txRun n c5_modem)) = tx_state (tx c5_modem) /\ tx_dtbit (tx (txRun n c5_modem)) = tx_dtbit (tx c5_modem)) /\ txSymbols (S (Z.to_nat (fulBit c5_modem))) c5_modem = [tx_dtbit (tx (txFrame c5_modem))] /\ tx_state (tx (txRun (S (Z.to_nat (fulBit c5_modem))) c5_modem)) = tx_state (tx (txFrame c5_modem)) /\ tx_clk (tx (txRun (S (Z.to_nat (fulBit c5_modem))) c5_modem)) = 0).
Proof.
  assert (h1 : tx_emitting c5_modem = true) by witness_hyp.
  assert (h2 : tx_clk (tx c5_modem) = 0) by witness_hyp.
  assert (h3 : 0 <= fulBit c5_modem < 256) by witness_hyp.
  exact (conj h1 (conj h2 (conj h3 (tx_bit_period c5_modem h1 h2 h3)))).
Defined.


Lemma tx_trail_new_data_witness :
  (tx_at c_trail TRAIL MARK 0 0 (66 :: [])) /\
  ((u8 (0 + 1) <= carBits -> u8 (0 + 1) <> carBits \/ tx_carrier (tx c_trail) <> OFF -> tx_state (tx (txFrame c_trail)) = START_BIT /\ tx_dtbit (tx (txFrame c_trail)) = SPACE /\ tx_data (tx (txFrame c_trail)) = u8 66 /\ Fifo.contents (txFIFO (txFrame c_trail)) = []) /\ (u8 (0 + 1) = carBits -> tx_carrier (tx c_trail) = OFF -> tx_state (tx (txFrame c_trail)) = TRAIL /\ tx_active (tx (txFrame c_trail)) = ON /\ Fifo.contents (txFIFO (txFrame c_trail)) = 66 :: []) /\ (carBits < u8 (0 + 1) -> tx_state (tx (txFrame c_trail)) = WAIT /\ tx_active (tx (txFrame c_trail)) = OFF /\ Fifo.contents (txFIFO (txFrame c_trail)) = 66 :: [])).
Proof.
  assert (h1 : tx_at c_trail TRAIL MARK 0 0 (66 :: [])) by witness_hyp.
  exact (conj h1 (tx_trail_new_data c_trail MARK 0 0 66 [] h1)).
Defined.

Lemma rx_wait_edge_witness :
  (is_bit 1) /\
  (is_bit 0) /\
  (rx_state (rx (rxDecoder 1 (online0 8 0))) = WAIT) /\
  ((rx_state (rx (rxDecoder 0 (rxDecoder 1 (online0 8 0)))) = PREAMBLE <-> 1 = 1 /\ 0 = 0) /\ (rx_state (rx (rxDecoder 0 (rxDecoder 1 (online0 8 0)))) = WAIT <-> ~ (1 = 1 /\ 0 = 0)) /\ (1 = 1 -> 0 = 0 -> rx_clk (rx (rxDecoder 0 (rxDecoder 1 (online0 8 0)))) = 0 /\ rx_bitsum (rx (rxDecoder 0 (rxDecoder 1 (online0 8 0)))) = 0) /\ rxFIFO (rxDecoder 0 (rxDecoder 1 (online0 8 0))) = rxFIFO (rxDecoder 1 (online0 8 0))).
Proof.
  assert (h1 : is_bit 1) by witness_hyp.
  assert (h2 : is_bit 0) by witness_hyp.
  assert (h3 : rx_state (rx (rxDecoder 1 (online0 8 0))) = WAIT) by witness_hyp.
  exact (conj h1 (conj h2 (conj h3 (rx_wait_edge 1 0 (online0 8 0) h1 h2 h3)))).
Defined.

Lemma rx_data_bit_witness :
  (timing_ok c_data) /\
  (1 <= fulBit c_data) /\
  (rx_state (rx c_data) = DATA_BIT) /\
  (rx_clk (rx c_data) = 0) /\
  (rx_bitsum (rx c_data) = 0) /\
  (0 <= rx_bits (rx c_data) < 255) /\
  (Forall is_bit (repeat 1 32)) /\
  (Z.of_nat (length (repeat 1 32)) = fulBit c_data) /\
  (rx_data (rx (rxFeed (repeat 1 32) c_data)) = Z.lor (Z.shiftr (rx_data (rx c_data)) 1) (if fulBit c_data <? 2 * highs (repeat 1 32) then 128 else 0) /\ rx_bits (rx (rxFeed (repeat 1 32) c_data)) = rx_bits (rx c_data) + 1 /\ rx_bitsum (rx (rxFeed (repeat 1 32) c_data)) = 0 /\ (rx_bits (rx c_data) + 1 < dtbits (cfgAFSK c_data) -> rx_state (rx (rxFeed (repeat 1 32) c_data)) = DATA_BIT /\ rx_clk (rx (rxFeed (repeat 1 32) c_data)) = 0) /\ (dtbits (cfgAFSK c_data) <= rx_bits (rx c_data) + 1 -> rx_state (rx (rxFeed (repeat 1 32) c_data)) = STOP_BIT /\ rx_clk (rx (rxFeed (repeat 1 32) c_data)) = hlfBit c_data) /\ rxFIFO (rxFeed (repeat 1 32) c_data) = rxFIFO c_data).
Proof.
  assert (h1 : timing_ok c_data) by witness_hyp.
  assert (h2 : 1 <= fulBit c_data) by witness_hyp.
  assert (h3 : rx_state (rx c_data) = DATA_BIT) by witness_hyp.
  assert (h4 : rx_clk (rx c_data) = 0) by witness_hyp.
  assert (h5 : rx_bitsum (rx c_data) = 0) by witness_hyp.
  assert (h6 : 0 <= rx_bits (rx c_data) < 255) by witness_hyp.
  assert (h7 : Forall is_bit (repeat 1 32)) by witness_hyp.
  assert (h8 : Z.of_nat (length (repeat 1 32)) = fulBit c_data) by witness_hyp.
  exact (conj h1 (conj h2 (conj h3 (conj h4 (conj h5 (conj h6 (conj h7 (conj h8 (rx_data_bit c_data (repeat 1 32) h1 h2 h3 h4 h5 h6 h7 h8))))))))).
Defined.

Lemma rx_start_bit_witness :
  (timing_ok c6_modem) /\
  (2 <= fulBit c6_modem) /\
  (rx_state (rx c6_modem) = PREAMBLE) /\
  (rx_clk (rx c6_modem) = 0) /\
  (rx_bitsum (rx c6_modem) = 0) /\
  (Forall is_bit c6_samples) /\
  (Forall is_bit (repeat 0 16)) /\
  (Z.of_nat (length c6_samples) = hlfBit c6_modem) /\
  (Z.of_nat (length (repeat 0 16)) = fulBit c6_modem - hlfBit c6_modem) /\
  (8 * highs c6_samples <= fulBit c6_modem) /\
  ((4 * (highs c6_samples + highs (repeat 0 16)) <= fulBit c6_modem -> rx_state (rx (rxFeed (c6_samples ++ (repeat 0 16)) c6_modem)) = DATA_BIT /\ rx_data (rx (rxFeed (c6_samples ++ (repeat 0 16)) c6_modem)) = 0 /\ rx_clk (rx (rxFeed (c6_samples ++ (repeat 0 16)) c6_modem)) = 0 /\ rx_bitsum (rx (rxFeed (c6_samples ++ (repeat 0 16)) c6_modem)) = 0 /\ rx_bits (rx (rxFeed (c6_samples ++ (repeat 0 16)) c6_modem)) = 0) /\ (fulBit c6_modem < 4 * (highs c6_samples + highs (repeat 0 16)) -> rx_state (rx (rxFeed (c6_samples ++ (repeat 0 16)) c6_modem)) = WAIT) /\ rxFIFO (rxFeed (c6_samples ++ (repeat 0 16)) c6_modem) = rxFIFO c6_modem).
Proof.
  assert (h1 : timing_ok c6_modem) by witness_hyp.
  assert (h2 : 2 <= fulBit c6_modem) by witness_hyp.
  assert (h3 : rx_state (rx c6_modem) = PREAMBLE) by witness_hyp.
  assert (h4 : rx_clk (rx c6_modem) = 0) by witness_hyp.
  assert (h5 : rx_bitsum (rx c6_modem) = 0) by witness_hyp.
  assert (h6 : Forall is_bit c6_samples) by witness_hyp.
  assert (h7 : Forall is_bit (repeat 0 16)) by witness_hyp.
  assert (h8 : Z.of_nat (length c6_samples) = hlfBit c6_modem) by witness_hyp.
  assert (h9 : Z.of_nat (length (repeat 0 16)) = fulBit c6_modem - hlfBit c6_modem) by witness_hyp.
  assert (h10 : 8 * highs c6_samples <= fulBit c6_modem) by witness_hyp.
  exact (conj h1 (conj h2 (conj h3 (conj h4 (conj h5 (conj h6 (conj h7 (conj h8 (conj h9 (conj h10 (rx_start_bit c6_modem c6_samples (repeat 0 16) h1 h2 h3 h4 h5 h6 h7 h8 h9 h10))))))))))).
Defined.

Lemma rx_decodes_character_witness :
  (timing_ok c_data) /\
  (1 <= fulBit c_data) /\
  (rx_state (rx c_data) = DATA_BIT) /\
  (rx_clk (rx c_data) = 0) /\
  (rx_bitsum (rx c_data) = 0) /\
  (rx_bits (rx c_data) = 0) /\
  (rx_data (rx c_data) = 0) /\
  (dtbits (cfgAFSK c_data) = Z.of_nat 8%nat) /\
  ((1 <= 8%nat <= 8)%nat) /\
  (let samples := bit_samples (Z.to_nat (fulBit c_data)) (lsb_bits 8%nat 65) ++ repeat MARK (Z.to_nat (fulBit c_data - hlfBit c_data)) in rx_state (rx (rxFeed samples c_data)) = WAIT /\ rxFIFO (rxFeed samples c_data) = snd (Fifo.put ((65 mod 2 ^ Z.of_nat 8%nat) * 2 ^ (8 - Z.of_nat 8%nat)) (rxFIFO c_data))).
Proof.
  assert (h1 : timing_ok c_data) by witness_hyp.
  assert (h2 : 1 <= fulBit c_data) by witness_hyp.
  assert (h3 : rx_state (rx c_data) = DATA_BIT) by witness_hyp.
  assert (h4 : rx_clk (rx c_data) = 0) by witness_hyp.
  assert (h5 : rx_bitsum (rx c_data) = 0) by witness_hyp.
  assert (h6 : rx_bits (rx c_data) = 0) by witness_hyp.
  assert (h7 : rx_data (rx c_data) = 0) by witness_hyp.
  assert (h8 : dtbits (cfgAFSK c_data) = Z.of_nat 8%nat) by witness_hyp.
  assert (h9 : (1 <= 8%nat <= 8)%nat) by witness_hyp.
  exact (conj h1 (conj h2 (conj h3 (conj h4 (conj h5 (conj h6 (conj h7 (conj h8 (conj h9 (rx_decodes_character c_data 65 8%nat h1 h2 h3 h4 h5 h6 h7 h8 h9)))))))))).
Defined.

Lemma doSIO_takes_byte_witness :
  (_mode (Serial_arrive 65 (online0 8 0)) = DATA_MODE) /\
  (escCount (Serial_arrive 65 (online0 8 0)) <> 3) /\
  (serial_in (Serial_arrive 65 (online0 8 0)) = 65 :: []) /\
  (Fifo.wf (txFIFO (Serial_arrive 65 (online0 8 0)))) /\
  (48 <= Z.of_nat (Fifo.cap (txFIFO (Serial_arrive 65 (online0 8 0))))) /\
  ((Fifo.len (txFIFO (Serial_arrive 65 (online0 8 0))) < 48 -> Fifo.len (txFIFO (Serial_arrive 65 (online0 8 0))) < 32 \/ flowControl (Serial_arrive 65 (online0 8 0)) = false -> serial_in (snd (doSIO 0 (Serial_arrive 65 (online0 8 0)))) = [] /\ Fifo.contents (txFIFO (snd (doSIO 0 (Serial_arrive 65 (online0 8 0))))) = Fifo.contents (txFIFO (Serial_arrive 65 (online0 8 0))) ++ [u8 65] /\ lstChar (snd (doSIO 0 (Serial_arrive 65 (online0 8 0)))) = u32 0 /\ tx_active (tx (snd (doSIO 0 (Serial_arrive 65 (online0 8 0))))) = ON /\ Z.testbit (PORTB (snd (doSIO 0 (Serial_arrive 65 (online0 8 0))))) 1 = true) /\ (48 <= Fifo.len (txFIFO (Serial_arrive 65 (online0 8 0))) \/ (32 <= Fifo.len (txFIFO (Serial_arrive 65 (online0 8 0))) /\ flowControl (Serial_arrive 65 (online0 8 0)) = true) -> serial_in (snd (doSIO 0 (Serial_arrive 65 (online0 8 0)))) = 65 :: [] /\ txFIFO (snd (doSIO 0 (Serial_arrive 65 (online0 8 0)))) = txFIFO (Serial_arrive 65 (online0 8 0)))).
Proof.
  assert (h1 : _mode (Serial_arrive 65 (online0 8 0)) = DATA_MODE) by witness_hyp.
  assert (h2 : escCount (Serial_arrive 65 (online0 8 0)) <> 3) by witness_hyp.
  assert (h3 : serial_in (Serial_arrive 65 (online0 8 0)) = 65 :: []) by witness_hyp.
  assert (h4 : Fifo.wf (txFIFO (Serial_arrive 65 (online0 8 0)))) by witness_hyp.
  assert (h5 : 48 <= Z.of_nat (Fifo.cap (txFIFO (Serial_arrive 65 (online0 8 0))))) by witness_hyp.
  exact (conj h1 (conj h2 (conj h3 (conj h4 (conj h5 (doSIO_takes_byte 0 65 [] (Serial_arrive 65 (online0 8 0)) h1 h2 h3 h4 h5)))))).
Defined.


Lemma ideal_line_bit7_witness :
  (0 <= 65 < 256) /\
  (Fifo.contents (rxFIFO (ideal_line (700 + 0%nat) (sending [65] 8))) = (if 128 <=? 65 then [65] else [])).
Proof.
  assert (h1 : 0 <= 65 < 256) by witness_hyp.
  exact (conj h1 (ideal_line_bit7 65 0%nat h1)).
Defined.

Lemma initHW_ramp_never_ends_witness :
  255 <= @wave_sample full_scale 0 /\
  @rampDAC full_scale 1000 0 blank_full = None.
Proof.
  assert (h1 : 255 <= @wave_sample full_scale 0) by (cbn; lia).
  exact (conj h1 (@initHW_ramp_never_ends full_scale 1000 blank_full h1)).
Defined.

